(** * The multi-provider AI service gateway and its conversation orchestrator

    A shallow embedding of [ai_service.py] (the gateway: provider
    selection, chat completion, speech-to-text, text-to-speech, the WAV
    container writer), of the two conversation endpoints of
    [routers/chat.py], and of the agent and session endpoints of
    [routers/agents.py] and [routers/sessions.py] that share their
    tables.

    Conventions of the embedding.
    - A Python [str] is a [string]; [bytes] is a [list byte]; a value that
      may be Python's [None] is an [option].
    - A coroutine is a computation in the monad [M]: it threads the
      [World] (file system, database tables, the log of observable
      effects, the supplies behind [uuid.uuid4()] and [datetime.now()])
      and either returns a value or raises an exception.
    - The three vendors are outside the program.  Their answers are the
      fields of a record [Vendors]; every theorem holds for all of them.
    - So are the interpreter's [str.lower] and the constructors of the SDK
      clients (the record [Platform]), and the operating system's answer
      to the creation of a file for an upload (the field [create_error] of
      [Runtime]). *)

From stdpp Require Import base option list strings pretty gmap.
From Stdlib Require Import ZArith NArith QArith Ascii String Lia.
From Stdlib Require Import Strings.Byte.
From Stdlib Require Import Sorting.Sorted.

Open Scope string_scope.
Open Scope list_scope.

(** ** Strings *)

(** A Python [str] is held as the bytes of its UTF-8 encoding; it is an
    ASCII string when every byte is below 128. *)
Fixpoint is_ascii (s : string) : bool :=
  match s with
  | EmptyString => true
  | String c s' => (nat_of_ascii c <? 128)%nat && is_ascii s'
  end.

(** Case folding of the ASCII range: the letters A..Z move to a..z, every
    other byte is kept.  This is what [str.lower()] does to an ASCII
    string; what it does to the other strings is left to the interpreter
    (see [Platform] below). *)
Definition lower_ascii (c : ascii) : ascii :=
  let n := nat_of_ascii c in
  if (65 <=? n)%nat && (n <=? 90)%nat then ascii_of_nat (n + 32) else c.

Fixpoint ascii_lower (s : string) : string :=
  match s with
  | EmptyString => EmptyString
  | String c s' => String (lower_ascii c) (ascii_lower s')
  end.

(** ** Exceptions and results *)

Inductive exn : Type :=
  | ValueError (msg : string)
  | FileNotFoundError (path : string)
  | IndexError (msg : string)
  | TypeError (msg : string)
  | AttributeError (msg : string)
  | WaveError (msg : string)
  | StructError (msg : string)
  | IntegrityError (msg : string)
  | ProviderError (msg : string)
  | HTTPException (status_code : nat) (detail : string).

(** [str(e)] as the endpoints interpolate it into the detail of a 500. *)
Definition exn_str (e : exn) : string :=
  match e with
  | ValueError m | IndexError m | TypeError m | AttributeError m | WaveError m
  | StructError m | IntegrityError m | ProviderError m => m
  | FileNotFoundError p =>
      "[Errno 2] No such file or directory: '" +:+ p +:+ "'"
  | HTTPException c d => d
  end.

Inductive result (A : Type) : Type :=
  | Ok (a : A)
  | Raise (e : exn).
Arguments Ok {A} a.
Arguments Raise {A} e.

Definition is_ok {A} (r : result A) : bool :=
  match r with Ok _ => true | Raise _ => false end.

(** ** Configuration: [os.getenv] and the gateway's constructor *)

Definition getenv (env : gmap string string) (key default : string) : string :=
  match env !! key with
  | Some v => v
  | None => default
  end.

Definition getenv_opt (env : gmap string string) (key : string) : option string :=
  env !! key.

Record AIServiceFactory : Type := {
  provider : string;
  openai_client : option string;   (* the api_key each client was built with *)
  groq_client : option string;
  gemini_client : option string
}.

(** What the constructor takes from outside the repository: the
    interpreter's [str.lower], and the constructors of the three SDK
    clients.  A client constructor sees the environment (the SDKs read
    variables of their own) and the [api_key] argument, and either builds
    the client ([None]) or raises ([Some e]); the three of them raise when
    they find no key. *)
Record Platform : Type := {
  str_lower : string -> string;
  AsyncOpenAI : gmap string string -> option string -> option exn;
  AsyncGroq : gmap string string -> option string -> option exn;
  genai_Client : gmap string string -> option string -> option exn
}.

(** On an ASCII string [str.lower] is the case folding above. *)
Definition str_lower_on_ascii (P : Platform) : Prop :=
  forall s, is_ascii s = true -> str_lower P s = ascii_lower s.

(** [AIServiceFactory.__init__]: the selection first, then the clients in
    the order openai, groq, gemini; the first constructor that raises ends
    the construction, and with it the import of the module. *)
Definition AIServiceFactory_init (P : Platform) (env : gmap string string)
  : result AIServiceFactory :=
  let provider_ := str_lower P (getenv env "ACTIVE_AI_PROVIDER" "openai") in
  let openai_key := getenv_opt env "OPENAI_API_KEY" in
  match AsyncOpenAI P env openai_key with
  | Some e => Raise e
  | None =>
      let groq_key := getenv_opt env "GROQ_API_KEY" in
      match AsyncGroq P env groq_key with
      | Some e => Raise e
      | None =>
          let gemini_key := getenv_opt env "GEMINI_API_KEY" in
          match genai_Client P env gemini_key with
          | Some e => Raise e
          | None =>
              Ok {| provider := provider_;
                    openai_client := openai_key;
                    groq_client := groq_key;
                    gemini_client := gemini_key |}
          end
      end
  end.

(** [AIServiceFactory.active_model_name] *)
Definition active_model_name (self : AIServiceFactory) : string :=
  if String.eqb (provider self) "gemini" then "gemini-2.5-flash"
  else if String.eqb (provider self) "groq" then "llama-3.3-70b-versatile"
  else if String.eqb (provider self) "openai" then "gpt-4o-mini"
  else "unknown".

(** A gateway whose selection is already lower-cased, as the capability
    methods see it. *)
Definition with_provider (p : string) : AIServiceFactory :=
  {| provider := p; openai_client := None; groq_client := None;
     gemini_client := None |}.

Definition recognized (p : string) : bool :=
  String.eqb p "gemini" || String.eqb p "groq" || String.eqb p "openai".

(** ** Bytes and [struct.pack] *)

Abbreviation bytes := (list byte).

Definition byte_of_Z (z : Z) : byte :=
  match Byte.of_N (Z.to_N (z mod 256)) with
  | Some b => b
  | None => x00
  end.

Definition Z_of_byte (b : byte) : Z := Z.of_N (Byte.to_N b).

(** [struct.pack('<L', n)] and [struct.pack('<H', n)]: little endian,
    [struct.error] when [n] does not fit. *)
Definition le32 (n : Z) : bytes :=
  [byte_of_Z n; byte_of_Z (n / 2 ^ 8); byte_of_Z (n / 2 ^ 16);
   byte_of_Z (n / 2 ^ 24)].

Definition le16 (n : Z) : bytes := [byte_of_Z n; byte_of_Z (n / 2 ^ 8)].

Definition pack_L (n : Z) : option bytes :=
  if (0 <=? n)%Z && (n <? 2 ^ 32)%Z then Some (le32 n) else None.

Definition pack_H (n : Z) : option bytes :=
  if (0 <=? n)%Z && (n <? 2 ^ 16)%Z then Some (le16 n) else None.

Definition unpack_L (b0 b1 b2 b3 : byte) : Z :=
  (Z_of_byte b0 + 2 ^ 8 * Z_of_byte b1 + 2 ^ 16 * Z_of_byte b2
   + 2 ^ 24 * Z_of_byte b3)%Z.

Definition unpack_H (b0 b1 : byte) : Z :=
  (Z_of_byte b0 + 2 ^ 8 * Z_of_byte b1)%Z.

Definition b_ (s : string) : bytes := list_byte_of_string s.

Fixpoint bytes_eqb (x y : bytes) : bool :=
  match x, y with
  | [], [] => true
  | a :: x', c :: y' => Byte.eqb a c && bytes_eqb x' y'
  | _, _ => false
  end.

(** ** What the gateway sends to a vendor *)

(** One element of a chat history or of a flat message list: the dict
    [{"role": ..., "content": ...}]. *)
Record ChatEntry : Type := { role : string; content : string }.

(** [google.genai.types.Part], [types.Content] and the [contents]
    argument of [generate_content]. *)
Inductive Part : Type :=
  | Part_from_text (text : string)
  | Part_from_bytes (data : bytes) (mime_type : string).

Inductive ContentItem : Type :=
  | Content (role : string) (parts : list Part)
  | ContentStr (s : string)
  | ContentPart (p : Part).

Inductive Contents : Type :=
  | ContentsList (items : list ContentItem)
  | ContentsStr (s : option string).   (* a bare value; [None] if the caller had none *)

(** [types.GenerateContentConfig]; [voice_name] is the name inside
    [speech_config.voice_config.prebuilt_voice_config]. *)
Record GenerateContentConfig : Type := {
  system_instruction : option string;
  response_modalities : list string;
  voice_name : option string
}.

(** The [file] argument of a transcription request: an open binary file
    object (known to the SDK by the path it was opened from), or the tuple
    [(filename, data)]. *)
Inductive FileArg : Type :=
  | FileObj (name : string) (stream : bytes)
  | FileTuple (filename : string) (data : bytes).

Inductive VendorCall : Type :=
  | openai_chat_completions_create (model : string) (messages : list ChatEntry)
  | groq_chat_completions_create (model : string) (messages : list ChatEntry)
  | gemini_generate_content (model : string) (contents : Contents)
      (config : option GenerateContentConfig)
  | openai_audio_transcriptions_create (model : string) (file : FileArg)
  | groq_audio_transcriptions_create (file : FileArg) (model : string)
      (response_format language : string)
  | groq_audio_speech_create (model voice : string) (input : option string)
      (response_format : string)
  | openai_audio_speech_create (model voice : string) (input : option string).

(** ** What a vendor answers *)

(** [response.choices]: each choice is reduced to its [message.content]. *)
Definition ChatCompletion : Type := list (option string).

(** [GenerateContentResponse]: [.text], and [.candidates], which the SDK
    leaves [None] when the reply has no such member; for every candidate
    the [inline_data.data] of each of its [content.parts]. *)
Record GenerateContentResponse : Type := {
  text : option string;
  candidates_opt : option (list (list (option bytes)))
}.

(** The candidates of a reply that has some. *)
Definition candidates (r : GenerateContentResponse)
  : list (list (option bytes)) :=
  default [] (candidates_opt r).

(** A streamed binary body: the chunks that arrive, and the error that
    interrupts the stream, if any. *)
Record BinaryStream : Type := {
  chunks : list bytes;
  broken : option exn
}.

Record Vendors : Type := {
  openai_chat : string -> list ChatEntry -> result ChatCompletion;
  groq_chat : string -> list ChatEntry -> result ChatCompletion;
  gemini_generate :
    string -> Contents -> option GenerateContentConfig ->
    result GenerateContentResponse;
  openai_transcribe : string -> FileArg -> result string;
  groq_transcribe : FileArg -> string -> string -> string -> result string;
  groq_speech :
    string -> string -> option string -> string -> result BinaryStream;
  openai_speech : string -> string -> option string -> result BinaryStream
}.

(** What the process gets from its surroundings: the n-th
    [uuid.uuid4()], as [str()] prints it, the n-th reading of
    [datetime.now()], and the error the operating system answers when a
    file is to be created at a path (its directory is missing, the name is
    refused), if any. *)
Record Runtime : Type := {
  uuid4 : nat -> string;
  now : nat -> Z;
  create_error : string -> option exn
}.

(** ** The persistence models of [models.py]

    Only the columns the endpoints read or write.  The three primary keys
    are all called [id] in the source; they are [agent_id], [id] and
    [message_id] here, and the foreign key [Session.agent_id] is
    [agent_id_fk].  Keys are UUIDs, kept as [str()] prints them. *)

Module models.

Record Agent : Type := {
  agent_id : string;
  name : string;
  prompt : string
}.

Record Session : Type := {
  id : string;
  agent_id_fk : string
}.

(** A row of the message table; [content] is a NOT NULL column. *)
Record Message : Type := {
  message_id : string;
  session_id : string;
  role : string;
  content : string;
  audio_file_path : option string;
  created_at : Z
}.

End models.

Record Database : Type := {
  agents : list models.Agent;
  sessions : list models.Session;
  messages : list models.Message
}.

(** ** The world and the log of observable effects *)

Inductive Event : Type :=
  | EvOpen (path : string)                    (* open(path, "rb") *)
  | EvRead (path : string) (data : bytes)     (* f.read() *)
  | EvWrite (path : string) (data : bytes)    (* the file as left at close *)
  | EvCall (c : VendorCall) (returned : bool) (* a request to a vendor *)
  | EvCommit (m : models.Message).            (* db.add(m); db.commit() *)

Record World : Type := {
  fs : gmap string bytes;
  db : Database;
  log : list Event;
  uuids_drawn : nat;
  clock_reads : nat
}.

Definition M (A : Type) : Type := World -> result A * World.

Definition ret {A} (a : A) : M A := fun w => (Ok a, w).

Definition raise {A} (e : exn) : M A := fun w => (Raise e, w).

Definition bind {A B} (m : M A) (k : A -> M B) : M B :=
  fun w =>
    match m w with
    | (Ok a, w') => k a w'
    | (Raise e, w') => (Raise e, w')
    end.

(** [try: m  except Exception as e: h e] *)
Definition try_except {A} (m : M A) (h : exn -> M A) : M A :=
  fun w =>
    match m w with
    | (Ok a, w') => (Ok a, w')
    | (Raise e, w') => h e w'
    end.

Declare Scope py_scope.
Delimit Scope py_scope with py.
Notation "'let!' x ':=' m 'in' k" := (bind m (fun x => k))
  (at level 10, x name, m at level 100, k at level 200) : py_scope.
Notation "'run!' m 'in' k" := (bind m (fun _ => k))
  (at level 10, m at level 100, k at level 200) : py_scope.
Open Scope py_scope.

Definition emit (e : Event) : M unit :=
  fun w => (Ok tt, {| fs := fs w; db := db w; log := log w ++ [e];
                      uuids_drawn := uuids_drawn w;
                      clock_reads := clock_reads w |}).

Definition lift {A} (r : result A) : M A := fun w => (r, w).

(** ** Files *)

Definition set_fs (f : gmap string bytes) (w : World) : World :=
  {| fs := f; db := db w; log := log w;
     uuids_drawn := uuids_drawn w; clock_reads := clock_reads w |}.

(** [open(path, "rb")]: the file object, or [FileNotFoundError]. *)
Definition open_rb (path : string) : M bytes :=
  fun w =>
    match fs w !! path with
    | Some data => (run! emit (EvOpen path) in ret data) w
    | None => (Raise (FileNotFoundError path), w)
    end.

(** [f.read()] on a freshly opened file: the whole content. *)
Definition read_all (path : string) (stream : bytes) : M bytes :=
  run! emit (EvRead path stream) in ret stream.

(** The state of [path] once a writer has closed it. *)
Definition write_file (path : string) (data : bytes) : M unit :=
  fun w => emit (EvWrite path data) (set_fs (<[path := data]> (fs w)) w).

(** ** The Audio Container Writer: [save_wave_file] over [wave.Wave_write] *)

(** The 44 bytes [Wave_write._write_header] emits for a data section of
    [datalength] bytes; [None] is [struct.error]. *)
Definition wave_header (nchannels sampwidth framerate datalength : Z)
  : option bytes :=
  l1 ← pack_L (36 + datalength);
  h1 ← pack_H 1;
  h2 ← pack_H nchannels;
  l2 ← pack_L framerate;
  l3 ← pack_L (nchannels * framerate * sampwidth);
  h3 ← pack_H (nchannels * sampwidth);
  h4 ← pack_H (sampwidth * 8);
  l0 ← pack_L 16;
  l4 ← pack_L datalength;
  Some (b_ "RIFF" ++ l1 ++ b_ "WAVE" ++ b_ "fmt " ++ l0 ++ h1 ++ h2 ++ l2
        ++ l3 ++ h3 ++ h4 ++ b_ "data" ++ l4)%list.

(** [wf.writeframes(pcm)] followed by the [close()] of the [with] block,
    as the bytes left in the file.  The header is first written for
    [nframes * framesize] bytes and patched to the number of bytes really
    written when the two differ. *)
Definition wave_writeframes_close
    (nchannels sampwidth framerate : Z) (pcm : bytes) : bytes * option exn :=
  let initlength := Z.of_nat (List.length pcm) in
  let nframes := (initlength / (nchannels * sampwidth))%Z in
  let datalength := (nframes * nchannels * sampwidth)%Z in
  match wave_header nchannels sampwidth framerate datalength with
  | None =>
      ((b_ "RIFF" ++ b_ "RIFF")%list, Some (StructError "argument out of range"))
  | Some hdr =>
      if (datalength =? initlength)%Z then ((hdr ++ pcm)%list, None)
      else
        match wave_header nchannels sampwidth framerate initlength with
        | Some hdr' => ((hdr' ++ pcm)%list, None)
        | None => ((hdr ++ pcm)%list, Some (StructError "argument out of range"))
        end
  end.

(** [save_wave_file(filename, pcm, channels, rate, sample_width)] *)
Definition save_wave_file (filename : string) (pcm : bytes)
    (channels rate sample_width : Z) : M unit :=
  (* wave.open(filename, "wb") creates the file *)
  if (channels <? 1)%Z then
    run! write_file filename [] in raise (WaveError "# channels not specified")
  else if (sample_width <? 1)%Z || (4 <? sample_width)%Z then
    run! write_file filename [] in raise (WaveError "sample width not specified")
  else if (rate <=? 0)%Z then
    run! write_file filename [] in raise (WaveError "sampling rate not specified")
  else
    match wave_writeframes_close channels sample_width rate pcm with
    | (out, None) => write_file filename out
    | (out, Some e) => run! write_file filename out in raise e
    end.

(** The defaults of the signature: [channels=1, rate=24000, sample_width=2]. *)
Definition default_channels : Z := 1.
Definition default_rate : Z := 24000.
Definition default_sample_width : Z := 2.

Definition save_wave_file_default (filename : string) (pcm : bytes) : M unit :=
  save_wave_file filename pcm default_channels default_rate default_sample_width.

(** The header of a mono, 16-bit, 24 kHz file with [L] bytes of samples,
    field by field (RIFF size, format chunk of 16 bytes, PCM tag 1, one
    channel, 24000 frames and 48000 bytes per second, block align 2, 16
    bits per sample, data size). *)
Definition default_header (L : Z) : bytes :=
  b_ "RIFF" ++ le32 (36 + L) ++ b_ "WAVE" ++ b_ "fmt " ++ le32 16
  ++ le16 1 ++ le16 1 ++ le32 24000 ++ le32 48000 ++ le16 2
  ++ le16 16 ++ b_ "data" ++ le32 L.

(** ** Reading a WAV file back: [wave.Wave_read]

    What [wave.open(f, "rb")] reports: the RIFF/WAVE preamble, then the
    chunks in order; the [fmt ] chunk gives the channel count, the frame
    rate and the sample width, the [data] chunk ends the walk and gives
    [nframes = chunksize // framesize]. *)

Record WaveParams : Type := {
  getnchannels : Z;
  getsampwidth : Z;
  getframerate : Z;
  getnframes : Z
}.

Fixpoint read_chunks (fuel : nat) (rest : bytes) (fmt : option (Z * Z * Z))
  : option WaveParams :=
  match fuel with
  | O => None
  | S fuel' =>
      match rest with
      | n0 :: n1 :: n2 :: n3 :: s0 :: s1 :: s2 :: s3 :: body =>
          let chunksize := unpack_L s0 s1 s2 s3 in
          let skip := Z.to_nat (chunksize + chunksize mod 2) in
          if bytes_eqb [n0; n1; n2; n3] (b_ "fmt ") then
            match body with
            | t0 :: t1 :: c0 :: c1 :: r0 :: r1 :: r2 :: r3
              :: _ :: _ :: _ :: _ :: _ :: _ :: w0 :: w1 :: _ =>
                let sampwidth := ((unpack_H w0 w1 + 7) / 8)%Z in
                let nchannels := unpack_H c0 c1 in
                if negb (unpack_H t0 t1 =? 1)%Z then None
                else if (sampwidth =? 0)%Z then None
                else if (nchannels =? 0)%Z then None
                else read_chunks fuel' (drop skip body)
                       (Some (nchannels, sampwidth, unpack_L r0 r1 r2 r3))
            | _ => None
            end
          else if bytes_eqb [n0; n1; n2; n3] (b_ "data") then
            match fmt with
            | Some (nchannels, sampwidth, framerate) =>
                Some {| getnchannels := nchannels;
                        getsampwidth := sampwidth;
                        getframerate := framerate;
                        getnframes := (chunksize / (nchannels * sampwidth))%Z |}
            | None => None
            end
          else read_chunks fuel' (drop skip body) fmt
      | _ => None
      end
  end.

Definition Wave_read (f : bytes) : option WaveParams :=
  match f with
  | r0 :: r1 :: r2 :: r3 :: _ :: _ :: _ :: _ :: w0 :: w1 :: w2 :: w3 :: rest =>
      if bytes_eqb [r0; r1; r2; r3] (b_ "RIFF")
         && bytes_eqb [w0; w1; w2; w3] (b_ "WAVE")
      then read_chunks (List.length rest) rest None
      else None
  | _ => None
  end.

(** Playback duration in seconds: frames over frames per second. *)
Definition duration (p : WaveParams) : Q :=
  (inject_Z (getnframes p) / inject_Z (getframerate p))%Q.

Section Gateway.

Context (V : Vendors).

(** *** Calls to the vendors, logged with their outcome *)

Definition call {A} (c : VendorCall) (answer : result A) : M A :=
  run! emit (EvCall c (is_ok answer)) in lift answer.

Definition chat_completions_openai (model : string) (messages : list ChatEntry)
  : M ChatCompletion :=
  call (openai_chat_completions_create model messages)
       (openai_chat V model messages).

Definition chat_completions_groq (model : string) (messages : list ChatEntry)
  : M ChatCompletion :=
  call (groq_chat_completions_create model messages)
       (groq_chat V model messages).

Definition generate_content (model : string) (contents : Contents)
    (config : option GenerateContentConfig) : M GenerateContentResponse :=
  call (gemini_generate_content model contents config)
       (gemini_generate V model contents config).

(** [response.choices[0].message.content] *)
Definition first_choice (choices : ChatCompletion) : M (option string) :=
  match choices with
  | c :: _ => ret c
  | [] => raise (IndexError "list index out of range")
  end.

(** The loop building [gemini_history]. *)
Definition gemini_turn (msg : ChatEntry) : ContentItem :=
  Content (if String.eqb (role msg) "user" then "user" else "model")
          [Part_from_text (content msg)].

Definition gemini_history_of (chat_history : list ChatEntry) : list ContentItem :=
  fold_left (fun acc msg => acc ++ [gemini_turn msg]) chat_history [].

(** [messages] of the flat convention: built, extended, appended to. *)
Definition flat_messages (system_prompt : string)
    (chat_history : list ChatEntry) (new_message : string) : list ChatEntry :=
  (([{| role := "system"; content := system_prompt |}] ++ chat_history)
     ++ [{| role := "user"; content := new_message |}])%list.

(** [AIServiceFactory.generate_chat_response] *)
Definition generate_chat_response (self : AIServiceFactory)
    (system_prompt : string) (chat_history : list ChatEntry)
    (new_message : string) : M (option string) :=
  if String.eqb (provider self) "gemini" then
    let gemini_history := gemini_history_of chat_history in
    let! response :=
      generate_content "gemini-2.5-flash"
        (ContentsList (gemini_history ++ [ContentStr new_message]))
        (Some {| system_instruction := Some system_prompt;
                 response_modalities := [];
                 voice_name := None |}) in
    ret (text response)
  else
    let messages := flat_messages system_prompt chat_history new_message in
    if String.eqb (provider self) "openai" then
      let! response := chat_completions_openai "gpt-4o-mini" messages in
      first_choice response
    else if String.eqb (provider self) "groq" then
      let! response :=
        chat_completions_groq "llama-3.3-70b-versatile" messages in
      first_choice response
    else
      raise (ValueError ("Unsupported AI Provider: " +:+ provider self)).

(** [AIServiceFactory.transcribe_audio] *)
Definition transcribe_audio (self : AIServiceFactory) (file_path : string)
  : M (option string) :=
  if String.eqb (provider self) "gemini" then
    let! f := open_rb file_path in
    let! audio_bytes := read_all file_path f in
    let! response :=
      generate_content "gemini-2.5-flash"
        (ContentsList
           [ContentStr "Generate an exact transcript of this audio.";
            ContentPart (Part_from_bytes audio_bytes "audio/webm")])
        None in
    ret (text response)
  else if String.eqb (provider self) "groq" then
    let! file := open_rb file_path in
    let! data := read_all file_path file in
    let! transcription :=
      (let c := FileTuple "audio.webm" data in
       call (groq_audio_transcriptions_create c "whisper-large-v3-turbo"
               "json" "en")
            (groq_transcribe V c "whisper-large-v3-turbo" "json" "en")) in
    ret (Some transcription)
  else if String.eqb (provider self) "openai" then
    let! file := open_rb file_path in
    let! transcription :=
      (let c := FileObj file_path file in
       call (openai_audio_transcriptions_create "gpt-4o-transcribe" c)
            (openai_transcribe V "gpt-4o-transcribe" c)) in
    ret (Some transcription)
  else
    ret None.

(** [response.candidates[0].content.parts[0].inline_data.data] *)
Definition first_inline_data (response : GenerateContentResponse) : M bytes :=
  match candidates_opt response with
  | None => raise (TypeError "'NoneType' object is not subscriptable")
  | Some ((Some data :: _) :: _) => ret data
  | Some ((None :: _) :: _) =>
      raise (AttributeError "'NoneType' object has no attribute 'data'")
  | Some ([] :: _) | Some [] => raise (IndexError "list index out of range")
  end.

(** [response.stream_to_file(path)]: every chunk that arrives is written;
    an interrupted stream raises after the chunks received so far. *)
Definition stream_to_file (path : string) (response : BinaryStream) : M unit :=
  run! write_file path (List.concat (chunks response)) in
  match broken response with
  | None => ret tt
  | Some e => raise e
  end.

(** [AIServiceFactory.text_to_speech] *)
Definition text_to_speech (self : AIServiceFactory) (text_ : option string)
    (output_path : string) : M string :=
  run!
    (if String.eqb (provider self) "gemini" then
       let! response :=
         generate_content "gemini-2.5-flash-preview-tts"
           (ContentsStr text_)
           (Some {| system_instruction := None;
                    response_modalities := ["AUDIO"];
                    voice_name := Some "Kore" |}) in
       let! data := first_inline_data response in
       save_wave_file_default output_path data
     else if String.eqb (provider self) "groq" then
       let! response :=
         call (groq_audio_speech_create "playai-tts" "Fritz-PlayAI" text_ "wav")
              (groq_speech V "playai-tts" "Fritz-PlayAI" text_ "wav") in
       stream_to_file output_path response
     else if String.eqb (provider self) "openai" then
       let! response :=
         call (openai_audio_speech_create "gpt-4o-mini-tts" "coral" text_)
              (openai_speech V "gpt-4o-mini-tts" "coral" text_) in
       stream_to_file output_path response
     else ret tt) in
  ret output_path.

End Gateway.

(** ** The conversation orchestrator: [routers/chat.py] *)

Section Orchestrator.

Context (V : Vendors) (R : Runtime).

(** The module-level gateway [ai_service]. *)
Context (ai_service : AIServiceFactory).

Definition set_db (d : Database) (w : World) : World :=
  {| fs := fs w; db := d; log := log w;
     uuids_drawn := uuids_drawn w; clock_reads := clock_reads w |}.

(** [uuid.uuid4()], printed. *)
Definition fresh_uuid : M string :=
  fun w => (Ok (uuid4 R (uuids_drawn w)),
            {| fs := fs w; db := db w; log := log w;
               uuids_drawn := S (uuids_drawn w);
               clock_reads := clock_reads w |}).

(** [datetime.now(timezone.utc)] *)
Definition utcnow : M Z :=
  fun w => (Ok (now R (clock_reads w)),
            {| fs := fs w; db := db w; log := log w;
               uuids_drawn := uuids_drawn w;
               clock_reads := S (clock_reads w) |}).

(** [db.get(Session, session_id)] and [db.get(Agent, agent_id)] *)
Definition db_get_Session (d : Database) (session_id : string)
  : option models.Session :=
  find (fun s => String.eqb (models.id s) session_id) (sessions d).

Definition db_get_Agent (d : Database) (agent_id : string)
  : option models.Agent :=
  find (fun a => String.eqb (models.agent_id a) agent_id) (agents d).

(** [get_session_and_agent] *)
Definition get_session_and_agent (session_id : string)
  : M (models.Session * option models.Agent) :=
  fun w =>
    match db_get_Session (db w) session_id with
    | None => (Raise (HTTPException 404 "Session not found"), w)
    | Some session =>
        (Ok (session, db_get_Agent (db w) (models.agent_id_fk session)), w)
    end.

(** [agent.prompt], where [agent] may be [None]. *)
Definition agent_prompt (agent : option models.Agent) : M string :=
  match agent with
  | Some a => ret (models.prompt a)
  | None => raise (AttributeError "'NoneType' object has no attribute 'prompt'")
  end.

(** [ORDER BY created_at ASC], as a stable insertion sort. *)
Fixpoint insert_by_created_at (m : models.Message) (l : list models.Message)
  : list models.Message :=
  match l with
  | [] => [m]
  | x :: l' =>
      if (models.created_at m <=? models.created_at x)%Z then m :: l
      else x :: insert_by_created_at m l'
  end.

Definition order_by_created_at (l : list models.Message) : list models.Message :=
  fold_right insert_by_created_at [] l.

(** [fetch_formatted_history] *)
Definition fetch_formatted_history (session_id : string) : M (list ChatEntry) :=
  fun w =>
    let rows :=
      order_by_created_at
        (List.filter (fun m => String.eqb (models.session_id m) session_id)
                     (messages (db w))) in
    (Ok (map (fun msg => {| role := models.role msg;
                            content := models.content msg |}) rows), w).

(** The row reaches the table and the commit is logged. *)
Definition commit_row (m : models.Message) : M unit :=
  fun w =>
    emit (EvCommit m)
      (set_db {| agents := agents (db w); sessions := sessions (db w);
                 messages := messages (db w) ++ [m] |} w).

(** [m = Message(session_id=..., role=..., content=..., audio_file_path=...);
    db.add(m); await db.commit()].  The constructor draws the id and the
    timestamp; the commit fails on a [None] content and then records
    nothing. *)
Definition add_commit_Message (session_id role_ : string)
    (content_ : option string) (audio_file_path : option string)
  : M models.Message :=
  let! i := fresh_uuid in
  let! t := utcnow in
  match content_ with
  | None =>
      raise (IntegrityError "NOT NULL constraint failed: message.content")
  | Some c =>
      let m := {| models.message_id := i; models.session_id := session_id;
                  models.role := role_; models.content := c;
                  models.audio_file_path := audio_file_path;
                  models.created_at := t |} in
      run! commit_row m in
      ret m
  end.

(** [async with aiofiles.open(path, 'wb') as out_file:
        content = await file.read(); await out_file.write(content)] *)
Definition save_upload (path : string) (content_ : bytes) : M unit :=
  match create_error R path with
  | Some e => raise e
  | None => write_file path content_
  end.

(** [send_text_message].  (The closing [logger.info] line is not part of
    the model.) *)
Definition send_text_message (session_id : string) (request_content : string)
  : M models.Message :=
  let! sa := get_session_and_agent session_id in
  let agent := snd sa in
  (* 1. Save User Message to DB *)
  let! user_msg :=
    add_commit_Message session_id "user" (Some request_content) None in
  (* 2. Fetch Chat History *)
  let! chat_history := fetch_formatted_history session_id in
  (* 3. Call AI LLM *)
  let! ai_text_response :=
    try_except
      (let! system_prompt := agent_prompt agent in
       generate_chat_response V ai_service system_prompt
         (removelast chat_history) request_content)
      (fun e => raise (HTTPException 500 ("AI Error: " +:+ exn_str e))) in
  (* 4. Save AI Response to DB *)
  let! ai_msg :=
    add_commit_Message session_id "assistant" ai_text_response None in
  ret ai_msg.

(** [send_voice_message]; [filename] and [upload] are the name and the
    bytes of the uploaded file. *)
Definition send_voice_message (session_id : string) (filename : string)
    (upload : bytes) : M models.Message :=
  let! sa := get_session_and_agent session_id in
  let agent := snd sa in
  (* 1. Save the uploaded user audio file *)
  let! u := fresh_uuid in
  let user_audio_path := "uploads/" +:+ u +:+ "_" +:+ filename in
  run! save_upload user_audio_path upload in
  (* 2. Convert User Audio to Text *)
  let! user_text :=
    try_except
      (transcribe_audio V ai_service user_audio_path)
      (fun e =>
         raise (HTTPException 500 ("Transcription Error: " +:+ exn_str e))) in
  (* 3. Save User Message to DB *)
  let! user_msg :=
    add_commit_Message session_id "user" user_text (Some user_audio_path) in
  (* past the commit, [user_text] is the committed content *)
  let new_message := models.content user_msg in
  (* 4. Fetch History & Call AI LLM *)
  let! chat_history := fetch_formatted_history session_id in
  let! ai_text_response :=
    try_except
      (let! system_prompt := agent_prompt agent in
       generate_chat_response V ai_service system_prompt
         (removelast chat_history) new_message)
      (fun e => raise (HTTPException 500 ("AI LLM Error: " +:+ exn_str e))) in
  (* 5. Convert AI Text back to Audio *)
  let! u' := fresh_uuid in
  let ai_audio_path := "uploads/" +:+ u' +:+ "_ai_response.mp3" in
  run!
    try_except
      (text_to_speech V ai_service ai_text_response ai_audio_path)
      (fun e => raise (HTTPException 500 ("TTS Error: " +:+ exn_str e))) in
  (* 6. Save AI Response to DB *)
  let! ai_msg :=
    add_commit_Message session_id "assistant" ai_text_response
      (Some ai_audio_path) in
  ret ai_msg.

End Orchestrator.

(** ** Reading a request back

    The audio a speech-to-text request carries as bytes the gateway has
    read itself, and the format label the gateway has attached to it: the
    [mime_type] of an inline part, or the filename of a [(filename, data)]
    tuple.  An open file object carries neither: the SDK reads it, and
    names it after the path it was opened from. *)
Definition file_inline_audio (f : FileArg) : option bytes :=
  match f with
  | FileTuple _ data => Some data
  | FileObj _ _ => None
  end.

Definition file_label (f : FileArg) : option string :=
  match f with
  | FileTuple filename _ => Some filename
  | FileObj _ _ => None
  end.

Fixpoint items_inline_audio (items : list ContentItem) : option (bytes * string) :=
  match items with
  | [] => None
  | ContentPart (Part_from_bytes data mime) :: _ => Some (data, mime)
  | _ :: rest => items_inline_audio rest
  end.

Definition inline_audio (c : VendorCall) : option bytes :=
  match c with
  | gemini_generate_content _ (ContentsList items) _ =>
      fst <$> items_inline_audio items
  | openai_audio_transcriptions_create _ f => file_inline_audio f
  | groq_audio_transcriptions_create f _ _ _ => file_inline_audio f
  | _ => None
  end.

Definition audio_label (c : VendorCall) : option string :=
  match c with
  | gemini_generate_content _ (ContentsList items) _ =>
      snd <$> items_inline_audio items
  | openai_audio_transcriptions_create _ f => file_label f
  | groq_audio_transcriptions_create f _ _ _ => file_label f
  | _ => None
  end.

Definition is_webm_label (l : option string) : bool :=
  match l with
  | Some s => String.eqb s "audio/webm" || String.eqb s "audio.webm"
  | None => false
  end.

(** The reading of C6 for one provider: on an existing file the gateway
    opens it, reads all of it, and then sends one request that carries
    those bytes under a WebM label. *)
Definition reads_then_sends_webm (p : string) : Prop :=
  forall (V : Vendors) (file_path : string) (d : bytes) (w : World),
    fs w !! file_path = Some d ->
    exists c ok,
      log (snd (transcribe_audio V (with_provider p) file_path w))
      = log w ++ [EvOpen file_path; EvRead file_path d; EvCall c ok]
      /\ inline_audio c = Some d
      /\ is_webm_label (audio_label c) = true.

(** ** The protocol of one conversation turn

    A chat-generation request is a chat completion of openai or groq, or a
    gemini [generate_content] that carries a system instruction (the
    transcription and speech requests carry none). *)
Definition is_chat_call (c : VendorCall) : bool :=
  match c with
  | openai_chat_completions_create _ _ => true
  | groq_chat_completions_create _ _ => true
  | gemini_generate_content _ _ (Some cfg) =>
      match system_instruction cfg with Some _ => true | None => false end
  | _ => false
  end.

(** Where a turn stands: nothing committed yet; the inbound message
    committed; the chat request answered; the chat request failed; the
    outbound message committed. *)
Inductive TurnState : Type := Start | Inbound | Replied | Failed | Done.

(** One logged effect of a turn.  A user message may be committed only
    first, a chat request may be sent only after it, an assistant message
    may be committed only after an answered chat request.  [None] rejects
    the log. *)
Definition turn_step (st : TurnState) (e : Event) : option TurnState :=
  match e with
  | EvCommit m =>
      if String.eqb (models.role m) "user" then
        match st with Start => Some Inbound | _ => None end
      else if String.eqb (models.role m) "assistant" then
        match st with Replied => Some Done | _ => None end
      else None
  | EvCall c returned =>
      if is_chat_call c then
        match st with
        | Inbound => Some (if returned then Replied else Failed)
        | _ => None
        end
      else Some st
  | _ => Some st
  end.

Fixpoint turn_protocol (st : TurnState) (evs : list Event) : option TurnState :=
  match evs with
  | [] => Some st
  | e :: evs' =>
      match turn_step st e with
      | Some st' => turn_protocol st' evs'
      | None => None
      end
  end.

(** The messages a log commits, in order. *)
Fixpoint commits (evs : list Event) : list models.Message :=
  match evs with
  | [] => []
  | EvCommit m :: evs' => m :: commits evs'
  | _ :: evs' => commits evs'
  end.

(** An effect that is neither a commit nor a chat request. *)
Definition quiet (e : Event) : bool :=
  match e with
  | EvCommit _ => false
  | EvCall c _ => negb (is_chat_call c)
  | _ => true
  end.

(** [w'] is [w] after the effects [evs]: the log grew by them and the
    message table by their commits. *)
Definition steps (w w' : World) (evs : list Event) : Prop :=
  log w' = log w ++ evs
  /\ messages (db w') = messages (db w) ++ commits evs.

(** A run of the gateway that touches neither the table nor the chat
    endpoint. *)
Definition quiet_run {A} (m : M A) : Prop :=
  forall w, exists evs,
    forallb quiet evs = true /\ steps w (snd (m w)) evs.

(** What one turn that started in [w] and ended in [w'] with [r] has
    done: its effects obey the protocol; it returns a message exactly when
    the outbound message was committed, and then the table gained the
    inbound and the outbound message, in this order; when the chat request
    failed it ends in a 500 and the table gained the inbound message
    only. *)
Definition turn_outcome (w : World) (r : result models.Message) (w' : World)
  : Prop :=
  exists evs st,
    steps w w' evs
    /\ turn_protocol Start evs = Some st
    /\ (is_ok r = true <-> st = Done)
    /\ (st = Done ->
        exists m_in m_out,
          commits evs = [m_in; m_out] /\ r = Ok m_out
          /\ models.role m_in = "user" /\ models.role m_out = "assistant")
    /\ (st = Failed ->
        exists detail m_in,
          r = Raise (HTTPException 500 detail)
          /\ commits evs = [m_in] /\ models.role m_in = "user")
    /\ (st = Start -> commits evs = [])
    /\ (st = Inbound \/ st = Replied ->
        exists m_in, commits evs = [m_in] /\ models.role m_in = "user").

(** The config of the gemini speech request. *)
Definition tts_config : option GenerateContentConfig :=
  Some {| system_instruction := None; response_modalities := ["AUDIO"];
          voice_name := Some "Kore" |}.

(** ** Fixtures: concrete vendors, runtime and worlds to run the model on *)

Definition logged (e : Event) (w : World) : World :=
  {| fs := fs w; db := db w; log := log w ++ [e];
     uuids_drawn := uuids_drawn w; clock_reads := clock_reads w |}.

(** The world after a writer has closed [path] with content [data]. *)
Definition wrote (path : string) (data : bytes) (w : World) : World :=
  logged (EvWrite path data) (set_fs (<[path := data]> (fs w)) w).

(** The result of one run of a coroutine, and the log it leaves. *)
Definition run_log {A} (m : M A) (w : World) : list Event := log (snd (m w)).
Definition run_result {A} (m : M A) (w : World) : result A := fst (m w).

Definition demo_pcm : bytes := [x01; x00; x02; x00; x03; x00].

Definition demo_vendors : Vendors :=
  {| openai_chat := fun _ _ => Ok [Some "4"];
     groq_chat := fun _ _ => Ok [Some "4"];
     gemini_generate := fun _ _ _ =>
       Ok {| text := Some "4"; candidates_opt := Some [[Some demo_pcm]] |};
     openai_transcribe := fun _ _ => Ok "2+2?";
     groq_transcribe := fun _ _ _ _ => Ok "2+2?";
     groq_speech := fun _ _ _ _ =>
       Ok {| chunks := [[x52; x49]; [x46; x46]]; broken := None |};
     openai_speech := fun _ _ _ =>
       Ok {| chunks := [[x49; x44]; [x33]]; broken := None |} |}.

Definition failing_vendors : Vendors :=
  {| openai_chat := fun _ _ => Raise (ProviderError "503");
     groq_chat := fun _ _ => Raise (ProviderError "503");
     gemini_generate := fun _ _ _ => Raise (ProviderError "503");
     openai_transcribe := fun _ _ => Raise (ProviderError "503");
     groq_transcribe := fun _ _ _ _ => Raise (ProviderError "503");
     groq_speech := fun _ _ _ _ => Raise (ProviderError "503");
     openai_speech := fun _ _ _ => Raise (ProviderError "503") |}.

(** Vendors whose gemini answers carry no [candidates] member. *)
Definition blocked_vendors : Vendors :=
  {| openai_chat := openai_chat demo_vendors;
     groq_chat := groq_chat demo_vendors;
     gemini_generate := fun _ _ _ =>
       Ok {| text := None; candidates_opt := None |};
     openai_transcribe := openai_transcribe demo_vendors;
     groq_transcribe := groq_transcribe demo_vendors;
     groq_speech := groq_speech demo_vendors;
     openai_speech := openai_speech demo_vendors |}.

Fixpoint has_slash (s : string) : bool :=
  match s with
  | EmptyString => false
  | String c s' => Ascii.eqb c "/" || has_slash s'
  end.

(** A runtime whose only directory for uploads is [uploads/] itself. *)
Definition demo_runtime : Runtime :=
  {| uuid4 := fun n => "id" +:+ pretty n;
     now := fun n => Z.of_nat n;
     create_error := fun p =>
       if has_slash (String.substring 8 (String.length p - 8) p)
       then Some (FileNotFoundError p)
       else None |}.

(** A platform on ASCII strings, whose client constructors raise when
    they are handed no key, as the three SDKs do. *)
Definition demo_platform : Platform :=
  {| str_lower := ascii_lower;
     AsyncOpenAI := fun _ api_key =>
       match api_key with
       | Some _ => None
       | None => Some (ProviderError "The api_key client option must be set")
       end;
     AsyncGroq := fun _ api_key =>
       match api_key with
       | Some _ => None
       | None => Some (ProviderError "The api_key client option must be set")
       end;
     genai_Client := fun _ api_key =>
       match api_key with
       | Some _ => None
       | None => Some (ValueError "Missing key inputs argument!")
       end |}.

(** An environment with the three keys and no selection. *)
Definition demo_env : gmap string string :=
  {[ "OPENAI_API_KEY" := "sk-test"; "GROQ_API_KEY" := "gsk-test";
     "GEMINI_API_KEY" := "AIza-test" ]}.

(** The gateway the constructor builds from [demo_env] when the selection
    comes out as [p]. *)
Definition demo_gateway (p : string) : AIServiceFactory :=
  {| provider := p; openai_client := Some "sk-test";
     groq_client := Some "gsk-test"; gemini_client := Some "AIza-test" |}.

Definition demo_db : Database :=
  {| agents := [{| models.agent_id := "a1"; models.name := "Tutor";
                   models.prompt := "Be concise" |}];
     sessions := [{| models.id := "s1"; models.agent_id_fk := "a1" |}];
     messages := [] |}.

Definition demo_world : World :=
  {| fs := {[ "uploads/rec.ogg" := [x4f; x67; x67; x53] ]};
     db := demo_db; log := []; uuids_drawn := 0; clock_reads := 0 |}.

Definition demo_history : list ChatEntry :=
  [{| role := "user"; content := "a" |};
   {| role := "assistant"; content := "b" |}].

(** ** The agents and sessions routers: [routers/agents.py], [routers/sessions.py]

    The tables keep the columns listed in [models]; the constructors of
    [Agent] and [Session] still draw their id and read the clock for the
    timestamp columns that are not kept.  A primary key that is already in
    the table makes the commit fail. *)

Section Routers.

Context (R : Runtime).

(** [create_agent] *)
Definition create_agent (name_ prompt_ : string) : M models.Agent :=
  let! i := fresh_uuid R in
  let! created := utcnow R in
  let! updated := utcnow R in
  let new_agent := {| models.agent_id := i; models.name := name_;
                      models.prompt := prompt_ |} in
  fun w =>
    match db_get_Agent (db w) i with
    | Some _ => (Raise (IntegrityError "UNIQUE constraint failed: agent.id"), w)
    | None =>
        (Ok new_agent,
         set_db {| agents := agents (db w) ++ [new_agent];
                   sessions := sessions (db w);
                   messages := messages (db w) |} w)
    end.

(** [list_agents] *)
Definition list_agents : M (list models.Agent) :=
  fun w => (Ok (agents (db w)), w).

(** [get_agent] *)
Definition get_agent (agent_id : string) : M models.Agent :=
  fun w =>
    match db_get_Agent (db w) agent_id with
    | None => (Raise (HTTPException 404 "Agent not found"), w)
    | Some agent => (Ok agent, w)
    end.

(** The assignments of [update_agent]: only the provided fields. *)
Definition apply_update (name_ prompt_ : option string) (agent : models.Agent)
  : models.Agent :=
  {| models.agent_id := models.agent_id agent;
     models.name := match name_ with
                    | Some n => n
                    | None => models.name agent
                    end;
     models.prompt := match prompt_ with
                      | Some p => p
                      | None => models.prompt agent
                      end |}.

(** The row of key [agent_id] after the commit of a changed object. *)
Definition replace_agent (agent_id : string) (agent' : models.Agent)
    (l : list models.Agent) : list models.Agent :=
  map (fun a => if String.eqb (models.agent_id a) agent_id then agent' else a) l.

(** [update_agent] *)
Definition update_agent (agent_id : string) (name_ prompt_ : option string)
  : M models.Agent :=
  fun w =>
    match db_get_Agent (db w) agent_id with
    | None => (Raise (HTTPException 404 "Agent not found"), w)
    | Some agent =>
        let agent' := apply_update name_ prompt_ agent in
        (Ok agent',
         set_db {| agents := replace_agent agent_id agent' (agents (db w));
                   sessions := sessions (db w);
                   messages := messages (db w) |} w)
    end.

(** [delete_agent]: the agent goes, and by the [cascade_delete] of the two
    relationships so do its sessions and their messages. *)
Definition delete_agent (agent_id : string) : M string :=
  fun w =>
    match db_get_Agent (db w) agent_id with
    | None => (Raise (HTTPException 404 "Agent not found"), w)
    | Some _ =>
        let gone s := String.eqb (models.agent_id_fk s) agent_id in
        let dead := List.filter gone (sessions (db w)) in
        let orphan m :=
          existsb (fun s => String.eqb (models.id s) (models.session_id m))
                  dead in
        (Ok "Agent deleted successfully",
         set_db {| agents :=
                     List.filter
                       (fun a => negb (String.eqb (models.agent_id a) agent_id))
                       (agents (db w));
                   sessions := List.filter (fun s => negb (gone s))
                                           (sessions (db w));
                   messages := List.filter (fun m => negb (orphan m))
                                           (messages (db w)) |} w)
    end.

(** [create_session]; the [name] of the request goes to a column that is
    not kept. *)
Definition create_session (agent_id : string) (name_ : option string)
  : M models.Session :=
  fun w =>
    match db_get_Agent (db w) agent_id with
    | None => (Raise (HTTPException 404 "Agent not found"), w)
    | Some _ =>
        (let! i := fresh_uuid R in
         let! created := utcnow R in
         let new_session := {| models.id := i;
                               models.agent_id_fk := agent_id |} in
         fun w1 =>
           match db_get_Session (db w1) i with
           | Some _ =>
               (Raise (IntegrityError "UNIQUE constraint failed: session.id"),
                w1)
           | None =>
               (Ok new_session,
                set_db {| agents := agents (db w1);
                          sessions := sessions (db w1) ++ [new_session];
                          messages := messages (db w1) |} w1)
           end) w
    end.

(** [get_session_history] *)
Definition get_session_history (session_id : string)
  : M (list models.Message) :=
  fun w =>
    match db_get_Session (db w) session_id with
    | None => (Raise (HTTPException 404 "Session not found"), w)
    | Some _ =>
        (Ok (order_by_created_at
               (List.filter
                  (fun m => String.eqb (models.session_id m) session_id)
                  (messages (db w)))), w)
    end.

End Routers.

(** ** Vocabulary of the further properties *)

(** One row as [fetch_formatted_history] formats it. *)
Definition history_entry (msg : models.Message) : ChatEntry :=
  {| role := models.role msg; content := models.content msg |}.

(** The rows of one session, in table order. *)
Definition session_rows (session_id : string) (d : Database)
  : list models.Message :=
  List.filter (fun m => String.eqb (models.session_id m) session_id)
              (messages d).

(** The history of a session as the chat endpoints fetch it. *)
Definition history_of (session_id : string) (d : Database) : list ChatEntry :=
  map history_entry (order_by_created_at (session_rows session_id d)).

Definition created_le (a b : models.Message) : Prop :=
  (models.created_at a <= models.created_at b)%Z.

(** The object [Message(...)] builds in world [w]: its id is the next
    UUID, its timestamp the next reading of the clock. *)
Definition next_Message (R : Runtime) (session_id role_ content_ : string)
    (audio_file_path : option string) (w : World) : models.Message :=
  {| models.message_id := uuid4 R (uuids_drawn w);
     models.session_id := session_id;
     models.role := role_;
     models.content := content_;
     models.audio_file_path := audio_file_path;
     models.created_at := now R (clock_reads w) |}.

(** The world once [m], built in [w], has been committed. *)
Definition after_commit (m : models.Message) (w : World) : World :=
  {| fs := fs w;
     db := {| agents := agents (db w); sessions := sessions (db w);
              messages := messages (db w) ++ [m] |};
     log := log w ++ [EvCommit m];
     uuids_drawn := S (uuids_drawn w);
     clock_reads := S (clock_reads w) |}.

(** The world once a message was built in [w] and its commit refused. *)
Definition after_refusal (w : World) : World :=
  {| fs := fs w; db := db w; log := log w;
     uuids_drawn := S (uuids_drawn w);
     clock_reads := S (clock_reads w) |}.

(** The [except] clauses of the endpoints. *)
Definition http_500 {A} (context : string) (e : exn) : M A :=
  raise (HTTPException 500 (context +:+ exn_str e)).

(** The model a request names. *)
Definition call_model (c : VendorCall) : string :=
  match c with
  | openai_chat_completions_create m _ => m
  | groq_chat_completions_create m _ => m
  | gemini_generate_content m _ _ => m
  | openai_audio_transcriptions_create m _ => m
  | groq_audio_transcriptions_create _ m _ _ => m
  | groq_audio_speech_create m _ _ _ => m
  | openai_audio_speech_create m _ _ => m
  end.

(** The requests a log holds, in order. *)
Fixpoint calls (evs : list Event) : list VendorCall :=
  match evs with
  | [] => []
  | EvCall c _ :: evs' => c :: calls evs'
  | _ :: evs' => calls evs'
  end.

(** Primary keys are unique in the three tables. *)
Definition keys_unique (d : Database) : Prop :=
  NoDup (map models.agent_id (agents d))
  /\ NoDup (map models.id (sessions d)).

(** The parameters [struct.pack] accepts in a WAV header. *)
Definition wav_params_fit (channels rate sample_width : Z) : Prop :=
  (1 <= channels)%Z /\ (1 <= sample_width <= 4)%Z /\ (1 <= rate)%Z
  /\ (channels * sample_width < 2 ^ 16)%Z
  /\ (channels * rate * sample_width < 2 ^ 32)%Z.

(** A run that leaves every file other than [out] as it was, and the
    database and the two supplies untouched. *)
Definition writes_only {A} (out : string) (m : M A) : Prop :=
  forall w,
    (forall p, p <> out -> fs (snd (m w)) !! p = fs w !! p)
    /\ db (snd (m w)) = db w
    /\ uuids_drawn (snd (m w)) = uuids_drawn w
    /\ clock_reads (snd (m w)) = clock_reads w.

(** A run that leaves files, database and supplies untouched: it can only
    add to the log. *)
Definition logs_only {A} (m : M A) : Prop :=
  forall w,
    fs (snd (m w)) = fs w
    /\ db (snd (m w)) = db w
    /\ uuids_drawn (snd (m w)) = uuids_drawn w
    /\ clock_reads (snd (m w)) = clock_reads w.

(** A second world: two agents, two sessions, a short conversation. *)
Definition demo_db2 : Database :=
  {| agents := [{| models.agent_id := "a1"; models.name := "Tutor";
                   models.prompt := "Be concise" |};
                {| models.agent_id := "a2"; models.name := "Poet";
                   models.prompt := "Rhyme" |}];
     sessions := [{| models.id := "s1"; models.agent_id_fk := "a1" |};
                  {| models.id := "s2"; models.agent_id_fk := "a2" |}];
     messages := [{| models.message_id := "m1"; models.session_id := "s1";
                     models.role := "user"; models.content := "hi";
                     models.audio_file_path := None;
                     models.created_at := (-2)%Z |};
                  {| models.message_id := "m2"; models.session_id := "s2";
                     models.role := "user"; models.content := "ode?";
                     models.audio_file_path := None;
                     models.created_at := (-2)%Z |};
                  {| models.message_id := "m3"; models.session_id := "s1";
                     models.role := "assistant"; models.content := "hello";
                     models.audio_file_path := None;
                     models.created_at := (-1)%Z |}] |}.

Definition demo_world2 : World :=
  {| fs := {[ "uploads/rec.ogg" := [x4f; x67; x67; x53] ]};
     db := demo_db2; log := []; uuids_drawn := 0; clock_reads := 0 |}.

(** * Properties *)

(** ** Provider selection *)

Lemma recognized_false (p : string) :
  recognized p = false ->
  String.eqb p "gemini" = false /\ String.eqb p "groq" = false
  /\ String.eqb p "openai" = false.
Proof.
  unfold recognized. intros H.
  destruct (String.eqb p "gemini"), (String.eqb p "groq"),
    (String.eqb p "openai"); simpl in H; try discriminate; auto.
Qed.

Example ascii_lower_mixed_case : ascii_lower "GeMiNi" = "gemini".
Proof. reflexivity. Qed.

Example ascii_lower_keeps_other_bytes : ascii_lower "groq-2 [x]" = "groq-2 [x]".
Proof. reflexivity. Qed.

(** What a successful construction tells: the three client constructors
    accepted, the selection is the lower-cased setting, and the clients
    hold the keys of the environment. *)
Lemma AIServiceFactory_init_ok (P : Platform) (env : gmap string string)
    (self : AIServiceFactory) :
  AIServiceFactory_init P env = Ok self ->
  provider self = str_lower P (getenv env "ACTIVE_AI_PROVIDER" "openai")
  /\ AsyncOpenAI P env (env !! "OPENAI_API_KEY") = None
  /\ AsyncGroq P env (env !! "GROQ_API_KEY") = None
  /\ genai_Client P env (env !! "GEMINI_API_KEY") = None
  /\ openai_client self = env !! "OPENAI_API_KEY"
  /\ groq_client self = env !! "GROQ_API_KEY"
  /\ gemini_client self = env !! "GEMINI_API_KEY".
Proof.
  unfold AIServiceFactory_init, getenv_opt. cbv zeta.
  destruct (AsyncOpenAI P env _); [discriminate|].
  destruct (AsyncGroq P env _); [discriminate|].
  destruct (genai_Client P env _); [discriminate|].
  intros [= <-]. simpl. repeat split.
Qed.

(** The first client constructor that raises ends the construction with
    its error. *)
Lemma AIServiceFactory_init_raises (P : Platform) (env : gmap string string)
    (e : exn) :
  AsyncOpenAI P env (env !! "OPENAI_API_KEY") = Some e ->
  AIServiceFactory_init P env = Raise e.
Proof.
  unfold AIServiceFactory_init, getenv_opt. cbv zeta. intros ->. reflexivity.
Qed.

Example AIServiceFactory_init_without_keys :
  AIServiceFactory_init demo_platform ∅
  = Raise (ProviderError "The api_key client option must be set").
Proof. reflexivity. Qed.

(** C4, as stated, is false for an unset selection.  In an environment
    that holds the three API keys and no [ACTIVE_AI_PROVIDER], the
    constructor succeeds with the default selection ["openai"], and the
    accessor answers ["gpt-4o-mini"], not ["unknown"]. *)
Lemma active_model_name_unset_not_unknown :
  demo_env !! "ACTIVE_AI_PROVIDER" = None
  /\ AIServiceFactory_init demo_platform demo_env = Ok (demo_gateway "openai")
  /\ active_model_name (demo_gateway "openai") = "gpt-4o-mini"
  /\ active_model_name (demo_gateway "openai") <> "unknown".
Proof.
  split; [vm_compute; reflexivity|].
  split; [vm_compute; reflexivity|].
  split; [reflexivity | discriminate].
Qed.

(** C4 (amended): [active_model_name] answers ["gpt-4o-mini"] for openai,
    ["llama-3.3-70b-versatile"] for groq, ["gemini-2.5-flash"] for gemini
    and ["unknown"] for every other selection.  The selection of a gateway
    that was constructed is the configured value lower-cased (for an ASCII
    value: its letters A..Z folded), or ["openai"] when the variable is
    unset; an unset selection therefore answers ["gpt-4o-mini"]. *)
Theorem active_model_name_table (P : Platform) (env : gmap string string)
    (self : AIServiceFactory) :
  ((provider self = "openai" -> active_model_name self = "gpt-4o-mini")
   /\ (provider self = "groq" ->
       active_model_name self = "llama-3.3-70b-versatile")
   /\ (provider self = "gemini" -> active_model_name self = "gemini-2.5-flash")
   /\ (recognized (provider self) = false ->
       active_model_name self = "unknown"))
  /\ (AIServiceFactory_init P env = Ok self ->
      (forall v, env !! "ACTIVE_AI_PROVIDER" = Some v ->
                 provider self = str_lower P v)
      /\ (str_lower_on_ascii P ->
          forall v, is_ascii v = true ->
                    env !! "ACTIVE_AI_PROVIDER" = Some v ->
                    provider self = ascii_lower v)
      /\ (str_lower_on_ascii P ->
          env !! "ACTIVE_AI_PROVIDER" = None ->
          provider self = "openai"
          /\ active_model_name self = "gpt-4o-mini")).
Proof.
  split.
  - unfold active_model_name. repeat split.
    + intros ->. reflexivity.
    + intros ->. reflexivity.
    + intros ->. reflexivity.
    + intros H. apply recognized_false in H as (-> & -> & ->). reflexivity.
  - intros Hinit. apply AIServiceFactory_init_ok in Hinit as (Hp & _).
    unfold getenv in Hp. split; [|split].
    + intros v Hv. now rewrite Hv in Hp.
    + intros HP v Ha Hv. rewrite Hv in Hp. rewrite Hp. now apply HP.
    + intros HP Hv. rewrite Hv in Hp.
      assert (Ho : provider self = "openai").
      { rewrite Hp. now rewrite (HP "openai" eq_refl). }
      split; [exact Ho|]. unfold active_model_name. rewrite Ho. reflexivity.
Qed.

Lemma active_model_name_table_witness :
  (AIServiceFactory_init demo_platform
     (<["ACTIVE_AI_PROVIDER" := "GROQ"]> demo_env) = Ok (demo_gateway "groq")
   /\ provider (demo_gateway "groq") = ascii_lower "GROQ"
   /\ active_model_name (demo_gateway "groq") = "llama-3.3-70b-versatile")
  /\ (AIServiceFactory_init demo_platform
        (<["ACTIVE_AI_PROVIDER" := "mistral"]> demo_env)
      = Ok (demo_gateway "mistral")
      /\ active_model_name (demo_gateway "mistral") = "unknown")
  /\ (AIServiceFactory_init demo_platform demo_env = Ok (demo_gateway "openai")
      /\ active_model_name (demo_gateway "openai") = "gpt-4o-mini").
Proof.
  assert (E1 : AIServiceFactory_init demo_platform
                 (<["ACTIVE_AI_PROVIDER" := "GROQ"]> demo_env)
               = Ok (demo_gateway "groq")) by (vm_compute; reflexivity).
  assert (E2 : AIServiceFactory_init demo_platform
                 (<["ACTIVE_AI_PROVIDER" := "mistral"]> demo_env)
               = Ok (demo_gateway "mistral")) by (vm_compute; reflexivity).
  assert (E3 : AIServiceFactory_init demo_platform demo_env
               = Ok (demo_gateway "openai")) by (vm_compute; reflexivity).
  split; [|split]; (split; [assumption|]).
  - split.
    + apply (proj1 (proj2
        (proj2 (active_model_name_table demo_platform
                  (<["ACTIVE_AI_PROVIDER" := "GROQ"]> demo_env)
                  (demo_gateway "groq")) E1))).
      * intros s _. reflexivity.
      * reflexivity.
      * vm_compute. reflexivity.
    + apply (proj1 (proj2 (proj1
        (active_model_name_table demo_platform
           (<["ACTIVE_AI_PROVIDER" := "GROQ"]> demo_env)
           (demo_gateway "groq"))))).
      reflexivity.
  - apply (proj2 (proj2 (proj2 (proj1
      (active_model_name_table demo_platform
         (<["ACTIVE_AI_PROVIDER" := "mistral"]> demo_env)
         (demo_gateway "mistral")))))).
    reflexivity.
  - apply (proj2 (proj2 (proj2
      (active_model_name_table demo_platform demo_env
         (demo_gateway "openai")) E3))).
    + intros s _. reflexivity.
    + vm_compute. reflexivity.
Defined.

(** ** Chat completion *)

Lemma fold_append_map {A B} (f : A -> B) (l : list A) (acc : list B) :
  fold_left (fun acc x => acc ++ [f x]) l acc = acc ++ map f l.
Proof.
  revert acc. induction l as [|x l IH]; intros acc; simpl.
  - now rewrite app_nil_r.
  - rewrite IH, <- app_assoc. reflexivity.
Qed.

Lemma gemini_history_of_map (h : list ChatEntry) :
  gemini_history_of h = map gemini_turn h.
Proof. unfold gemini_history_of. apply (fold_append_map gemini_turn h []). Qed.

Lemma flat_messages_shape sp (h : list ChatEntry) nm :
  flat_messages sp h nm
  = {| role := "system"; content := sp |}
      :: h ++ [{| role := "user"; content := nm |}].
Proof. reflexivity. Qed.

Lemma flat_messages_lookup sp (h : list ChatEntry) nm :
  flat_messages sp h nm !! 0%nat = Some {| role := "system"; content := sp |}
  /\ (forall i, (i < List.length h)%nat -> flat_messages sp h nm !! S i = h !! i)
  /\ flat_messages sp h nm !! S (List.length h)
     = Some {| role := "user"; content := nm |}.
Proof.
  rewrite flat_messages_shape. repeat split.
  - intros i Hi. simpl. now apply lookup_app_l.
  - simpl. rewrite lookup_app_r by lia. now rewrite Nat.sub_diag.
Qed.

(** C1: under the flat message-list convention (openai, groq) the one
    request that [generate_chat_response] sends carries the list made of
    the system-role message with [system_prompt], then every history entry
    in its original order, then [new_message] as a user-role message; on
    the history [user "a"; assistant "b"] and the new message ["c"] the
    list is [system; user "a"; assistant "b"; user "c"]. *)
Theorem flat_request_order (V : Vendors) (self : AIServiceFactory)
    (sp : string) (h : list ChatEntry) (nm : string) (w : World) :
  provider self = "openai" \/ provider self = "groq" ->
  let msgs := {| role := "system"; content := sp |}
                :: h ++ [{| role := "user"; content := nm |}] in
  (provider self = "openai" ->
     run_log (generate_chat_response V self sp h nm) w
     = log w ++ [EvCall (openai_chat_completions_create "gpt-4o-mini" msgs)
                        (is_ok (openai_chat V "gpt-4o-mini" msgs))])
  /\ (provider self = "groq" ->
     run_log (generate_chat_response V self sp h nm) w
     = log w ++ [EvCall (groq_chat_completions_create
                           "llama-3.3-70b-versatile" msgs)
                        (is_ok (groq_chat V "llama-3.3-70b-versatile" msgs))])
  /\ msgs !! 0%nat = Some {| role := "system"; content := sp |}
  /\ (forall i, (i < List.length h)%nat -> msgs !! S i = h !! i)
  /\ msgs !! S (List.length h) = Some {| role := "user"; content := nm |}
  /\ (h = demo_history -> nm = "c" ->
      msgs = [{| role := "system"; content := sp |};
              {| role := "user"; content := "a" |};
              {| role := "assistant"; content := "b" |};
              {| role := "user"; content := "c" |}]).
Proof.
  intros _ msgs.
  assert (Hm : flat_messages sp h nm = msgs) by apply flat_messages_shape.
  split; [|split].
  - intros Hp. unfold run_log, generate_chat_response. rewrite Hp. simpl.
    rewrite Hm. unfold chat_completions_openai, call, bind, emit, lift. simpl.
    destruct (openai_chat V "gpt-4o-mini" msgs) as [[|c cs]|e]; reflexivity.
  - intros Hp. unfold run_log, generate_chat_response. rewrite Hp. simpl.
    rewrite Hm. unfold chat_completions_groq, call, bind, emit, lift. simpl.
    destruct (groq_chat V "llama-3.3-70b-versatile" msgs) as [[|c cs]|e];
      reflexivity.
  - rewrite <- Hm.
    destruct (flat_messages_lookup sp h nm) as (H0 & H1 & H2).
    repeat split; auto.
    intros -> ->. reflexivity.
Qed.

Lemma flat_request_order_witness :
  run_log (generate_chat_response demo_vendors (with_provider "groq")
             "Be concise" demo_history "c") demo_world
  = [EvCall (groq_chat_completions_create "llama-3.3-70b-versatile"
               [{| role := "system"; content := "Be concise" |};
                {| role := "user"; content := "a" |};
                {| role := "assistant"; content := "b" |};
                {| role := "user"; content := "c" |}]) true].
Proof.
  apply (proj1 (proj2
    (flat_request_order demo_vendors (with_provider "groq") "Be concise"
       demo_history "c" demo_world (or_intror eq_refl)))).
  reflexivity.
Defined.

Lemma gemini_turn_user (m : ChatEntry) :
  role m = "user" -> gemini_turn m = Content "user" [Part_from_text (content m)].
Proof. unfold gemini_turn. intros ->. reflexivity. Qed.

Lemma gemini_turn_assistant (m : ChatEntry) :
  role m = "assistant" ->
  gemini_turn m = Content "model" [Part_from_text (content m)].
Proof. unfold gemini_turn. intros ->. reflexivity. Qed.

(** The contents and the config of the one request of the gemini branch. *)
Lemma gemini_request (V : Vendors) (self : AIServiceFactory)
    (sp : string) (h : list ChatEntry) (nm : string) (w : World) :
  provider self = "gemini" ->
  let contents := ContentsList (map gemini_turn h ++ [ContentStr nm]) in
  let config := Some {| system_instruction := Some sp;
                        response_modalities := []; voice_name := None |} in
  generate_chat_response V self sp h nm w
  = match gemini_generate V "gemini-2.5-flash" contents config with
    | Ok r =>
        (Ok (text r),
         logged (EvCall (gemini_generate_content "gemini-2.5-flash"
                           contents config) true) w)
    | Raise e =>
        (Raise e,
         logged (EvCall (gemini_generate_content "gemini-2.5-flash"
                           contents config) false) w)
    end.
Proof.
  intros Hp contents config. unfold generate_chat_response. rewrite Hp. simpl.
  rewrite gemini_history_of_map. fold contents. fold config.
  unfold generate_content, call, bind, emit, lift, logged. simpl.
  destruct (gemini_generate V "gemini-2.5-flash" contents config); reflexivity.
Qed.

(** C2: under the structured-turn convention (gemini) every history entry
    becomes one turn whose text is wrapped in a content part and whose
    role is ["user"] for ["user"] and ["model"] for ["assistant"]; the
    contents are exactly those turns, in order, followed by the new
    message, so [system_prompt] is no turn of the list: it travels in the
    [system_instruction] field of the request config. *)
Theorem gemini_request_shape (V : Vendors) (self : AIServiceFactory)
    (sp : string) (h : list ChatEntry) (nm : string) (w : World) :
  provider self = "gemini" ->
  exists items ok,
    run_log (generate_chat_response V self sp h nm) w
    = log w ++ [EvCall (gemini_generate_content "gemini-2.5-flash"
                          (ContentsList items)
                          (Some {| system_instruction := Some sp;
                                   response_modalities := [];
                                   voice_name := None |})) ok]
    /\ List.length items = S (List.length h)
    /\ items !! List.length h = Some (ContentStr nm)
    /\ (forall i m, h !! i = Some m ->
          (role m = "user" ->
             items !! i = Some (Content "user" [Part_from_text (content m)]))
          /\ (role m = "assistant" ->
             items !! i = Some (Content "model" [Part_from_text (content m)]))
          /\ exists r, items !! i = Some (Content r [Part_from_text (content m)])
                       /\ (r = "user" \/ r = "model")).
Proof.
  intros Hp.
  exists (map gemini_turn h ++ [ContentStr nm]).
  exists (is_ok (gemini_generate V "gemini-2.5-flash"
            (ContentsList (map gemini_turn h ++ [ContentStr nm]))
            (Some {| system_instruction := Some sp;
                     response_modalities := []; voice_name := None |}))).
  split; [|split; [|split]].
  - unfold run_log. rewrite (gemini_request V self sp h nm w Hp).
    destruct (gemini_generate V _ _ _); reflexivity.
  - rewrite length_app, length_map. simpl. lia.
  - rewrite lookup_app_r; rewrite length_map; [|lia].
    now rewrite Nat.sub_diag.
  - intros i m Hi.
    assert (Hit : (map gemini_turn h ++ [ContentStr nm]) !! i
                  = Some (gemini_turn m)).
    { rewrite lookup_app_l.
      - rewrite list_lookup_fmap, Hi. reflexivity.
      - rewrite length_map. now apply lookup_lt_Some with m. }
    rewrite Hit. repeat split.
    + intros Hr. now rewrite gemini_turn_user.
    + intros Hr. now rewrite gemini_turn_assistant.
    + unfold gemini_turn.
      destruct (String.eqb (role m) "user"); eexists; split; eauto.
Qed.

Lemma gemini_request_shape_witness :
  exists items ok,
    run_log (generate_chat_response demo_vendors (with_provider "gemini")
               "Be concise" demo_history "c") demo_world
    = log demo_world
        ++ [EvCall (gemini_generate_content "gemini-2.5-flash"
                      (ContentsList items)
                      (Some {| system_instruction := Some "Be concise";
                               response_modalities := [];
                               voice_name := None |})) ok]
    /\ items = [Content "user" [Part_from_text "a"];
                Content "model" [Part_from_text "b"]; ContentStr "c"].
Proof.
  destruct (gemini_request_shape demo_vendors (with_provider "gemini")
              "Be concise" demo_history "c" demo_world eq_refl)
    as (items & ok & Hlog & _).
  exists items, ok. split; [exact Hlog|].
  vm_compute in Hlog. congruence.
Defined.

(** C5: with a provider identifier outside openai, groq and gemini,
    [generate_chat_response] raises the unsupported-provider [ValueError]
    at once, for every system prompt, history and new message: the world
    is left as it was, so no request was sent to any vendor. *)
Theorem unsupported_provider_raises (V : Vendors) (self : AIServiceFactory)
    (sp : string) (h : list ChatEntry) (nm : string) (w : World) :
  recognized (provider self) = false ->
  generate_chat_response V self sp h nm w
  = (Raise (ValueError ("Unsupported AI Provider: " +:+ provider self)), w)
  /\ run_log (generate_chat_response V self sp h nm) w = log w.
Proof.
  intros H. apply recognized_false in H as (Hg & Hq & Ho).
  assert (E : generate_chat_response V self sp h nm w
              = (Raise (ValueError ("Unsupported AI Provider: "
                                      +:+ provider self)), w)).
  { unfold generate_chat_response. rewrite Hg, Ho, Hq. reflexivity. }
  split; [exact E|]. unfold run_log. now rewrite E.
Qed.

Lemma unsupported_provider_raises_witness :
  generate_chat_response demo_vendors (with_provider "claude")
    "Be concise" demo_history "c" demo_world
  = (Raise (ValueError "Unsupported AI Provider: claude"), demo_world).
Proof.
  apply (proj1 (unsupported_provider_raises demo_vendors
                  (with_provider "claude") "Be concise" demo_history "c"
                  demo_world eq_refl)).
Defined.

(** C9: an empty history is a valid input for the three providers.  The
    request then holds the system prompt (a system-role message for openai
    and groq, the [system_instruction] of the config for gemini) and the
    new message, nothing else; and whenever the vendor answers, the call
    returns that answer: the content of the first choice for openai and
    groq, the response text for gemini. *)
Theorem empty_history_is_valid (V : Vendors) (self : AIServiceFactory)
    (sp nm : string) (w : World) :
  let msgs := [{| role := "system"; content := sp |};
               {| role := "user"; content := nm |}] in
  let contents := ContentsList [ContentStr nm] in
  let config := Some {| system_instruction := Some sp;
                        response_modalities := []; voice_name := None |} in
  (provider self = "openai" ->
   forall reply rest,
     openai_chat V "gpt-4o-mini" msgs = Ok (reply :: rest) ->
     generate_chat_response V self sp [] nm w
     = (Ok reply,
        logged (EvCall (openai_chat_completions_create "gpt-4o-mini" msgs)
                  true) w))
  /\ (provider self = "groq" ->
   forall reply rest,
     groq_chat V "llama-3.3-70b-versatile" msgs = Ok (reply :: rest) ->
     generate_chat_response V self sp [] nm w
     = (Ok reply,
        logged (EvCall (groq_chat_completions_create
                          "llama-3.3-70b-versatile" msgs) true) w))
  /\ (provider self = "gemini" ->
   forall r,
     gemini_generate V "gemini-2.5-flash" contents config = Ok r ->
     generate_chat_response V self sp [] nm w
     = (Ok (text r),
        logged (EvCall (gemini_generate_content "gemini-2.5-flash"
                          contents config) true) w)).
Proof.
  intros msgs contents config. repeat split.
  - intros Hp reply rest Hv. unfold generate_chat_response. rewrite Hp. simpl.
    change (flat_messages sp [] nm) with msgs.
    unfold chat_completions_openai, call, bind, emit, lift. simpl.
    rewrite Hv. reflexivity.
  - intros Hp reply rest Hv. unfold generate_chat_response. rewrite Hp. simpl.
    change (flat_messages sp [] nm) with msgs.
    unfold chat_completions_groq, call, bind, emit, lift. simpl.
    rewrite Hv. reflexivity.
  - intros Hp r Hv.
    pose proof (gemini_request V self sp [] nm w Hp) as E. simpl in E.
    fold contents in E. fold config in E. rewrite Hv in E. exact E.
Qed.

Lemma empty_history_is_valid_witness :
  generate_chat_response demo_vendors (with_provider "openai")
    "Be concise" [] "2+2?" demo_world
  = (Ok (Some "4"),
     logged (EvCall (openai_chat_completions_create "gpt-4o-mini"
                       [{| role := "system"; content := "Be concise" |};
                        {| role := "user"; content := "2+2?" |}]) true)
       demo_world)
  /\ generate_chat_response demo_vendors (with_provider "gemini")
       "Be concise" [] "2+2?" demo_world
     = (Ok (Some "4"),
        logged (EvCall (gemini_generate_content "gemini-2.5-flash"
                          (ContentsList [ContentStr "2+2?"])
                          (Some {| system_instruction := Some "Be concise";
                                   response_modalities := [];
                                   voice_name := None |})) true)
          demo_world).
Proof.
  split.
  - apply (proj1 (empty_history_is_valid demo_vendors (with_provider "openai")
                    "Be concise" "2+2?" demo_world) eq_refl (Some "4") []).
    reflexivity.
  - apply (proj2 (proj2 (empty_history_is_valid demo_vendors
                           (with_provider "gemini")
                           "Be concise" "2+2?" demo_world)) eq_refl
             {| text := Some "4"; candidates_opt := Some [[Some demo_pcm]] |}).
    reflexivity.
Defined.

(** ** Unrecognized providers in the audio operations *)

(** C10: with a provider identifier outside openai, groq and gemini,
    [transcribe_audio] falls through every branch and returns [None]
    without raising, and [text_to_speech] sends no request, writes no file
    and still returns [output_path]; neither touches the world, and
    neither reports the unrecognized provider. *)
Theorem audio_fallthrough (V : Vendors) (self : AIServiceFactory)
    (file_path output_path : string) (t : option string) (w : World) :
  recognized (provider self) = false ->
  transcribe_audio V self file_path w = (Ok None, w)
  /\ text_to_speech V self t output_path w = (Ok output_path, w).
Proof.
  intros H. apply recognized_false in H as (Hg & Hq & Ho).
  unfold transcribe_audio, text_to_speech, bind.
  rewrite Hg, Hq, Ho. split; reflexivity.
Qed.

Lemma audio_fallthrough_witness :
  transcribe_audio demo_vendors (with_provider "claude")
    "uploads/rec.ogg" demo_world = (Ok None, demo_world)
  /\ text_to_speech demo_vendors (with_provider "claude") (Some "hi")
       "uploads/out.mp3" demo_world = (Ok "uploads/out.mp3", demo_world).
Proof.
  apply (audio_fallthrough demo_vendors (with_provider "claude")
           "uploads/rec.ogg" "uploads/out.mp3" (Some "hi") demo_world eq_refl).
Defined.

(** ** Speech to text *)

Lemma open_rb_found (path : string) (d : bytes) (w : World) :
  fs w !! path = Some d -> open_rb path w = (Ok d, logged (EvOpen path) w).
Proof. intros H. unfold open_rb. rewrite H. reflexivity. Qed.

Lemma open_rb_missing (path : string) (w : World) :
  fs w !! path = None -> open_rb path w = (Raise (FileNotFoundError path), w).
Proof. intros H. unfold open_rb. rewrite H. reflexivity. Qed.

(** C6, as stated, is false for openai: the adapter hands the open file
    object to the endpoint.  The gateway reads nothing itself and attaches
    no WebM label; the request is named after the path of the upload. *)
Lemma openai_transcription_not_tagged :
  run_log (transcribe_audio demo_vendors (with_provider "openai")
             "uploads/rec.ogg") demo_world
  = [EvOpen "uploads/rec.ogg";
     EvCall (openai_audio_transcriptions_create "gpt-4o-transcribe"
               (FileObj "uploads/rec.ogg" [x4f; x67; x67; x53])) true]
  /\ audio_label (openai_audio_transcriptions_create "gpt-4o-transcribe"
                    (FileObj "uploads/rec.ogg" [x4f; x67; x67; x53])) = None
  /\ ~ reads_then_sends_webm "openai".
Proof.
  split; [reflexivity|]. split; [reflexivity|].
  intros H.
  destruct (H demo_vendors "uploads/rec.ogg" [x4f; x67; x67; x53] demo_world
              eq_refl) as (c & ok & Hlog & _).
  vm_compute in Hlog. discriminate Hlog.
Qed.

(** C6 (amended): on an existing file, the gemini and groq adapters open
    it, read all of it, and then send one request carrying those bytes:
    gemini as an inline part of MIME type ["audio/webm"], groq as the
    tuple [("audio.webm", bytes)], a filename and no separate MIME type.
    The openai adapter opens the file and passes the file object itself to
    the endpoint, unread and without a WebM label. *)
Theorem transcribe_audio_requests (V : Vendors) (file_path : string)
    (d : bytes) (w : World) :
  fs w !! file_path = Some d ->
  let gem := gemini_generate_content "gemini-2.5-flash"
               (ContentsList
                  [ContentStr "Generate an exact transcript of this audio.";
                   ContentPart (Part_from_bytes d "audio/webm")]) None in
  let grq := groq_audio_transcriptions_create (FileTuple "audio.webm" d)
               "whisper-large-v3-turbo" "json" "en" in
  let oai := openai_audio_transcriptions_create "gpt-4o-transcribe"
               (FileObj file_path d) in
  (exists ok,
     run_log (transcribe_audio V (with_provider "gemini") file_path) w
     = log w ++ [EvOpen file_path; EvRead file_path d; EvCall gem ok])
  /\ (exists ok,
     run_log (transcribe_audio V (with_provider "groq") file_path) w
     = log w ++ [EvOpen file_path; EvRead file_path d; EvCall grq ok])
  /\ (exists ok,
     run_log (transcribe_audio V (with_provider "openai") file_path) w
     = log w ++ [EvOpen file_path; EvCall oai ok])
  /\ inline_audio gem = Some d /\ audio_label gem = Some "audio/webm"
  /\ inline_audio grq = Some d /\ audio_label grq = Some "audio.webm"
  /\ inline_audio oai = None /\ audio_label oai = None
  /\ reads_then_sends_webm "gemini" /\ reads_then_sends_webm "groq".
Proof.
  intros Hf gem grq oai.
  assert (Hgem : forall V' p' d' w', fs w' !! p' = Some d' ->
            run_log (transcribe_audio V' (with_provider "gemini") p') w'
            = log w' ++ [EvOpen p'; EvRead p' d';
                 EvCall (gemini_generate_content "gemini-2.5-flash"
                   (ContentsList
                     [ContentStr "Generate an exact transcript of this audio.";
                      ContentPart (Part_from_bytes d' "audio/webm")]) None)
                   (is_ok (gemini_generate V' "gemini-2.5-flash"
                     (ContentsList
                       [ContentStr "Generate an exact transcript of this audio.";
                        ContentPart (Part_from_bytes d' "audio/webm")]) None))]).
  { intros V' p' d' w' H'. unfold run_log, transcribe_audio. simpl.
    unfold bind at 1. rewrite (open_rb_found _ _ _ H').
    unfold read_all, generate_content, call, bind, emit, lift, logged. simpl.
    destruct (gemini_generate V' _ _ _); simpl;
      rewrite <- !app_assoc; reflexivity. }
  assert (Hgrq : forall V' p' d' w', fs w' !! p' = Some d' ->
            run_log (transcribe_audio V' (with_provider "groq") p') w'
            = log w' ++ [EvOpen p'; EvRead p' d';
                 EvCall (groq_audio_transcriptions_create
                           (FileTuple "audio.webm" d')
                           "whisper-large-v3-turbo" "json" "en")
                   (is_ok (groq_transcribe V' (FileTuple "audio.webm" d')
                             "whisper-large-v3-turbo" "json" "en"))]).
  { intros V' p' d' w' H'. unfold run_log, transcribe_audio. simpl.
    unfold bind at 1. rewrite (open_rb_found _ _ _ H').
    unfold read_all, call, bind, emit, lift, logged. simpl.
    destruct (groq_transcribe V' _ _ _ _); simpl;
      rewrite <- !app_assoc; reflexivity. }
  split; [eexists; apply (Hgem V file_path d w Hf)|].
  split; [eexists; apply (Hgrq V file_path d w Hf)|].
  split.
  { exists (is_ok (openai_transcribe V "gpt-4o-transcribe"
                     (FileObj file_path d))).
    unfold run_log, transcribe_audio. simpl.
    unfold bind at 1. rewrite (open_rb_found _ _ _ Hf).
    unfold call, bind, emit, lift, logged. simpl.
    destruct (openai_transcribe V _ _); simpl;
      rewrite <- !app_assoc; reflexivity. }
  repeat split.
  - intros V' p' d' w' H'. eexists _, _. split; [apply (Hgem V' p' d' w' H')|].
    split; reflexivity.
  - intros V' p' d' w' H'. eexists _, _. split; [apply (Hgrq V' p' d' w' H')|].
    split; reflexivity.
Qed.

Lemma transcribe_audio_requests_witness :
  exists ok,
    run_log (transcribe_audio demo_vendors (with_provider "groq")
               "uploads/rec.ogg") demo_world
    = log demo_world
        ++ [EvOpen "uploads/rec.ogg";
            EvRead "uploads/rec.ogg" [x4f; x67; x67; x53];
            EvCall (groq_audio_transcriptions_create
                      (FileTuple "audio.webm" [x4f; x67; x67; x53])
                      "whisper-large-v3-turbo" "json" "en") ok].
Proof.
  apply (proj1 (proj2
    (transcribe_audio_requests demo_vendors "uploads/rec.ogg"
       [x4f; x67; x67; x53] demo_world eq_refl))).
Defined.

(** ** The WAV container *)

Lemma Z_of_byte_of_Z (z : Z) : Z_of_byte (byte_of_Z z) = (z mod 256)%Z.
Proof.
  unfold Z_of_byte, byte_of_Z.
  assert (Hr : (0 <= z mod 256 < 256)%Z) by (apply Z.mod_pos_bound; lia).
  destruct (Byte.of_N (Z.to_N (z mod 256))) as [b|] eqn:E.
  - apply Byte.to_of_N in E. rewrite E. apply Z2N.id. lia.
  - apply Byte.of_N_None_iff in E. lia.
Qed.

Lemma unpack_L_le32 (n : Z) :
  (0 <= n < 2 ^ 32)%Z ->
  match le32 n with
  | [b0; b1; b2; b3] => unpack_L b0 b1 b2 b3 = n
  | _ => False
  end.
Proof.
  intros Hn. unfold le32, unpack_L. rewrite !Z_of_byte_of_Z.
  change (2 ^ 8)%Z with 256%Z. change (2 ^ 16)%Z with 65536%Z.
  change (2 ^ 24)%Z with 16777216%Z. change (2 ^ 32)%Z with 4294967296%Z in Hn.
  Z.div_mod_to_equations. lia.
Qed.

Lemma pack_L_in_range (n : Z) :
  (0 <= n < 2 ^ 32)%Z -> pack_L n = Some (le32 n).
Proof.
  intros [H0 H1]. unfold pack_L.
  apply Z.leb_le in H0. apply Z.ltb_lt in H1. now rewrite H0, H1.
Qed.

Lemma wave_header_default (L : Z) :
  (0 <= L)%Z -> (36 + L < 2 ^ 32)%Z ->
  wave_header 1 2 24000 L = Some (default_header L).
Proof.
  intros H0 H1. unfold wave_header.
  rewrite (pack_L_in_range (36 + L)) by lia.
  rewrite (pack_L_in_range L) by lia.
  reflexivity.
Qed.

Lemma Wave_read_canonical (a0 a1 a2 a3 d0 d1 d2 d3 : byte) (pcm : bytes) :
  Wave_read (b_ "RIFF" ++ [a0; a1; a2; a3] ++ b_ "WAVE" ++ b_ "fmt "
             ++ le32 16 ++ le16 1 ++ le16 1 ++ le32 24000 ++ le32 48000
             ++ le16 2 ++ le16 16 ++ b_ "data" ++ [d0; d1; d2; d3] ++ pcm)
  = Some {| getnchannels := 1; getsampwidth := 2; getframerate := 24000;
            getnframes := (unpack_L d0 d1 d2 d3 / (1 * 2))%Z |}.
Proof.
  reflexivity.
Qed.

Lemma Wave_read_default (L : Z) (pcm : bytes) :
  (0 <= L < 2 ^ 32)%Z ->
  Wave_read (default_header L ++ pcm)
  = Some {| getnchannels := 1; getsampwidth := 2; getframerate := 24000;
            getnframes := (L / (1 * 2))%Z |}.
Proof.
  intros HL. pose proof (unpack_L_le32 L HL) as Hu. unfold le32 in Hu.
  transitivity
    (Some {| getnchannels := 1; getsampwidth := 2; getframerate := 24000;
             getnframes :=
               (unpack_L (byte_of_Z L) (byte_of_Z (L / 2 ^ 8))
                  (byte_of_Z (L / 2 ^ 16)) (byte_of_Z (L / 2 ^ 24))
                / (1 * 2))%Z |}).
  - exact (Wave_read_canonical
             (byte_of_Z (36 + L)) (byte_of_Z ((36 + L) / 2 ^ 8))
             (byte_of_Z ((36 + L) / 2 ^ 16)) (byte_of_Z ((36 + L) / 2 ^ 24))
             _ _ _ _ pcm).
  - now rewrite Hu.
Qed.

Lemma wave_writeframes_close_default (pcm : bytes) :
  (36 + Z.of_nat (List.length pcm) < 2 ^ 32)%Z ->
  wave_writeframes_close 1 2 24000 pcm
  = (default_header (Z.of_nat (List.length pcm)) ++ pcm, None).
Proof.
  intros H. unfold wave_writeframes_close.
  set (L := Z.of_nat (List.length pcm)) in *.
  assert (H0 : (0 <= L)%Z) by (subst L; lia).
  set (D := (L / (1 * 2) * 1 * 2)%Z).
  assert (HD : (0 <= D <= L)%Z).
  { subst D. change (1 * 2)%Z with 2%Z. Z.div_mod_to_equations. lia. }
  rewrite (wave_header_default D) by lia.
  destruct (D =? L)%Z eqn:E.
  - apply Z.eqb_eq in E. now rewrite E.
  - now rewrite (wave_header_default L) by lia.
Qed.

Lemma save_wave_file_default_ok (filename : string) (pcm : bytes) (w : World) :
  (36 + Z.of_nat (List.length pcm) < 2 ^ 32)%Z ->
  let f := default_header (Z.of_nat (List.length pcm)) ++ pcm in
  save_wave_file_default filename pcm w = (Ok tt, wrote filename f w).
Proof.
  intros H f. unfold save_wave_file_default, save_wave_file.
  change (default_channels <? 1)%Z with false.
  change ((default_sample_width <? 1)%Z || (4 <? default_sample_width)%Z)
    with false.
  change (default_rate <=? 0)%Z with false. cbv iota.
  unfold default_channels, default_sample_width, default_rate.
  rewrite (wave_writeframes_close_default pcm H). reflexivity.
Qed.

(** C8: with the defaults, which are one channel, 2-byte samples and
    24000 frames per second, [save_wave_file] turns a PCM buffer of [L]
    bytes into a WAV file that reads back as mono, 2-byte, 24000 Hz with a
    frame count of [L / (channels * sample_width)] (the integer quotient;
    exactly half of [L] when [L] is even), hence a playing time of that
    frame count over the frame rate.  The size field of the container is
    32 bits wide, so [L + 36] has to fit in it. *)
Theorem wav_frames_and_duration (filename : string) (pcm : bytes) (w : World) :
  let L := Z.of_nat (List.length pcm) in
  (36 + L < 2 ^ 32)%Z ->
  default_channels = 1%Z /\ default_sample_width = 2%Z
  /\ default_rate = 24000%Z
  /\ exists f p,
       run_result (save_wave_file_default filename pcm) w = Ok tt
       /\ fs (snd (save_wave_file_default filename pcm w)) !! filename = Some f
       /\ Wave_read f = Some p
       /\ getnchannels p = default_channels
       /\ getsampwidth p = default_sample_width
       /\ getframerate p = default_rate
       /\ getnframes p = (L / (default_channels * default_sample_width))%Z
       /\ (L mod 2 = 0 -> 2 * getnframes p = L)%Z
       /\ duration p = (inject_Z (getnframes p) / inject_Z default_rate)%Q
       /\ (duration p == (L / 2) # 24000)%Q.
Proof.
  intros L H. repeat split.
  exists (default_header L ++ pcm).
  exists {| getnchannels := 1; getsampwidth := 2; getframerate := 24000;
            getnframes := (L / (1 * 2))%Z |}.
  unfold run_result. rewrite (save_wave_file_default_ok filename pcm w H).
  fold L. simpl fst. simpl snd.
  split; [reflexivity|].
  split; [simpl; apply lookup_insert_eq|].
  split; [apply Wave_read_default; subst L; lia|].
  repeat split.
  - simpl. change (1 * 2)%Z with 2%Z. intros Hm.
    Z.div_mod_to_equations. lia.
  - unfold duration. simpl getnframes. simpl getframerate.
    change (1 * 2)%Z with 2%Z.
    unfold Qeq, Qdiv, Qmult, Qinv, inject_Z. simpl. lia.
Qed.

Lemma wav_frames_and_duration_witness :
  exists f p,
    fs (snd (save_wave_file_default "out.wav" demo_pcm demo_world)) !! "out.wav"
    = Some f
    /\ Wave_read f = Some p
    /\ getnframes p = 3%Z
    /\ (duration p == 1 # 8000)%Q.
Proof.
  destruct (wav_frames_and_duration "out.wav" demo_pcm demo_world)
    as (_ & _ & _ & f & p & _ & Hf & Hr & _ & _ & _ & Hn & _ & _ & Hd).
  - vm_compute. reflexivity.
  - exists f, p. split; [exact Hf|]. split; [exact Hr|].
    split; [rewrite Hn; reflexivity|].
    rewrite Hd. reflexivity.
Defined.

(** ** Text to speech *)

Lemma candidates_cons (r : GenerateContentResponse)
    (c : list (option bytes)) (cs : list (list (option bytes))) :
  candidates r = c :: cs -> candidates_opt r = Some (c :: cs).
Proof.
  unfold candidates. destruct (candidates_opt r); simpl; [congruence|discriminate].
Qed.

Lemma write_file_lookup (path : string) (data : bytes) (w : World) :
  fs (snd (write_file path data w)) !! path = Some data.
Proof. unfold write_file, emit. simpl. apply lookup_insert_eq. Qed.

Lemma save_wave_file_written (filename : string) (pcm : bytes)
    (c r s : Z) (w w' : World) :
  save_wave_file filename pcm c r s w = (Ok tt, w') ->
  exists f, fs w' !! filename = Some f.
Proof.
  unfold save_wave_file.
  destruct (c <? 1)%Z; [unfold bind; simpl; discriminate|].
  destruct ((s <? 1)%Z || (4 <? s)%Z); [unfold bind; simpl; discriminate|].
  destruct (r <=? 0)%Z; [unfold bind; simpl; discriminate|].
  destruct (wave_writeframes_close c s r pcm) as [out [e|]].
  - unfold bind; simpl; discriminate.
  - intros H. exists out.
    pose proof (write_file_lookup filename out w) as Hl.
    rewrite H in Hl. exact Hl.
Qed.

Lemma stream_to_file_ok (path : string) (s : BinaryStream) (w w' : World) :
  stream_to_file path s w = (Ok tt, w') ->
  broken s = None
  /\ w' = wrote path (List.concat (chunks s)) w.
Proof.
  unfold stream_to_file, bind, write_file, emit, raise, ret. simpl.
  destruct (broken s); [discriminate|].
  intros H. injection H as <-. split; reflexivity.
Qed.

Lemma stream_to_file_whole (path : string) (s : BinaryStream) (w : World) :
  broken s = None ->
  stream_to_file path s w = (Ok tt, wrote path (List.concat (chunks s)) w).
Proof.
  intros H. unfold stream_to_file, bind, write_file, emit, ret. simpl.
  rewrite H. reflexivity.
Qed.

Lemma recognized_true (p : string) :
  recognized p = true -> p = "gemini" \/ p = "groq" \/ p = "openai".
Proof.
  unfold recognized. intros H.
  destruct (String.eqb_spec p "gemini"); [auto|].
  destruct (String.eqb_spec p "groq"); [auto|].
  destruct (String.eqb_spec p "openai"); [auto|discriminate].
Qed.

(** Every successful run of [text_to_speech] under a recognized provider
    returns [output_path] and leaves a file there. *)
Lemma text_to_speech_returns_path (V : Vendors) (self : AIServiceFactory)
    (t : option string) (out : string) (w : World) (r : string) (w' : World) :
  recognized (provider self) = true ->
  text_to_speech V self t out w = (Ok r, w') ->
  r = out /\ exists data, fs w' !! out = Some data.
Proof.
  intros Hrec. unfold text_to_speech.
  destruct (recognized_true _ Hrec) as [Hp|[Hp|Hp]]; rewrite Hp; simpl.
  - unfold bind at 1. unfold bind at 1. unfold generate_content, call.
    unfold bind at 1. simpl.
    destruct (gemini_generate V _ _ _) as [resp|e]; simpl; [|discriminate].
    unfold bind at 1.
    destruct (first_inline_data resp _) as [[data|e] w1] eqn:E1; [|discriminate].
    destruct (save_wave_file_default out data w1) as [[[]|e] w2] eqn:E2;
      [|discriminate].
    intros H. injection H as <- <-. split; [reflexivity|].
    eapply save_wave_file_written. exact E2.
  - unfold bind at 1. unfold bind at 1. unfold call. unfold bind at 1. simpl.
    destruct (groq_speech V _ _ _ _) as [s|e]; simpl; [|discriminate].
    destruct (stream_to_file out s _) as [[[]|e] w2] eqn:E2; [|discriminate].
    intros H. injection H as <- <-. split; [reflexivity|].
    apply stream_to_file_ok in E2 as [_ ->].
    eexists. unfold wrote. simpl. apply lookup_insert_eq.
  - unfold bind at 1. unfold bind at 1. unfold call. unfold bind at 1. simpl.
    destruct (openai_speech V _ _ _) as [s|e]; simpl; [|discriminate].
    destruct (stream_to_file out s _) as [[[]|e] w2] eqn:E2; [|discriminate].
    intros H. injection H as <- <-. split; [reflexivity|].
    apply stream_to_file_ok in E2 as [_ ->].
    eexists. unfold wrote. simpl. apply lookup_insert_eq.
Qed.

(** C7: for each of the three recognized providers a successful
    [text_to_speech] leaves the synthesized audio at [output_path] and
    returns [output_path] itself.  For openai and groq the file is the
    streamed body, chunk after chunk; for gemini it is the WAV container
    around the PCM samples of the response.  The call does succeed
    whenever the vendor delivers its audio. *)
Theorem text_to_speech_writes_and_returns (V : Vendors)
    (self : AIServiceFactory) (t : option string) (out : string) (w : World) :
  recognized (provider self) = true ->
  (forall r w', text_to_speech V self t out w = (Ok r, w') ->
     r = out /\ exists data, fs w' !! out = Some data)
  /\ (provider self = "openai" ->
      forall s, openai_speech V "gpt-4o-mini-tts" "coral" t = Ok s ->
                broken s = None ->
        text_to_speech V self t out w
        = (Ok out,
           wrote out (List.concat (chunks s))
             (logged (EvCall (openai_audio_speech_create "gpt-4o-mini-tts"
                                "coral" t) true) w)))
  /\ (provider self = "groq" ->
      forall s, groq_speech V "playai-tts" "Fritz-PlayAI" t "wav" = Ok s ->
                broken s = None ->
        text_to_speech V self t out w
        = (Ok out,
           wrote out (List.concat (chunks s))
             (logged (EvCall (groq_audio_speech_create "playai-tts"
                                "Fritz-PlayAI" t "wav") true) w)))
  /\ (provider self = "gemini" ->
      forall resp data rest others,
        gemini_generate V "gemini-2.5-flash-preview-tts" (ContentsStr t)
          tts_config = Ok resp ->
        candidates resp = (Some data :: rest) :: others ->
        (36 + Z.of_nat (List.length data) < 2 ^ 32)%Z ->
        text_to_speech V self t out w
        = (Ok out,
           wrote out (default_header (Z.of_nat (List.length data)) ++ data)
             (logged (EvCall (gemini_generate_content
                                "gemini-2.5-flash-preview-tts"
                                (ContentsStr t) tts_config) true) w))).
Proof.
  intros Hrec. split; [|split; [|split]].
  - intros r w' H. eapply text_to_speech_returns_path; eauto.
  - intros Hp s Hs Hb. unfold text_to_speech. rewrite Hp. simpl.
    unfold bind at 1. unfold bind at 1. unfold call. unfold bind at 1. simpl.
    rewrite Hs. simpl. fold (logged (EvCall
      (openai_audio_speech_create "gpt-4o-mini-tts" "coral" t) true) w).
    rewrite (stream_to_file_whole out s _ Hb). reflexivity.
  - intros Hp s Hs Hb. unfold text_to_speech. rewrite Hp. simpl.
    unfold bind at 1. unfold bind at 1. unfold call. unfold bind at 1. simpl.
    rewrite Hs. simpl. fold (logged (EvCall
      (groq_audio_speech_create "playai-tts" "Fritz-PlayAI" t "wav") true) w).
    rewrite (stream_to_file_whole out s _ Hb). reflexivity.
  - intros Hp resp data rest others Hr Hc Hsz.
    unfold text_to_speech. rewrite Hp. simpl.
    unfold bind at 1. unfold bind at 1. unfold generate_content, call.
    unfold bind at 1. simpl. fold tts_config. rewrite Hr. simpl.
    fold (logged (EvCall (gemini_generate_content
            "gemini-2.5-flash-preview-tts" (ContentsStr t) tts_config) true) w).
    unfold bind at 1. unfold first_inline_data.
    rewrite (candidates_cons _ _ _ Hc). simpl.
    rewrite (save_wave_file_default_ok out data _ Hsz). reflexivity.
Qed.

Lemma text_to_speech_writes_and_returns_witness :
  text_to_speech demo_vendors (with_provider "gemini") (Some "four")
    "uploads/r.mp3" demo_world
  = (Ok "uploads/r.mp3",
     wrote "uploads/r.mp3" (default_header 6 ++ demo_pcm)
       (logged (EvCall (gemini_generate_content "gemini-2.5-flash-preview-tts"
                          (ContentsStr (Some "four")) tts_config) true)
          demo_world))
  /\ text_to_speech demo_vendors (with_provider "openai") (Some "four")
       "uploads/r.mp3" demo_world
     = (Ok "uploads/r.mp3",
        wrote "uploads/r.mp3" [x49; x44; x33]
          (logged (EvCall (openai_audio_speech_create "gpt-4o-mini-tts"
                             "coral" (Some "four")) true) demo_world)).
Proof.
  split.
  - apply (proj2 (proj2 (proj2
      (text_to_speech_writes_and_returns demo_vendors (with_provider "gemini")
         (Some "four") "uploads/r.mp3" demo_world eq_refl))) eq_refl
      {| text := Some "4"; candidates_opt := Some [[Some demo_pcm]] |} demo_pcm [] []
      eq_refl eq_refl).
    vm_compute. reflexivity.
  - apply (proj1 (proj2
      (text_to_speech_writes_and_returns demo_vendors (with_provider "openai")
         (Some "four") "uploads/r.mp3" demo_world eq_refl)) eq_refl
      {| chunks := [[x49; x44]; [x33]]; broken := None |} eq_refl eq_refl).
Defined.

(** ** The conversation turn *)

Lemma commits_app (a b : list Event) : commits (a ++ b) = commits a ++ commits b.
Proof.
  induction a as [|e a IH]; simpl; [reflexivity|].
  destruct e; simpl; now rewrite ?IH.
Qed.

Lemma commits_quiet (evs : list Event) :
  forallb quiet evs = true -> commits evs = [].
Proof.
  induction evs as [|e evs IH]; simpl; [reflexivity|].
  intros H. apply andb_prop in H as [He Hr].
  destruct e; simpl in He; try discriminate; auto.
Qed.

Lemma turn_protocol_app (st : TurnState) (a b : list Event) :
  turn_protocol st (a ++ b)
  = match turn_protocol st a with
    | Some st' => turn_protocol st' b
    | None => None
    end.
Proof.
  revert st. induction a as [|e a IH]; intros st; simpl; [reflexivity|].
  destruct (turn_step st e); [apply IH|reflexivity].
Qed.

Lemma turn_protocol_quiet (st : TurnState) (evs : list Event) :
  forallb quiet evs = true -> turn_protocol st evs = Some st.
Proof.
  induction evs as [|e evs IH]; simpl; [reflexivity|].
  intros H. apply andb_prop in H as [He Hr].
  destruct e; simpl in *; try discriminate; auto.
  destruct (is_chat_call c); [discriminate|]. auto.
Qed.

Lemma steps_refl (w : World) : steps w w [].
Proof. split; now rewrite app_nil_r. Qed.

Lemma steps_trans (w w1 w2 : World) (a b : list Event) :
  steps w w1 a -> steps w1 w2 b -> steps w w2 (a ++ b).
Proof.
  intros [L1 M1] [L2 M2]. split.
  - now rewrite L2, L1, app_assoc.
  - now rewrite M2, M1, commits_app, app_assoc.
Qed.

Lemma steps_quiet (w w' : World) (evs : list Event) :
  log w' = log w ++ evs -> db w' = db w -> forallb quiet evs = true ->
  steps w w' evs.
Proof.
  intros HL HD HQ. split; [exact HL|].
  now rewrite HD, (commits_quiet _ HQ), app_nil_r.
Qed.

Lemma quiet_ret {A} (a : A) : quiet_run (ret a).
Proof. intros w. exists []. split; [reflexivity|apply steps_refl]. Qed.

Lemma quiet_raise {A} (e : exn) : quiet_run (@raise A e).
Proof. intros w. exists []. split; [reflexivity|apply steps_refl]. Qed.

Lemma quiet_lift {A} (r : result A) : quiet_run (lift r).
Proof. intros w. exists []. split; [reflexivity|apply steps_refl]. Qed.

Lemma quiet_emit (e : Event) : quiet e = true -> quiet_run (emit e).
Proof.
  intros H w. exists [e]. split; [simpl; now rewrite H|].
  apply steps_quiet; simpl; auto. now rewrite H.
Qed.

Lemma quiet_bind {A B} (m : M A) (k : A -> M B) :
  quiet_run m -> (forall a, quiet_run (k a)) -> quiet_run (bind m k).
Proof.
  intros Hm Hk w. unfold bind.
  destruct (Hm w) as (e1 & Q1 & S1).
  destruct (m w) as [[a|e] w1]; simpl in S1.
  - destruct (Hk a w1) as (e2 & Q2 & S2).
    exists (e1 ++ e2). split.
    + rewrite forallb_app. now rewrite Q1, Q2.
    + eapply steps_trans; eauto.
  - exists e1. split; auto.
Qed.

Lemma quiet_write_file (path : string) (data : bytes) :
  quiet_run (write_file path data).
Proof.
  intros w. exists [EvWrite path data]. split; [reflexivity|].
  apply steps_quiet; reflexivity.
Qed.

Lemma quiet_save_upload (R : Runtime) (path : string) (data : bytes) :
  quiet_run (save_upload R path data).
Proof.
  unfold save_upload. destruct (create_error R path).
  - intros w. exists []. split; [reflexivity|apply steps_refl].
  - apply quiet_write_file.
Qed.

Lemma quiet_open_rb (path : string) : quiet_run (open_rb path).
Proof.
  intros w. unfold open_rb. destruct (fs w !! path).
  - apply (quiet_bind (emit (EvOpen path)) (fun _ => ret l)).
    + now apply quiet_emit.
    + intros _. apply quiet_ret.
  - exists []. split; [reflexivity|apply steps_refl].
Qed.

Lemma quiet_call {A} (c : VendorCall) (answer : result A) :
  is_chat_call c = false -> quiet_run (call c answer).
Proof.
  intros H. unfold call. apply quiet_bind.
  - apply quiet_emit. simpl. now rewrite H.
  - intros _. apply quiet_lift.
Qed.

Create HintDb quiet_db.
#[local] Hint Resolve quiet_ret quiet_raise quiet_lift quiet_write_file
  quiet_open_rb : quiet_db.

Lemma quiet_save_wave_file (filename : string) (pcm : bytes) (c r s : Z) :
  quiet_run (save_wave_file filename pcm c r s).
Proof.
  unfold save_wave_file.
  destruct (c <? 1)%Z; [apply quiet_bind; auto with quiet_db|].
  destruct ((s <? 1)%Z || (4 <? s)%Z); [apply quiet_bind; auto with quiet_db|].
  destruct (r <=? 0)%Z; [apply quiet_bind; auto with quiet_db|].
  destruct (wave_writeframes_close c s r pcm) as [out [e|]].
  - apply quiet_bind; auto with quiet_db.
  - auto with quiet_db.
Qed.

Lemma quiet_stream_to_file (path : string) (s : BinaryStream) :
  quiet_run (stream_to_file path s).
Proof.
  unfold stream_to_file. apply quiet_bind; auto with quiet_db.
  intros _. destruct (broken s); auto with quiet_db.
Qed.

Ltac quiet_steps :=
  repeat first
    [ solve [auto with quiet_db]
    | apply quiet_emit; reflexivity
    | apply quiet_call; reflexivity
    | apply quiet_bind; [|intros ?] ].

Lemma quiet_transcribe_audio (V : Vendors) (self : AIServiceFactory)
    (file_path : string) : quiet_run (transcribe_audio V self file_path).
Proof.
  unfold transcribe_audio, read_all, generate_content.
  destruct (String.eqb (provider self) "gemini"); [quiet_steps|].
  destruct (String.eqb (provider self) "groq"); [quiet_steps|].
  destruct (String.eqb (provider self) "openai"); quiet_steps.
Qed.

Lemma quiet_first_inline_data (V : Vendors) (r : GenerateContentResponse) :
  quiet_run (first_inline_data r).
Proof.
  unfold first_inline_data.
  destruct (candidates_opt r) as [[|[|[d|] ?] ?]|]; auto with quiet_db.
Qed.

Lemma quiet_text_to_speech (V : Vendors) (self : AIServiceFactory)
    (t : option string) (out : string) :
  quiet_run (text_to_speech V self t out).
Proof.
  pose proof quiet_save_wave_file as Hs.
  pose proof quiet_stream_to_file as Ht.
  pose proof (quiet_first_inline_data V) as Hf.
  unfold text_to_speech, generate_content, save_wave_file_default.
  apply quiet_bind; [|intros _; apply quiet_ret].
  destruct (String.eqb (provider self) "gemini"); [quiet_steps; auto|].
  destruct (String.eqb (provider self) "groq"); [quiet_steps; auto|].
  destruct (String.eqb (provider self) "openai"); quiet_steps; auto.
Qed.

(** One run of [generate_chat_response]: either the provider is not
    supported and nothing happens, or exactly one chat request is sent,
    and a request that failed makes the run raise. *)
Lemma generate_chat_response_run (V : Vendors) (self : AIServiceFactory)
    (sp : string) (h : list ChatEntry) (nm : string) (w : World) :
  (exists msg,
     generate_chat_response V self sp h nm w = (Raise (ValueError msg), w))
  \/ (exists c returned r,
        is_chat_call c = true
        /\ generate_chat_response V self sp h nm w
           = (r, logged (EvCall c returned) w)
        /\ (returned = false -> is_ok r = false)).
Proof.
  unfold generate_chat_response.
  destruct (String.eqb (provider self) "gemini").
  { right. unfold generate_content, call, bind, emit, lift, logged. simpl.
    destruct (gemini_generate V _ _ _) as [r|e].
    - eexists _, true, _. split; [|split; [reflexivity|discriminate]]. reflexivity.
    - eexists _, false, _. split; [|split; [reflexivity|reflexivity]]. reflexivity. }
  destruct (String.eqb (provider self) "openai").
  { right. unfold chat_completions_openai, call, bind, emit, lift, logged. simpl.
    destruct (openai_chat V _ _) as [[|x r]|e].
    - eexists _, true, _. split; [|split; [reflexivity|discriminate]]. reflexivity.
    - eexists _, true, _. split; [|split; [reflexivity|discriminate]]. reflexivity.
    - eexists _, false, _. split; [|split; [reflexivity|reflexivity]]. reflexivity. }
  destruct (String.eqb (provider self) "groq").
  { right. unfold chat_completions_groq, call, bind, emit, lift, logged. simpl.
    destruct (groq_chat V _ _) as [[|x r]|e].
    - eexists _, true, _. split; [|split; [reflexivity|discriminate]]. reflexivity.
    - eexists _, true, _. split; [|split; [reflexivity|discriminate]]. reflexivity.
    - eexists _, false, _. split; [|split; [reflexivity|reflexivity]]. reflexivity. }
  left. eexists. reflexivity.
Qed.

Lemma steps_logged_call (c : VendorCall) (returned : bool) (w : World) :
  steps w (logged (EvCall c returned) w) [EvCall c returned].
Proof. split; simpl; [reflexivity|now rewrite app_nil_r]. Qed.

Lemma add_commit_Message_some (R : Runtime) (sid rl c : string)
    (a : option string) (w : World) :
  exists m w',
    add_commit_Message R sid rl (Some c) a w = (Ok m, w')
    /\ steps w w' [EvCommit m]
    /\ models.role m = rl /\ models.content m = c
    /\ models.session_id m = sid /\ models.audio_file_path m = a.
Proof.
  eexists _, _. split.
  { unfold add_commit_Message, bind, fresh_uuid, utcnow, commit_row, emit, ret.
    simpl. reflexivity. }
  repeat split.
Qed.

Lemma add_commit_Message_none (R : Runtime) (sid rl : string)
    (a : option string) (w : World) :
  exists e w',
    add_commit_Message R sid rl None a w = (Raise e, w') /\ steps w w' [].
Proof.
  eexists _, _. split.
  { unfold add_commit_Message, bind, fresh_uuid, utcnow, raise.
    simpl. reflexivity. }
  split; simpl; now rewrite app_nil_r.
Qed.

Lemma quiet_try_except {A} (m : M A) (h : exn -> M A) :
  quiet_run m -> (forall e, quiet_run (h e)) -> quiet_run (try_except m h).
Proof.
  intros Hm Hh w. unfold try_except.
  destruct (Hm w) as (e1 & Q1 & S1).
  destruct (m w) as [[a|e] w1]; simpl in S1.
  - exists e1. split; auto.
  - destruct (Hh e w1) as (e2 & Q2 & S2).
    exists (e1 ++ e2). split.
    + rewrite forallb_app. now rewrite Q1, Q2.
    + eapply steps_trans; eauto.
Qed.

Lemma quiet_fresh_uuid (R : Runtime) : quiet_run (fresh_uuid R).
Proof.
  intros w. exists []. split; [reflexivity|].
  split; simpl; now rewrite app_nil_r.
Qed.

Lemma bind_assoc {A B C} (m : M A) (f : A -> M B) (g : B -> M C) (w : World) :
  bind (bind m f) g w = bind m (fun x => bind (f x) g) w.
Proof. unfold bind. destruct (m w) as [[a|e] w1]; reflexivity. Qed.

(** The step "3. Call AI LLM" of both endpoints, with its [except]
    clause: no request and a 500, or one failed chat request and a 500,
    or one answered chat request. *)
Lemma chat_step (V : Vendors) (self : AIServiceFactory)
    (agent : option models.Agent) (h : list ChatEntry) (nm pre : string)
    (w : World) :
  let m :=
    try_except
      (let! system_prompt := agent_prompt agent in
       generate_chat_response V self system_prompt h nm)
      (fun e => raise (HTTPException 500 (pre +:+ exn_str e))) in
  (snd (m w) = w /\ exists d, fst (m w) = Raise (HTTPException 500 d))
  \/ (exists c d, is_chat_call c = true
        /\ snd (m w) = logged (EvCall c false) w
        /\ fst (m w) = Raise (HTTPException 500 d))
  \/ (exists c, is_chat_call c = true
        /\ snd (m w) = logged (EvCall c true) w
        /\ ((exists reply, fst (m w) = Ok reply)
            \/ exists d, fst (m w) = Raise (HTTPException 500 d))).
Proof.
  intros m. subst m. unfold try_except, bind, agent_prompt, ret, raise.
  destruct agent as [a|]; cbn beta iota.
  - destruct (generate_chat_response_run V self (models.prompt a) h nm w)
      as [(msg & E)|(c & ok & r & Hc & E & Hr)]; rewrite E.
    + left. simpl. split; eauto.
    + destruct ok.
      * right; right. exists c. split; [exact Hc|].
        destruct r as [reply|e]; simpl; split; eauto.
      * right; left. specialize (Hr eq_refl).
        destruct r as [reply|e]; [discriminate|]. simpl.
        exists c. eexists. repeat split; eauto.
  - left. split; eauto.
Qed.

Lemma bind_ok {A B} (m : M A) (k : A -> M B) (w w1 : World) (a : A) :
  m w = (Ok a, w1) -> bind m k w = k a w1.
Proof. intros H. unfold bind. now rewrite H. Qed.

Lemma bind_raise {A B} (m : M A) (k : A -> M B) (w w1 : World) (e : exn) :
  m w = (Raise e, w1) -> bind m k w = (Raise e, w1).
Proof. intros H. unfold bind. now rewrite H. Qed.

Lemma turn_step_inbound (m : models.Message) :
  models.role m = "user" -> turn_step Start (EvCommit m) = Some Inbound.
Proof. intros H. simpl. now rewrite H. Qed.

Lemma turn_step_outbound (m : models.Message) :
  models.role m = "assistant" -> turn_step Replied (EvCommit m) = Some Done.
Proof. intros H. simpl. now rewrite H. Qed.

(** A turn that stops after the inbound commit, or after an answered
    chat request, with an error. *)
Lemma turn_outcome_stopped (w0 w' : World) (evs : list Event) (e : exn)
    (st : TurnState) (m_in : models.Message) :
  steps w0 w' evs -> turn_protocol Start evs = Some st ->
  st = Inbound \/ st = Replied ->
  commits evs = [m_in] -> models.role m_in = "user" ->
  turn_outcome w0 (Raise e) w'.
Proof.
  intros HS HP Hst HC HR. exists evs, st. split; [exact HS|].
  split; [exact HP|].
  repeat split; try (destruct Hst; subst st; discriminate).
  intros _. eauto.
Qed.

(** From the inbound commit on, both endpoints run the same course: the
    chat request, some work [mid] of the gateway that touches neither the
    table nor the chat endpoint, and the outbound commit. *)
Lemma turn_tail (V : Vendors) (R : Runtime) (self : AIServiceFactory)
    (agent : option models.Agent) (sid : string) (h : list ChatEntry)
    (nm pre_s : string) (mid : option string -> M (option string))
    (w0 w : World) (pre : list Event) (m_in : models.Message) :
  steps w0 w pre -> turn_protocol Start pre = Some Inbound ->
  commits pre = [m_in] -> models.role m_in = "user" ->
  (forall t, quiet_run (mid t)) ->
  let prog :=
    let! reply :=
      try_except
        (let! system_prompt := agent_prompt agent in
         generate_chat_response V self system_prompt h nm)
        (fun e => raise (HTTPException 500 (pre_s +:+ exn_str e))) in
    let! a := mid reply in
    let! ai_msg := add_commit_Message R sid "assistant" reply a in
    ret ai_msg in
  turn_outcome w0 (fst (prog w)) (snd (prog w)).
Proof.
  intros HS HP HC HR Hmid prog. subst prog.
  pose proof (chat_step V self agent h nm pre_s w) as Hchat.
  cbv zeta in Hchat.
  destruct (try_except _ _ w) as [r1 w1] eqn:E1. simpl in Hchat.
  destruct Hchat as [[-> [d ->]]|[(c & d & Hc & -> & ->)|(c & Hc & -> & Hr)]].
  - (* no request was sent *)
    rewrite (bind_raise _ _ _ _ _ E1). simpl.
    eapply turn_outcome_stopped; eauto.
  - (* the chat request failed *)
    rewrite (bind_raise _ _ _ _ _ E1). simpl.
    exists (pre ++ [EvCall c false]), Failed.
    split; [eapply steps_trans; [exact HS|apply steps_logged_call]|].
    split; [rewrite turn_protocol_app, HP; simpl; now rewrite Hc|].
    repeat split; try discriminate; try (intros [?|?]; discriminate).
    intros _. exists d, m_in. rewrite commits_app, HC. auto.
  - (* the chat request was answered *)
    assert (HS1 : steps w0 (logged (EvCall c true) w) (pre ++ [EvCall c true])).
    { eapply steps_trans; [exact HS|apply steps_logged_call]. }
    assert (HP1 : turn_protocol Start (pre ++ [EvCall c true]) = Some Replied).
    { rewrite turn_protocol_app, HP. simpl. now rewrite Hc. }
    assert (HC1 : commits (pre ++ [EvCall c true]) = [m_in]).
    { now rewrite commits_app, HC. }
    destruct Hr as [[reply ->]|[d ->]].
    2:{ rewrite (bind_raise _ _ _ _ _ E1). simpl.
        eapply turn_outcome_stopped; eauto. }
    rewrite (bind_ok _ _ _ _ _ E1).
    destruct (Hmid reply (logged (EvCall c true) w)) as (e2 & Q2 & S2).
    destruct (mid reply _) as [[a|e] w2] eqn:E2; simpl in S2.
    2:{ rewrite (bind_raise _ _ _ _ _ E2). simpl.
        eapply (turn_outcome_stopped _ _ ((pre ++ [EvCall c true]) ++ e2)).
        - eapply steps_trans; eauto.
        - rewrite turn_protocol_app, HP1. now apply turn_protocol_quiet.
        - now right.
        - rewrite commits_app, HC1, (commits_quiet _ Q2). reflexivity.
        - exact HR. }
    rewrite (bind_ok _ _ _ _ _ E2).
    assert (HS2 : steps w0 w2 ((pre ++ [EvCall c true]) ++ e2))
      by (eapply steps_trans; eauto).
    assert (HP2 : turn_protocol Start ((pre ++ [EvCall c true]) ++ e2)
                  = Some Replied).
    { rewrite turn_protocol_app, HP1. now apply turn_protocol_quiet. }
    assert (HC2 : commits ((pre ++ [EvCall c true]) ++ e2) = [m_in]).
    { now rewrite commits_app, HC1, (commits_quiet _ Q2). }
    destruct reply as [txt|].
    + destruct (add_commit_Message_some R sid "assistant" txt a w2)
        as (m & w3 & E3 & S3 & Hrole & _).
      rewrite (bind_ok _ _ _ _ _ E3). simpl.
      exists (((pre ++ [EvCall c true]) ++ e2) ++ [EvCommit m]), Done.
      split; [eapply steps_trans; eauto|].
      split; [rewrite turn_protocol_app, HP2; simpl; now rewrite Hrole|].
      repeat split; try discriminate; try (intros [?|?]; discriminate).
      intros _. exists m_in, m. rewrite commits_app, HC2. auto.
    + destruct (add_commit_Message_none R sid "assistant" a w2)
        as (e & w3 & E3 & S3).
      rewrite (bind_raise _ _ _ _ _ E3). simpl.
      eapply (turn_outcome_stopped _ _ (((pre ++ [EvCall c true]) ++ e2) ++ [])).
      * eapply steps_trans; eauto.
      * rewrite app_nil_r. exact HP2.
      * now right.
      * rewrite app_nil_r. exact HC2.
      * exact HR.
Qed.

Lemma bind_ext {A B} (m : M A) (k k' : A -> M B) (w : World) :
  (forall a w1, k a w1 = k' a w1) -> bind m k w = bind m k' w.
Proof.
  intros H. unfold bind. destruct (m w) as [[a|e] w1]; [apply H|reflexivity].
Qed.

(** A turn that stops before anything was committed. *)
Lemma turn_outcome_early (w0 w' : World) (pre : list Event) (e : exn) :
  forallb quiet pre = true -> steps w0 w' pre ->
  turn_outcome w0 (Raise e) w'.
Proof.
  intros Q S. exists pre, Start. split; [exact S|].
  split; [now apply turn_protocol_quiet|].
  repeat split; try discriminate; try (intros [?|?]; discriminate).
  intros _. now apply commits_quiet.
Qed.

(** Work of the gateway ahead of the inbound commit. *)
Lemma turn_prefix {A} (m : M A) (k : A -> M models.Message)
    (w0 w : World) (pre : list Event) :
  forallb quiet pre = true -> steps w0 w pre -> quiet_run m ->
  (forall a w1 pre1,
     forallb quiet pre1 = true -> steps w0 w1 pre1 ->
     turn_outcome w0 (fst (k a w1)) (snd (k a w1))) ->
  turn_outcome w0 (fst (bind m k w)) (snd (bind m k w)).
Proof.
  intros Q S Hm Hk. unfold bind.
  destruct (Hm w) as (e1 & Q1 & S1).
  destruct (m w) as [[a|e] w1]; simpl in S1.
  - apply (Hk a w1 (pre ++ e1)).
    + rewrite forallb_app. now rewrite Q, Q1.
    + eapply steps_trans; eauto.
  - simpl. apply (turn_outcome_early _ _ (pre ++ e1)).
    + rewrite forallb_app. now rewrite Q, Q1.
    + eapply steps_trans; eauto.
Qed.

(** The inbound commit, after quiet work, followed by the common course. *)
Lemma turn_from_inbound (V : Vendors) (R : Runtime) (self : AIServiceFactory)
    (agent : option models.Agent) (sid : string) (user_text : option string)
    (audio : option string) (pre_s : string)
    (nm_of : models.Message -> string)
    (mid : option string -> M (option string))
    (w0 w : World) (pre : list Event) :
  forallb quiet pre = true -> steps w0 w pre ->
  (forall t, quiet_run (mid t)) ->
  let prog :=
    let! user_msg := add_commit_Message R sid "user" user_text audio in
    let! chat_history := fetch_formatted_history sid in
    let! reply :=
      try_except
        (let! system_prompt := agent_prompt agent in
         generate_chat_response V self system_prompt
           (removelast chat_history) (nm_of user_msg))
        (fun e => raise (HTTPException 500 (pre_s +:+ exn_str e))) in
    let! a := mid reply in
    let! ai_msg := add_commit_Message R sid "assistant" reply a in
    ret ai_msg in
  turn_outcome w0 (fst (prog w)) (snd (prog w)).
Proof.
  intros Q S Hmid prog. subst prog.
  destruct user_text as [txt|].
  - destruct (add_commit_Message_some R sid "user" txt audio w)
      as (m & w1 & E & S1 & Hrole & _).
    rewrite (bind_ok _ _ _ _ _ E).
    unfold bind at 1. unfold fetch_formatted_history at 1. cbv beta zeta iota.
    apply (turn_tail V R self agent sid _ _ pre_s mid w0 w1
             (pre ++ [EvCommit m]) m).
    + eapply steps_trans; eauto.
    + rewrite turn_protocol_app, (turn_protocol_quiet _ _ Q). simpl.
      now rewrite Hrole.
    + now rewrite commits_app, (commits_quiet _ Q).
    + exact Hrole.
    + exact Hmid.
  - destruct (add_commit_Message_none R sid "user" audio w)
      as (e & w1 & E & S1).
    rewrite (bind_raise _ _ _ _ _ E). simpl.
    apply (turn_outcome_early _ _ (pre ++ [])).
    + now rewrite app_nil_r.
    + eapply steps_trans; eauto.
Qed.

Lemma get_session_and_agent_found (sid : string) (w : World)
    (session : models.Session) :
  db_get_Session (db w) sid = Some session ->
  get_session_and_agent sid w
  = (Ok (session, db_get_Agent (db w) (models.agent_id_fk session)), w).
Proof. intros H. unfold get_session_and_agent. now rewrite H. Qed.

Lemma get_session_and_agent_missing (sid : string) (w : World) :
  db_get_Session (db w) sid = None ->
  get_session_and_agent sid w
  = (Raise (HTTPException 404 "Session not found"), w).
Proof. intros H. unfold get_session_and_agent. now rewrite H. Qed.

Lemma send_text_message_outcome (V : Vendors) (R : Runtime)
    (self : AIServiceFactory) (sid content_ : string) (w : World) :
  turn_outcome w (fst (send_text_message V R self sid content_ w))
                 (snd (send_text_message V R self sid content_ w)).
Proof.
  unfold send_text_message.
  destruct (db_get_Session (db w) sid) as [session|] eqn:Es.
  - rewrite (bind_ok _ _ _ _ _ (get_session_and_agent_found sid w session Es)).
    cbv beta zeta. simpl snd.
    pose proof (turn_from_inbound V R self
                  (db_get_Agent (db w) (models.agent_id_fk session)) sid
                  (Some content_) None "AI Error: "
                  (fun _ => content_) (fun _ => ret None) w w []
                  eq_refl (steps_refl w) (fun t => quiet_ret None)) as H.
    cbv zeta in H. exact H.
  - rewrite (bind_raise _ _ _ _ _ (get_session_and_agent_missing sid w Es)).
    simpl. apply (turn_outcome_early _ _ []); [reflexivity|apply steps_refl].
Qed.

Lemma send_voice_message_outcome (V : Vendors) (R : Runtime)
    (self : AIServiceFactory) (sid filename : string) (upload : bytes)
    (w : World) :
  turn_outcome w (fst (send_voice_message V R self sid filename upload w))
                 (snd (send_voice_message V R self sid filename upload w)).
Proof.
  unfold send_voice_message.
  destruct (db_get_Session (db w) sid) as [session|] eqn:Es.
  2:{ rewrite (bind_raise _ _ _ _ _ (get_session_and_agent_missing sid w Es)).
      simpl. apply (turn_outcome_early _ _ []); [reflexivity|apply steps_refl]. }
  rewrite (bind_ok _ _ _ _ _ (get_session_and_agent_found sid w session Es)).
  cbv beta zeta. simpl snd.
  apply (turn_prefix _ _ w w []);
    [reflexivity|apply steps_refl|apply quiet_fresh_uuid|].
  intros u w1 pre1 Q1 S1.
  apply (turn_prefix _ _ w w1 pre1); [exact Q1|exact S1|apply quiet_save_upload|].
  intros _ w2 pre2 Q2 S2.
  apply (turn_prefix _ _ w w2 pre2); [exact Q2|exact S2| |].
  { apply quiet_try_except; [apply quiet_transcribe_audio|].
    intros e. apply quiet_raise. }
  intros user_text w3 pre3 Q3 S3.
  set (mid := fun reply : option string =>
         let! u' := fresh_uuid R in
         run! try_except
                (text_to_speech V self reply
                   ("uploads/" +:+ u' +:+ "_ai_response.mp3"))
                (fun e => raise (HTTPException 500
                                   ("TTS Error: " +:+ exn_str e))) in
         ret (Some ("uploads/" +:+ u' +:+ "_ai_response.mp3"))).
  assert (Hmid : forall t, quiet_run (mid t)).
  { intros t. subst mid. cbv beta.
    apply quiet_bind; [apply quiet_fresh_uuid|intros u'].
    apply quiet_bind; [|intros _; apply quiet_ret].
    apply quiet_try_except; [apply quiet_text_to_speech|].
    intros e. apply quiet_raise. }
  pose proof (turn_from_inbound V R self
                (db_get_Agent (db w) (models.agent_id_fk session)) sid
                user_text (Some ("uploads/" +:+ u +:+ "_" +:+ filename))
                "AI LLM Error: " models.content mid w w3 pre3 Q3 S3 Hmid) as H.
  cbv zeta in H.
  match goal with
  | H : turn_outcome _ (fst (?p w3)) _ |- turn_outcome _ (fst (?q w3)) _ =>
      replace (q w3) with (p w3); [apply H|]
  end.
  apply bind_ext. intros user_msg wa.
  apply bind_ext. intros hist wb.
  apply bind_ext. intros reply wc.
  subst mid. cbv beta. rewrite bind_assoc.
  apply bind_ext. intros u' wd.
  rewrite bind_assoc.
  apply bind_ext. intros x we. reflexivity.
Qed.

(** C3: in every turn of the text and of the voice endpoint the inbound
    user message is committed before the chat request is sent, and the
    outbound assistant message is committed only after that request has
    been answered.  When the chat request fails the turn ends in an error
    (a 500), the inbound message stays in the table and no outbound
    message is recorded; the endpoint returns a message exactly when both
    messages have been committed, inbound first. *)
Theorem turn_commit_order (V : Vendors) (R : Runtime)
    (ai_service : AIServiceFactory) :
  (forall (session_id content_ : string) (w : World),
     turn_outcome w
       (run_result (send_text_message V R ai_service session_id content_) w)
       (snd (send_text_message V R ai_service session_id content_ w)))
  /\ (forall (session_id filename : string) (upload : bytes) (w : World),
     turn_outcome w
       (run_result
          (send_voice_message V R ai_service session_id filename upload) w)
       (snd (send_voice_message V R ai_service session_id filename upload w))).
Proof.
  split.
  - intros. apply send_text_message_outcome.
  - intros. apply send_voice_message_outcome.
Qed.

(** *** The two endpoints on concrete worlds *)

Example text_turn_answered :
  let run := send_text_message demo_vendors demo_runtime
               (with_provider "openai") "s1" "2+2?" demo_world in
  option_map models.content
    (match fst run with Ok m => Some m | Raise _ => None end) = Some "4"
  /\ map (fun m => (models.role m, models.content m)) (messages (db (snd run)))
     = [("user", "2+2?"); ("assistant", "4")]
  /\ turn_protocol Start (log (snd run)) = Some Done.
Proof. vm_compute. repeat split. Qed.

Example text_turn_vendor_down :
  let run := send_text_message failing_vendors demo_runtime
               (with_provider "groq") "s1" "2+2?" demo_world in
  fst run = Raise (HTTPException 500 "AI Error: 503")
  /\ map (fun m => (models.role m, models.content m)) (messages (db (snd run)))
     = [("user", "2+2?")]
  /\ turn_protocol Start (log (snd run)) = Some Failed.
Proof. vm_compute. repeat split. Qed.

Example text_turn_unknown_session :
  send_text_message demo_vendors demo_runtime (with_provider "openai")
    "nope" "2+2?" demo_world
  = (Raise (HTTPException 404 "Session not found"), demo_world).
Proof. reflexivity. Qed.

Example voice_turn_answered :
  let run := send_voice_message demo_vendors demo_runtime
               (with_provider "gemini") "s1" "rec.webm" [x1a; x45] demo_world in
  map (fun m => (models.role m, models.content m, models.audio_file_path m))
      (messages (db (snd run)))
  = [("user", "4", Some "uploads/id0_rec.webm");
     ("assistant", "4", Some "uploads/id2_ai_response.mp3")]
  /\ turn_protocol Start (log (snd run)) = Some Done
  /\ option_map Wave_read (fs (snd run) !! "uploads/id2_ai_response.mp3")
     = Some (Some {| getnchannels := 1; getsampwidth := 2;
                     getframerate := 24000; getnframes := 3 |}).
Proof. vm_compute. repeat split. Qed.

Example voice_turn_unsupported_provider :
  let run := send_voice_message demo_vendors demo_runtime
               (with_provider "claude") "s1" "rec.webm" [x1a; x45] demo_world in
  is_ok (fst run) = false
  /\ messages (db (snd run)) = []
  /\ log (snd run) = [EvWrite "uploads/id0_rec.webm" [x1a; x45]].
Proof. vm_compute. repeat split. Qed.

Lemma turn_commit_order_witness :
  turn_outcome demo_world
    (run_result (send_text_message failing_vendors demo_runtime
                   (with_provider "groq") "s1" "2+2?") demo_world)
    (snd (send_text_message failing_vendors demo_runtime
            (with_provider "groq") "s1" "2+2?" demo_world)).
Proof.
  apply (proj1 (turn_commit_order failing_vendors demo_runtime
                  (with_provider "groq"))).
Defined.

(** * Further properties *)

(** ** The WAV container for any parameters *)

Lemma pack_H_in_range (n : Z) :
  (0 <= n < 2 ^ 16)%Z -> pack_H n = Some (le16 n).
Proof.
  intros [H0 H1]. unfold pack_H.
  apply Z.leb_le in H0. apply Z.ltb_lt in H1. now rewrite H0, H1.
Qed.

Lemma unpack_H_le16 (n : Z) :
  (0 <= n < 2 ^ 16)%Z ->
  match le16 n with
  | [b0; b1] => unpack_H b0 b1 = n
  | _ => False
  end.
Proof.
  intros Hn. unfold le16, unpack_H. rewrite !Z_of_byte_of_Z.
  change (2 ^ 8)%Z with 256%Z. change (2 ^ 16)%Z with 65536%Z in Hn.
  Z.div_mod_to_equations. lia.
Qed.

Lemma wav_params_fit_ranges (c r s : Z) :
  wav_params_fit c r s ->
  (0 <= c < 2 ^ 16)%Z /\ (0 <= r < 2 ^ 32)%Z
  /\ (0 <= c * r * s < 2 ^ 32)%Z /\ (0 <= c * s < 2 ^ 16)%Z
  /\ (0 <= s * 8 < 2 ^ 16)%Z /\ (1 <= c * s)%Z.
Proof.
  intros (Hc & Hs & Hr & Hcs & Hcrs).
  change (2 ^ 16)%Z with 65536%Z in *.
  change (2 ^ 32)%Z with 4294967296%Z in *.
  repeat split; try nia.
Qed.

(** The header [Wave_write] emits, field by field. *)
Lemma wave_header_fields (c s r D : Z) :
  wav_params_fit c r s -> (0 <= D)%Z -> (36 + D < 2 ^ 32)%Z ->
  wave_header c s r D
  = Some (b_ "RIFF" ++ le32 (36 + D) ++ b_ "WAVE" ++ b_ "fmt " ++ le32 16
          ++ le16 1 ++ le16 c ++ le32 r ++ le32 (c * r * s) ++ le16 (c * s)
          ++ le16 (s * 8) ++ b_ "data" ++ le32 D).
Proof.
  intros Hfit H0 H1.
  destruct (wav_params_fit_ranges c r s Hfit) as (Rc & Rr & Rcrs & Rcs & Rs8 & _).
  unfold wave_header.
  rewrite (pack_L_in_range (36 + D)) by lia.
  rewrite (pack_H_in_range c) by lia.
  rewrite (pack_L_in_range r) by lia.
  rewrite (pack_L_in_range (c * r * s)) by lia.
  rewrite (pack_H_in_range (c * s)) by lia.
  rewrite (pack_H_in_range (s * 8)) by lia.
  rewrite (pack_L_in_range D) by lia.
  reflexivity.
Qed.

Lemma wave_writeframes_close_fit (c s r : Z) (pcm : bytes) :
  wav_params_fit c r s ->
  (36 + Z.of_nat (List.length pcm) < 2 ^ 32)%Z ->
  exists hdr,
    wave_header c s r (Z.of_nat (List.length pcm)) = Some hdr
    /\ wave_writeframes_close c s r pcm = (hdr ++ pcm, None).
Proof.
  intros Hfit H. unfold wave_writeframes_close.
  set (L := Z.of_nat (List.length pcm)) in *.
  assert (H0 : (0 <= L)%Z) by (subst L; lia).
  destruct (wav_params_fit_ranges c r s Hfit) as (_ & _ & _ & _ & _ & Hcs).
  set (D := (L / (c * s) * c * s)%Z).
  assert (HD : (0 <= D <= L)%Z).
  { subst D. rewrite <- Z.mul_assoc.
    pose proof (Z.mul_div_le L (c * s)) as Hle.
    pose proof (Z.div_pos L (c * s)) as Hp.
    rewrite (Z.mul_comm (L / (c * s))). split; [|apply Hle; lia].
    apply Z.mul_nonneg_nonneg; [lia|apply Hp; lia]. }
  rewrite (wave_header_fields c s r D Hfit) by lia.
  rewrite (wave_header_fields c s r L Hfit) by lia.
  eexists. split; [reflexivity|].
  destruct (D =? L)%Z eqn:E.
  - apply Z.eqb_eq in E. now rewrite E.
  - reflexivity.
Qed.

Lemma save_wave_file_fit (filename : string) (pcm : bytes) (c r s : Z)
    (w : World) :
  wav_params_fit c r s ->
  (36 + Z.of_nat (List.length pcm) < 2 ^ 32)%Z ->
  exists hdr,
    wave_header c s r (Z.of_nat (List.length pcm)) = Some hdr
    /\ save_wave_file filename pcm c r s w
       = (Ok tt, wrote filename (hdr ++ pcm) w).
Proof.
  intros Hfit H.
  destruct (wave_writeframes_close_fit c s r pcm Hfit H) as (hdr & Hh & Hw).
  exists hdr. split; [exact Hh|].
  destruct Hfit as (Hc & Hs & Hr & _).
  unfold save_wave_file.
  replace (c <? 1)%Z with false by (symmetry; apply Z.ltb_ge; lia).
  replace (s <? 1)%Z with false by (symmetry; apply Z.ltb_ge; lia).
  replace (4 <? s)%Z with false by (symmetry; apply Z.ltb_ge; lia).
  replace (r <=? 0)%Z with false by (symmetry; apply Z.leb_gt; lia).
  simpl. rewrite Hw. reflexivity.
Qed.

Lemma wave_header_length (c s r D : Z) (hdr : bytes) :
  wave_header c s r D = Some hdr -> List.length hdr = 44%nat.
Proof.
  unfold wave_header, pack_L, pack_H.
  repeat match goal with
         | |- context [if ?b then _ else _] => destruct b; simpl
         end; try discriminate.
  intros H. injection H as <-. reflexivity.
Qed.

Lemma Wave_read_fields (a0 a1 a2 a3 c0 c1 r0 r1 r2 r3 x0 x1 x2 x3 y0 y1 w0 w1
                        d0 d1 d2 d3 : byte) (pcm : bytes) :
  Wave_read (b_ "RIFF" ++ [a0; a1; a2; a3] ++ b_ "WAVE" ++ b_ "fmt "
             ++ le32 16 ++ le16 1 ++ [c0; c1] ++ [r0; r1; r2; r3]
             ++ [x0; x1; x2; x3] ++ [y0; y1] ++ [w0; w1] ++ b_ "data"
             ++ [d0; d1; d2; d3] ++ pcm)
  = if ((unpack_H w0 w1 + 7) / 8 =? 0)%Z then None
    else if (unpack_H c0 c1 =? 0)%Z then None
    else Some {| getnchannels := unpack_H c0 c1;
                 getsampwidth := ((unpack_H w0 w1 + 7) / 8)%Z;
                 getframerate := unpack_L r0 r1 r2 r3;
                 getnframes := (unpack_L d0 d1 d2 d3
                                / (unpack_H c0 c1
                                   * ((unpack_H w0 w1 + 7) / 8)))%Z |}.
Proof.
  reflexivity.
Qed.

Lemma Wave_read_written (c s r L : Z) (hdr pcm : bytes) :
  wav_params_fit c r s -> (0 <= L)%Z -> (36 + L < 2 ^ 32)%Z ->
  wave_header c s r L = Some hdr ->
  Wave_read (hdr ++ pcm)
  = Some {| getnchannels := c; getsampwidth := s; getframerate := r;
            getnframes := (L / (c * s))%Z |}.
Proof.
  intros Hfit H0 H1 Hh.
  rewrite (wave_header_fields c s r L Hfit H0 H1) in Hh. injection Hh as <-.
  destruct (wav_params_fit_ranges c r s Hfit) as (Rc & Rr & _ & _ & Rs8 & _).
  pose proof (unpack_H_le16 c Rc) as Hc.
  pose proof (unpack_H_le16 (s * 8) Rs8) as Hs.
  pose proof (unpack_L_le32 r Rr) as Hr.
  assert (RL : (0 <= L < 2 ^ 32)%Z) by lia.
  pose proof (unpack_L_le32 L RL) as HL.
  unfold le16 in Hc, Hs. unfold le32 in Hr, HL.
  etransitivity.
  { exact (Wave_read_fields
             (byte_of_Z (36 + L)) (byte_of_Z ((36 + L) / 2 ^ 8))
             (byte_of_Z ((36 + L) / 2 ^ 16)) (byte_of_Z ((36 + L) / 2 ^ 24))
             _ _ _ _ _ _
             (byte_of_Z (c * r * s)) (byte_of_Z (c * r * s / 2 ^ 8))
             (byte_of_Z (c * r * s / 2 ^ 16)) (byte_of_Z (c * r * s / 2 ^ 24))
             (byte_of_Z (c * s)) (byte_of_Z (c * s / 2 ^ 8))
             _ _ _ _ _ _ pcm). }
  rewrite Hc, Hs, Hr, HL.
  destruct Hfit as (Hc1 & Hs1 & _).
  assert (Es : ((s * 8 + 7) / 8 = s)%Z) by (Z.div_mod_to_equations; lia).
  rewrite Es.
  replace (s =? 0)%Z with false by (symmetry; apply Z.eqb_neq; lia).
  replace (c =? 0)%Z with false by (symmetry; apply Z.eqb_neq; lia).
  reflexivity.
Qed.

(** X1: for every channel count, sample width and frame rate the header
    fields can hold, the file [save_wave_file] writes reads back with
    exactly those three parameters and [len(pcm) // (channels *
    sample_width)] frames. *)
Theorem save_wave_file_roundtrip (filename : string) (pcm : bytes)
    (channels rate sample_width : Z) (w : World) :
  wav_params_fit channels rate sample_width ->
  (36 + Z.of_nat (List.length pcm) < 2 ^ 32)%Z ->
  exists f,
    save_wave_file filename pcm channels rate sample_width w
    = (Ok tt, wrote filename f w)
    /\ Wave_read f
       = Some {| getnchannels := channels; getsampwidth := sample_width;
                 getframerate := rate;
                 getnframes := (Z.of_nat (List.length pcm)
                                / (channels * sample_width))%Z |}.
Proof.
  intros Hfit H.
  destruct (save_wave_file_fit filename pcm channels rate sample_width w Hfit H)
    as (hdr & Hh & Hrun).
  exists (hdr ++ pcm). split; [exact Hrun|].
  apply (Wave_read_written channels sample_width rate _ hdr pcm Hfit); auto; lia.
Qed.

Lemma save_wave_file_roundtrip_witness :
  exists f,
    save_wave_file "s.wav" demo_pcm 2 44100 1 demo_world
    = (Ok tt, wrote "s.wav" f demo_world)
    /\ Wave_read f
       = Some {| getnchannels := 2; getsampwidth := 1; getframerate := 44100;
                 getnframes := 3 |}.
Proof.
  apply (save_wave_file_roundtrip "s.wav" demo_pcm 2 44100 1 demo_world).
  - unfold wav_params_fit. vm_compute. repeat split; discriminate.
  - vm_compute. reflexivity.
Defined.

(** X2: the file [save_wave_file] writes is a header of 44 bytes followed
    by the PCM buffer, byte for byte: nothing is dropped, padded or
    reordered, also when the buffer does not end on a frame boundary. *)
Theorem save_wave_file_keeps_samples (filename : string) (pcm : bytes)
    (channels rate sample_width : Z) (w : World) :
  wav_params_fit channels rate sample_width ->
  (36 + Z.of_nat (List.length pcm) < 2 ^ 32)%Z ->
  exists f,
    fs (snd (save_wave_file filename pcm channels rate sample_width w))
      !! filename = Some f
    /\ List.length f = (44 + List.length pcm)%nat
    /\ drop 44 f = pcm.
Proof.
  intros Hfit H.
  destruct (save_wave_file_fit filename pcm channels rate sample_width w Hfit H)
    as (hdr & Hh & Hrun).
  pose proof (wave_header_length _ _ _ _ _ Hh) as Hlen.
  exists (hdr ++ pcm). rewrite Hrun. split; [|split].
  - unfold wrote. simpl. apply lookup_insert_eq.
  - rewrite length_app, Hlen. reflexivity.
  - rewrite <- Hlen. apply drop_app_length.
Qed.

Lemma save_wave_file_keeps_samples_witness :
  exists f,
    fs (snd (save_wave_file "odd.wav" [x01; x02; x03] 1 24000 2 demo_world))
      !! "odd.wav" = Some f
    /\ List.length f = 47%nat
    /\ drop 44 f = [x01; x02; x03].
Proof.
  apply (save_wave_file_keeps_samples "odd.wav" [x01; x02; x03] 1 24000 2
           demo_world).
  - unfold wav_params_fit. vm_compute. repeat split; discriminate.
  - vm_compute. reflexivity.
Defined.

(** X3: a channel count below 1, a sample width outside 1..4 or a frame
    rate that is not positive makes [save_wave_file] raise the [wave]
    module's error; the file has been created by then and is left empty. *)
Theorem save_wave_file_bad_parameters (filename : string) (pcm : bytes)
    (channels rate sample_width : Z) (w : World) :
  (channels < 1 \/ sample_width < 1 \/ 4 < sample_width \/ rate <= 0)%Z ->
  exists msg,
    save_wave_file filename pcm channels rate sample_width w
    = (Raise (WaveError msg), wrote filename [] w).
Proof.
  intros H. unfold save_wave_file.
  destruct (channels <? 1)%Z eqn:Ec; [eexists; reflexivity|].
  destruct ((sample_width <? 1)%Z || (4 <? sample_width)%Z) eqn:Es;
    [eexists; reflexivity|].
  destruct (rate <=? 0)%Z eqn:Er; [eexists; reflexivity|].
  apply Z.ltb_ge in Ec. apply orb_false_elim in Es as [Es1 Es2].
  apply Z.ltb_ge in Es1. apply Z.ltb_ge in Es2. apply Z.leb_gt in Er. lia.
Qed.

Lemma save_wave_file_bad_parameters_witness :
  exists msg,
    save_wave_file "z.wav" demo_pcm 0 24000 2 demo_world
    = (Raise (WaveError msg), wrote "z.wav" [] demo_world).
Proof.
  apply (save_wave_file_bad_parameters "z.wav" demo_pcm 0 24000 2 demo_world).
  left. reflexivity.
Defined.

(** ** What the gateway leaves alone *)

Lemma logs_only_ret {A} (a : A) : logs_only (ret a).
Proof. intros w. repeat split. Qed.

Lemma logs_only_raise {A} (e : exn) : logs_only (@raise A e).
Proof. intros w. repeat split. Qed.

Lemma logs_only_lift {A} (r : result A) : logs_only (lift r).
Proof. intros w. repeat split. Qed.

Lemma logs_only_emit (e : Event) : logs_only (emit e).
Proof. intros w. repeat split. Qed.

Lemma logs_only_bind {A B} (m : M A) (k : A -> M B) :
  logs_only m -> (forall a, logs_only (k a)) -> logs_only (bind m k).
Proof.
  intros Hm Hk w. unfold bind.
  destruct (Hm w) as (F1 & D1 & U1 & C1).
  destruct (m w) as [[a|e] w1]; simpl in *.
  - destruct (Hk a w1) as (F2 & D2 & U2 & C2).
    repeat split; congruence.
  - auto.
Qed.

Lemma logs_only_try_except {A} (m : M A) (h : exn -> M A) :
  logs_only m -> (forall e, logs_only (h e)) -> logs_only (try_except m h).
Proof.
  intros Hm Hh w. unfold try_except.
  destruct (Hm w) as (F1 & D1 & U1 & C1).
  destruct (m w) as [[a|e] w1]; simpl in *.
  - auto.
  - destruct (Hh e w1) as (F2 & D2 & U2 & C2).
    repeat split; congruence.
Qed.

Lemma logs_only_call {A} (c : VendorCall) (answer : result A) :
  logs_only (call c answer).
Proof.
  unfold call. apply logs_only_bind; [apply logs_only_emit|].
  intros _. apply logs_only_lift.
Qed.

Lemma logs_only_open_rb (path : string) : logs_only (open_rb path).
Proof.
  intros w. unfold open_rb. destruct (fs w !! path); repeat split.
Qed.

Lemma logs_only_first_choice (c : ChatCompletion) : logs_only (first_choice c).
Proof. destruct c; [apply logs_only_raise|apply logs_only_ret]. Qed.

#[local] Hint Resolve logs_only_ret logs_only_raise logs_only_lift
  logs_only_emit logs_only_call logs_only_open_rb logs_only_first_choice
  : quiet_db.

Ltac logs_steps :=
  repeat first
    [ solve [auto with quiet_db]
    | apply logs_only_bind; [|intros ?] ].

Lemma logs_only_generate_chat_response (V : Vendors) (self : AIServiceFactory)
    (sp : string) (h : list ChatEntry) (nm : string) :
  logs_only (generate_chat_response V self sp h nm).
Proof.
  unfold generate_chat_response, generate_content, chat_completions_openai,
    chat_completions_groq.
  destruct (String.eqb (provider self) "gemini"); [logs_steps|].
  cbv zeta.
  destruct (String.eqb (provider self) "openai"); [logs_steps|].
  destruct (String.eqb (provider self) "groq"); logs_steps.
Qed.

Lemma logs_only_transcribe_audio (V : Vendors) (self : AIServiceFactory)
    (file_path : string) : logs_only (transcribe_audio V self file_path).
Proof.
  unfold transcribe_audio, read_all, generate_content.
  destruct (String.eqb (provider self) "gemini"); [logs_steps|].
  destruct (String.eqb (provider self) "groq"); [logs_steps|].
  destruct (String.eqb (provider self) "openai"); logs_steps.
Qed.

Lemma writes_only_of_logs_only {A} (out : string) (m : M A) :
  logs_only m -> writes_only out m.
Proof.
  intros H w. destruct (H w) as (F & D & U & C).
  repeat split; auto. intros p _. now rewrite F.
Qed.

Lemma writes_only_bind {A B} (out : string) (m : M A) (k : A -> M B) :
  writes_only out m -> (forall a, writes_only out (k a)) ->
  writes_only out (bind m k).
Proof.
  intros Hm Hk w. unfold bind.
  destruct (Hm w) as (F1 & D1 & U1 & C1).
  destruct (m w) as [[a|e] w1]; simpl in *.
  - destruct (Hk a w1) as (F2 & D2 & U2 & C2).
    repeat split; try congruence.
    intros p Hp. rewrite (F2 p Hp). auto.
  - auto.
Qed.

Lemma writes_only_write_file (out : string) (data : bytes) :
  writes_only out (write_file out data).
Proof.
  intros w. repeat split. intros p Hp. unfold write_file, emit. simpl.
  now apply lookup_insert_ne.
Qed.

Lemma writes_only_save_wave_file (out : string) (pcm : bytes) (c r s : Z) :
  writes_only out (save_wave_file out pcm c r s).
Proof.
  pose proof (writes_only_write_file out) as Hw.
  assert (Hr : forall e, writes_only out (@raise unit e))
    by (intros e; apply writes_only_of_logs_only, logs_only_raise).
  unfold save_wave_file.
  destruct (c <? 1)%Z; [apply writes_only_bind; auto|].
  destruct ((s <? 1)%Z || (4 <? s)%Z); [apply writes_only_bind; auto|].
  destruct (r <=? 0)%Z; [apply writes_only_bind; auto|].
  destruct (wave_writeframes_close c s r pcm) as [f [e|]]; auto.
  apply writes_only_bind; auto.
Qed.

Lemma writes_only_stream_to_file (out : string) (s : BinaryStream) :
  writes_only out (stream_to_file out s).
Proof.
  unfold stream_to_file. apply writes_only_bind.
  - apply writes_only_write_file.
  - intros _. apply writes_only_of_logs_only.
    destruct (broken s); auto with quiet_db.
Qed.

Lemma writes_only_text_to_speech (V : Vendors) (self : AIServiceFactory)
    (t : option string) (out : string) :
  writes_only out (text_to_speech V self t out).
Proof.
  unfold text_to_speech, generate_content, save_wave_file_default.
  apply writes_only_bind;
    [|intros _; apply writes_only_of_logs_only, logs_only_ret].
  destruct (String.eqb (provider self) "gemini").
  { apply writes_only_bind;
      [apply writes_only_of_logs_only, logs_only_call|intros r].
    apply writes_only_bind; [|intros d; apply writes_only_save_wave_file].
    apply writes_only_of_logs_only. unfold first_inline_data.
    destruct (candidates_opt r) as [[|[|[d|] ?] ?]|]; auto with quiet_db. }
  destruct (String.eqb (provider self) "groq").
  { apply writes_only_bind;
      [apply writes_only_of_logs_only, logs_only_call|intros r].
    apply writes_only_stream_to_file. }
  destruct (String.eqb (provider self) "openai").
  { apply writes_only_bind;
      [apply writes_only_of_logs_only, logs_only_call|intros r].
    apply writes_only_stream_to_file. }
  apply writes_only_of_logs_only, logs_only_ret.
Qed.

(** X4: the footprint of the gateway.  Chat completion and transcription
    never write: whatever the provider and whatever the vendor answers,
    files, tables and the two supplies are as before.  Speech synthesis
    leaves the tables alone and touches no file other than
    [output_path]. *)
Theorem gateway_footprint (V : Vendors) (self : AIServiceFactory) (w : World) :
  (forall sp h nm,
     let w' := snd (generate_chat_response V self sp h nm w) in
     fs w' = fs w /\ db w' = db w)
  /\ (forall file_path,
     let w' := snd (transcribe_audio V self file_path w) in
     fs w' = fs w /\ db w' = db w)
  /\ (forall t output_path,
     let w' := snd (text_to_speech V self t output_path w) in
     db w' = db w
     /\ forall p, p <> output_path -> fs w' !! p = fs w !! p).
Proof.
  split; [|split].
  - intros sp h nm.
    destruct (logs_only_generate_chat_response V self sp h nm w)
      as (F & D & _). now split.
  - intros file_path.
    destruct (logs_only_transcribe_audio V self file_path w) as (F & D & _).
    now split.
  - intros t out.
    destruct (writes_only_text_to_speech V self t out w) as (F & D & _).
    now split.
Qed.

Lemma gateway_footprint_witness :
  fs (snd (text_to_speech demo_vendors (with_provider "groq") (Some "hi")
             "uploads/out.wav" demo_world)) !! "uploads/rec.ogg"
  = Some [x4f; x67; x67; x53].
Proof.
  rewrite (proj2 (proj2 (proj2 (gateway_footprint demo_vendors
             (with_provider "groq") demo_world))
             (Some "hi") "uploads/out.wav") "uploads/rec.ogg").
  - reflexivity.
  - discriminate.
Defined.

(** ** Failures of the gateway *)

(** X5: when the vendor refuses a speech request, [text_to_speech] raises
    the vendor's error as it is and writes nothing: no file appears at
    [output_path].  Nothing is written either when gemini answers without
    usable candidates: a reply whose [candidates] is [None] ends in a
    [TypeError], a reply whose [candidates] is the empty list in an
    [IndexError]. *)
Theorem text_to_speech_vendor_error (V : Vendors) (self : AIServiceFactory)
    (t : option string) (out : string) (w : World) (e : exn) :
  (provider self = "openai" ->
   openai_speech V "gpt-4o-mini-tts" "coral" t = Raise e ->
   text_to_speech V self t out w
   = (Raise e,
      logged (EvCall (openai_audio_speech_create "gpt-4o-mini-tts" "coral" t)
                false) w))
  /\ (provider self = "groq" ->
   groq_speech V "playai-tts" "Fritz-PlayAI" t "wav" = Raise e ->
   text_to_speech V self t out w
   = (Raise e,
      logged (EvCall (groq_audio_speech_create "playai-tts" "Fritz-PlayAI"
                        t "wav") false) w))
  /\ (provider self = "gemini" ->
   gemini_generate V "gemini-2.5-flash-preview-tts" (ContentsStr t) tts_config
   = Raise e ->
   text_to_speech V self t out w
   = (Raise e,
      logged (EvCall (gemini_generate_content "gemini-2.5-flash-preview-tts"
                        (ContentsStr t) tts_config) false) w))
  /\ (provider self = "gemini" ->
   forall txt,
   gemini_generate V "gemini-2.5-flash-preview-tts" (ContentsStr t) tts_config
   = Ok {| text := txt; candidates_opt := None |} ->
   text_to_speech V self t out w
   = (Raise (TypeError "'NoneType' object is not subscriptable"),
      logged (EvCall (gemini_generate_content "gemini-2.5-flash-preview-tts"
                        (ContentsStr t) tts_config) true) w))
  /\ (provider self = "gemini" ->
   forall txt,
   gemini_generate V "gemini-2.5-flash-preview-tts" (ContentsStr t) tts_config
   = Ok {| text := txt; candidates_opt := Some [] |} ->
   text_to_speech V self t out w
   = (Raise (IndexError "list index out of range"),
      logged (EvCall (gemini_generate_content "gemini-2.5-flash-preview-tts"
                        (ContentsStr t) tts_config) true) w)).
Proof.
  repeat split.
  - intros Hp Hv. unfold text_to_speech. rewrite Hp. simpl.
    unfold bind at 1. unfold bind at 1. unfold call. unfold bind at 1. simpl.
    rewrite Hv. reflexivity.
  - intros Hp Hv. unfold text_to_speech. rewrite Hp. simpl.
    unfold bind at 1. unfold bind at 1. unfold call. unfold bind at 1. simpl.
    rewrite Hv. reflexivity.
  - intros Hp Hv. unfold text_to_speech. rewrite Hp. simpl.
    unfold bind at 1. unfold bind at 1. unfold generate_content, call.
    unfold bind at 1. simpl. fold tts_config. rewrite Hv. reflexivity.
  - intros Hp txt Hv. unfold text_to_speech. rewrite Hp. simpl.
    unfold bind at 1. unfold bind at 1. unfold generate_content, call.
    unfold bind at 1. simpl. fold tts_config. rewrite Hv. reflexivity.
  - intros Hp txt Hv. unfold text_to_speech. rewrite Hp. simpl.
    unfold bind at 1. unfold bind at 1. unfold generate_content, call.
    unfold bind at 1. simpl. fold tts_config. rewrite Hv. reflexivity.
Qed.

Lemma text_to_speech_vendor_error_witness :
  text_to_speech failing_vendors (with_provider "openai") (Some "hi")
    "uploads/out.mp3" demo_world
  = (Raise (ProviderError "503"),
     logged (EvCall (openai_audio_speech_create "gpt-4o-mini-tts" "coral"
                       (Some "hi")) false) demo_world)
  /\ text_to_speech blocked_vendors (with_provider "gemini") (Some "hi")
       "uploads/out.mp3" demo_world
     = (Raise (TypeError "'NoneType' object is not subscriptable"),
        logged (EvCall (gemini_generate_content "gemini-2.5-flash-preview-tts"
                          (ContentsStr (Some "hi")) tts_config) true)
          demo_world).
Proof.
  split.
  - apply (proj1 (text_to_speech_vendor_error failing_vendors
                    (with_provider "openai") (Some "hi") "uploads/out.mp3"
                    demo_world (ProviderError "503")) eq_refl eq_refl).
  - apply (proj1 (proj2 (proj2 (proj2
             (text_to_speech_vendor_error blocked_vendors
                (with_provider "gemini") (Some "hi") "uploads/out.mp3"
                demo_world (ProviderError "503")))))
             eq_refl None eq_refl).
Defined.

(** X6: under each of the three providers, [transcribe_audio] on a path
    that does not exist raises [FileNotFoundError] before any request is
    made; the world is left as it was. *)
Theorem transcribe_audio_missing_file (V : Vendors) (self : AIServiceFactory)
    (file_path : string) (w : World) :
  recognized (provider self) = true ->
  fs w !! file_path = None ->
  transcribe_audio V self file_path w = (Raise (FileNotFoundError file_path), w).
Proof.
  intros Hrec Hf. unfold transcribe_audio.
  destruct (recognized_true _ Hrec) as [Hp|[Hp|Hp]]; rewrite Hp; simpl;
    unfold bind at 1; rewrite (open_rb_missing _ _ Hf); reflexivity.
Qed.

Lemma transcribe_audio_missing_file_witness :
  transcribe_audio demo_vendors (with_provider "gemini") "uploads/none.webm"
    demo_world
  = (Raise (FileNotFoundError "uploads/none.webm"), demo_world).
Proof.
  apply (transcribe_audio_missing_file demo_vendors (with_provider "gemini")
           "uploads/none.webm" demo_world eq_refl eq_refl).
Defined.

(** X7: [generate_chat_response] hands a vendor's error to its caller as
    it is, for each of the three providers; and an openai or groq answer
    with no choice at all ends in an [IndexError], after the request was
    answered. *)
Theorem generate_chat_response_failures (V : Vendors)
    (self : AIServiceFactory) (sp : string) (h : list ChatEntry) (nm : string)
    (w : World) :
  let msgs := flat_messages sp h nm in
  let contents := ContentsList (gemini_history_of h ++ [ContentStr nm]) in
  let config := Some {| system_instruction := Some sp;
                        response_modalities := []; voice_name := None |} in
  (provider self = "openai" ->
     (forall e, openai_chat V "gpt-4o-mini" msgs = Raise e ->
        run_result (generate_chat_response V self sp h nm) w = Raise e)
     /\ (openai_chat V "gpt-4o-mini" msgs = Ok [] ->
        generate_chat_response V self sp h nm w
        = (Raise (IndexError "list index out of range"),
           logged (EvCall (openai_chat_completions_create "gpt-4o-mini" msgs)
                     true) w)))
  /\ (provider self = "groq" ->
     (forall e, groq_chat V "llama-3.3-70b-versatile" msgs = Raise e ->
        run_result (generate_chat_response V self sp h nm) w = Raise e)
     /\ (groq_chat V "llama-3.3-70b-versatile" msgs = Ok [] ->
        generate_chat_response V self sp h nm w
        = (Raise (IndexError "list index out of range"),
           logged (EvCall (groq_chat_completions_create
                             "llama-3.3-70b-versatile" msgs) true) w)))
  /\ (provider self = "gemini" ->
     forall e, gemini_generate V "gemini-2.5-flash" contents config = Raise e ->
       run_result (generate_chat_response V self sp h nm) w = Raise e).
Proof.
  intros msgs contents config. repeat split.
  - intros e Hv. unfold run_result, generate_chat_response. rewrite H. simpl.
    unfold chat_completions_openai, call, bind, emit, lift. simpl.
    fold msgs. rewrite Hv. reflexivity.
  - intros Hv. unfold generate_chat_response. rewrite H. simpl.
    unfold chat_completions_openai, call, bind, emit, lift. simpl.
    fold msgs. rewrite Hv. reflexivity.
  - intros e Hv. unfold run_result, generate_chat_response. rewrite H. simpl.
    unfold chat_completions_groq, call, bind, emit, lift. simpl.
    fold msgs. rewrite Hv. reflexivity.
  - intros Hv. unfold generate_chat_response. rewrite H. simpl.
    unfold chat_completions_groq, call, bind, emit, lift. simpl.
    fold msgs. rewrite Hv. reflexivity.
  - intros Hp e Hv. unfold run_result, generate_chat_response. rewrite Hp. simpl.
    unfold generate_content, call, bind, emit, lift. simpl.
    fold contents. fold config. rewrite Hv. reflexivity.
Qed.

Lemma generate_chat_response_failures_witness :
  run_result (generate_chat_response failing_vendors (with_provider "gemini")
                "Be concise" demo_history "c") demo_world
  = Raise (ProviderError "503").
Proof.
  apply (proj2 (proj2 (generate_chat_response_failures failing_vendors
                         (with_provider "gemini") "Be concise" demo_history
                         "c" demo_world)) eq_refl (ProviderError "503")
           eq_refl).
Defined.

(** ** The accessor and the adapters *)

(** X8: under each of the three providers the model that
    [generate_chat_response] names in its request is the one
    [active_model_name] reports. *)
Theorem chat_model_is_active_model (V : Vendors) (self : AIServiceFactory)
    (sp : string) (h : list ChatEntry) (nm : string) (w : World) :
  recognized (provider self) = true ->
  exists c returned,
    run_log (generate_chat_response V self sp h nm) w
    = log w ++ [EvCall c returned]
    /\ is_chat_call c = true
    /\ call_model c = active_model_name self.
Proof.
  intros Hrec. unfold run_log, generate_chat_response, active_model_name.
  destruct (recognized_true _ Hrec) as [Hp|[Hp|Hp]]; rewrite Hp; simpl.
  - unfold generate_content, call, bind, emit, lift. simpl.
    destruct (gemini_generate V _ _ _); simpl; eexists _, _; repeat split.
  - unfold chat_completions_groq, call, bind, emit, lift. simpl.
    destruct (groq_chat V _ _) as [[|x r]|e]; simpl; eexists _, _; repeat split.
  - unfold chat_completions_openai, call, bind, emit, lift. simpl.
    destruct (openai_chat V _ _) as [[|x r]|e]; simpl; eexists _, _;
      repeat split.
Qed.

Lemma chat_model_is_active_model_witness :
  exists c returned,
    run_log (generate_chat_response demo_vendors (with_provider "groq")
               "Be concise" demo_history "c") demo_world
    = log demo_world ++ [EvCall c returned]
    /\ is_chat_call c = true
    /\ call_model c = "llama-3.3-70b-versatile".
Proof.
  apply (chat_model_is_active_model demo_vendors (with_provider "groq")
           "Be concise" demo_history "c" demo_world eq_refl).
Defined.

Lemma lower_ascii_idempotent (c : ascii) :
  lower_ascii (lower_ascii c) = lower_ascii c.
Proof.
  destruct c as [[] [] [] [] [] [] [] []]; reflexivity.
Qed.

Lemma ascii_lower_idempotent (s : string) :
  ascii_lower (ascii_lower s) = ascii_lower s.
Proof.
  induction s as [|c s IH]; simpl; [reflexivity|].
  now rewrite lower_ascii_idempotent, IH.
Qed.

(** X9: for ASCII settings the selection is case-insensitive and
    normalized.  When two ASCII values of [ACTIVE_AI_PROVIDER] differ only
    in the case of their letters A..Z and the constructor succeeds on
    both, the two gateways have the same provider, hence the same dispatch
    and the same [active_model_name]; the provider is the folded value,
    and folding it again changes nothing. *)
Theorem selection_ignores_case (P : Platform) (env : gmap string string)
    (v v' : string) (g g' : AIServiceFactory) :
  str_lower_on_ascii P ->
  is_ascii v = true ->
  is_ascii v' = true ->
  ascii_lower v = ascii_lower v' ->
  AIServiceFactory_init P (<["ACTIVE_AI_PROVIDER" := v]> env) = Ok g ->
  AIServiceFactory_init P (<["ACTIVE_AI_PROVIDER" := v']> env) = Ok g' ->
  provider g = provider g'
  /\ active_model_name g = active_model_name g'
  /\ provider g = ascii_lower v
  /\ ascii_lower (provider g) = provider g.
Proof.
  intros HP Ha Ha' Hl Hg Hg'.
  apply AIServiceFactory_init_ok in Hg as (Hg & _).
  apply AIServiceFactory_init_ok in Hg' as (Hg' & _).
  unfold getenv in Hg, Hg'. rewrite lookup_insert_eq in Hg, Hg'.
  rewrite (HP v Ha) in Hg. rewrite (HP v' Ha') in Hg'.
  repeat split.
  - congruence.
  - unfold active_model_name. rewrite Hg, Hg', Hl. reflexivity.
  - exact Hg.
  - rewrite Hg. apply ascii_lower_idempotent.
Qed.

Lemma selection_ignores_case_witness :
  AIServiceFactory_init demo_platform
    (<["ACTIVE_AI_PROVIDER" := "Gemini"]> demo_env) = Ok (demo_gateway "gemini")
  /\ AIServiceFactory_init demo_platform
       (<["ACTIVE_AI_PROVIDER" := "GEMINI"]> demo_env)
     = Ok (demo_gateway "gemini")
  /\ active_model_name (demo_gateway "gemini")
     = active_model_name (demo_gateway "gemini")
  /\ provider (demo_gateway "gemini") = ascii_lower "Gemini"
  /\ ascii_lower (provider (demo_gateway "gemini"))
     = provider (demo_gateway "gemini").
Proof.
  assert (E1 : AIServiceFactory_init demo_platform
                 (<["ACTIVE_AI_PROVIDER" := "Gemini"]> demo_env)
               = Ok (demo_gateway "gemini")) by (vm_compute; reflexivity).
  assert (E2 : AIServiceFactory_init demo_platform
                 (<["ACTIVE_AI_PROVIDER" := "GEMINI"]> demo_env)
               = Ok (demo_gateway "gemini")) by (vm_compute; reflexivity).
  split; [exact E1|]. split; [exact E2|].
  apply (proj2
    (selection_ignores_case demo_platform demo_env "Gemini" "GEMINI"
       (demo_gateway "gemini") (demo_gateway "gemini")
       (fun s _ => eq_refl) eq_refl eq_refl eq_refl E1 E2)).
Defined.

(** ** Speech synthesis through the container writer *)

(** X10: what the gemini adapter leaves at [output_path] is a playable
    WAV around the vendor's samples: it reads back as mono, 2 bytes per
    sample, 24000 Hz, with half as many frames as the response has bytes,
    and the bytes after the 44-byte header are the samples themselves. *)
Theorem gemini_speech_is_wav (V : Vendors) (self : AIServiceFactory)
    (t : option string) (out : string) (w : World)
    (resp : GenerateContentResponse) (data : bytes) (rest : list (option bytes))
    (others : list (list (option bytes))) :
  provider self = "gemini" ->
  gemini_generate V "gemini-2.5-flash-preview-tts" (ContentsStr t) tts_config
  = Ok resp ->
  candidates resp = (Some data :: rest) :: others ->
  (36 + Z.of_nat (List.length data) < 2 ^ 32)%Z ->
  exists f,
    run_result (text_to_speech V self t out) w = Ok out
    /\ fs (snd (text_to_speech V self t out w)) !! out = Some f
    /\ Wave_read f
       = Some {| getnchannels := 1; getsampwidth := 2; getframerate := 24000;
                 getnframes := (Z.of_nat (List.length data) / (1 * 2))%Z |}
    /\ drop 44 f = data.
Proof.
  intros Hp Hr Hc Hsz.
  exists (default_header (Z.of_nat (List.length data)) ++ data).
  assert (E : text_to_speech V self t out w
              = (Ok out,
                 wrote out (default_header (Z.of_nat (List.length data)) ++ data)
                   (logged (EvCall (gemini_generate_content
                                      "gemini-2.5-flash-preview-tts"
                                      (ContentsStr t) tts_config) true) w))).
  { unfold text_to_speech. rewrite Hp. simpl.
    unfold bind at 1. unfold bind at 1. unfold generate_content, call.
    unfold bind at 1. simpl. fold tts_config. rewrite Hr. simpl.
    fold (logged (EvCall (gemini_generate_content
            "gemini-2.5-flash-preview-tts" (ContentsStr t) tts_config) true) w).
    unfold bind at 1. unfold first_inline_data.
    rewrite (candidates_cons _ _ _ Hc). simpl.
    rewrite (save_wave_file_default_ok out data _ Hsz). reflexivity. }
  unfold run_result. rewrite E. simpl fst. simpl snd.
  split; [reflexivity|]. split; [unfold wrote; simpl; apply lookup_insert_eq|].
  split; [apply Wave_read_default; lia|].
  reflexivity.
Qed.

Lemma gemini_speech_is_wav_witness :
  exists f,
    run_result (text_to_speech demo_vendors (with_provider "gemini")
                  (Some "four") "uploads/r.mp3") demo_world
    = Ok "uploads/r.mp3"
    /\ fs (snd (text_to_speech demo_vendors (with_provider "gemini")
                  (Some "four") "uploads/r.mp3" demo_world)) !! "uploads/r.mp3"
       = Some f
    /\ Wave_read f
       = Some {| getnchannels := 1; getsampwidth := 2; getframerate := 24000;
                 getnframes := (6 / (1 * 2))%Z |}
    /\ drop 44 f = demo_pcm.
Proof.
  apply (gemini_speech_is_wav demo_vendors (with_provider "gemini")
           (Some "four") "uploads/r.mp3" demo_world
           {| text := Some "4"; candidates_opt := Some [[Some demo_pcm]] |}
           demo_pcm [] [] eq_refl eq_refl eq_refl).
  vm_compute. reflexivity.
Defined.

(** ** The history of a session *)

Lemma insert_by_created_at_perm (m : models.Message) (l : list models.Message) :
  Permutation (insert_by_created_at m l) (m :: l).
Proof.
  induction l as [|x l IH]; simpl; [reflexivity|].
  destruct (models.created_at m <=? models.created_at x)%Z; [reflexivity|].
  rewrite IH. apply perm_swap.
Qed.

Lemma order_by_created_at_perm (l : list models.Message) :
  Permutation (order_by_created_at l) l.
Proof.
  induction l as [|x l IH]; simpl; [reflexivity|].
  rewrite insert_by_created_at_perm. now constructor.
Qed.

Lemma insert_by_created_at_sorted (m : models.Message)
    (l : list models.Message) :
  StronglySorted created_le l ->
  StronglySorted created_le (insert_by_created_at m l).
Proof.
  induction l as [|x l IH]; intros Hs; simpl.
  - repeat constructor.
  - inversion Hs as [|? ? Hs' Hall]; subst.
    destruct (models.created_at m <=? models.created_at x)%Z eqn:E.
    + apply Z.leb_le in E. constructor; [exact Hs|].
      constructor; [exact E|].
      eapply Forall_impl; [exact Hall|].
      intros y Hy. unfold created_le in *. lia.
    + apply Z.leb_gt in E. constructor; [now apply IH|].
      rewrite insert_by_created_at_perm. constructor.
      * unfold created_le. lia.
      * exact Hall.
Qed.

Lemma order_by_created_at_sorted (l : list models.Message) :
  StronglySorted created_le (order_by_created_at l).
Proof.
  induction l as [|x l IH]; simpl; [constructor|].
  now apply insert_by_created_at_sorted.
Qed.

Lemma fetch_formatted_history_eq (sid : string) (w : World) :
  fetch_formatted_history sid w = (Ok (history_of sid (db w)), w).
Proof. reflexivity. Qed.

(** X11: [fetch_formatted_history] changes nothing and returns the
    [role] and [content] of exactly the rows of the session asked for,
    each row once, in ascending [created_at] order. *)
Theorem fetch_formatted_history_sorted (sid : string) (w : World) :
  exists rows,
    fetch_formatted_history sid w = (Ok (map history_entry rows), w)
    /\ Permutation rows (session_rows sid (db w))
    /\ StronglySorted created_le rows
    /\ Forall (fun m => models.session_id m = sid) rows
    /\ (forall m, In m rows <->
          In m (messages (db w)) /\ models.session_id m = sid).
Proof.
  exists (order_by_created_at (session_rows sid (db w))).
  pose proof (order_by_created_at_perm (session_rows sid (db w))) as HP.
  assert (Hin : forall m, In m (order_by_created_at (session_rows sid (db w)))
                  <-> In m (messages (db w)) /\ models.session_id m = sid).
  { intros m. split; intros H.
    - apply (Permutation_in _ HP) in H. unfold session_rows in H.
      apply filter_In in H as [H1 H2]. split; [exact H1|].
      now apply String.eqb_eq.
    - destruct H as [H1 H2]. apply (Permutation_in _ (Permutation_sym HP)).
      unfold session_rows. apply filter_In. split; [exact H1|].
      now apply String.eqb_eq. }
  split; [reflexivity|]. split; [exact HP|].
  split; [apply order_by_created_at_sorted|].
  split; [|exact Hin].
  apply List.Forall_forall. intros m Hm. now apply Hin in Hm.
Qed.

Lemma insert_by_created_at_last (x m : models.Message)
    (l : list models.Message) :
  created_le x m ->
  insert_by_created_at x (l ++ [m]) = insert_by_created_at x l ++ [m].
Proof.
  intros Hx. induction l as [|y l IH]; simpl.
  - unfold created_le in Hx. apply Z.leb_le in Hx. now rewrite Hx.
  - destruct (models.created_at x <=? models.created_at y)%Z; [reflexivity|].
    now rewrite IH.
Qed.

Lemma order_by_created_at_last (l : list models.Message) (m : models.Message) :
  Forall (fun x => created_le x m) l ->
  order_by_created_at (l ++ [m]) = order_by_created_at l ++ [m].
Proof.
  induction l as [|x l IH]; intros Hall; simpl; [reflexivity|].
  inversion Hall as [|? ? Hx Hl]; subst.
  rewrite (IH Hl). now apply insert_by_created_at_last.
Qed.

Lemma session_rows_app (sid : string) (d : Database)
    (l : list models.Message) :
  session_rows sid {| agents := agents d; sessions := sessions d;
                      messages := messages d ++ l |}
  = session_rows sid d
    ++ List.filter (fun m => String.eqb (models.session_id m) sid) l.
Proof. unfold session_rows. simpl. apply List.filter_app. Qed.

(** The history after the commit of a message that is not older than the
    messages of its session. *)
Lemma history_after_commit (sid : string) (m : models.Message) (w : World) :
  models.session_id m = sid ->
  Forall (fun x => created_le x m) (session_rows sid (db w)) ->
  history_of sid (db (snd (commit_row m w)))
  = history_of sid (db w) ++ [history_entry m].
Proof.
  intros Hs Hall. unfold history_of, commit_row, emit. simpl.
  rewrite (session_rows_app sid (db w) [m]). simpl.
  rewrite Hs, String.eqb_refl.
  rewrite (order_by_created_at_last _ _ Hall).
  now rewrite map_app.
Qed.

(** X12: once a message that is not older than the rest of its session
    has been committed, the fetched history is the earlier history with
    that message at the end; the slice [chat_history[:-1]] of the two
    endpoints is then the history as it was before the commit. *)
Theorem newest_message_is_last (sid : string) (m : models.Message) (w : World) :
  models.session_id m = sid ->
  Forall (fun x => created_le x m) (session_rows sid (db w)) ->
  run_result (fetch_formatted_history sid) (snd (commit_row m w))
  = Ok (history_of sid (db w) ++ [history_entry m])
  /\ removelast (history_of sid (db (snd (commit_row m w))))
     = history_of sid (db w)
  /\ run_result (fetch_formatted_history sid) w = Ok (history_of sid (db w)).
Proof.
  intros Hs Hall.
  pose proof (history_after_commit sid m w Hs Hall) as H.
  split; [|split].
  - unfold run_result. rewrite fetch_formatted_history_eq. cbn [fst].
    now rewrite H.
  - rewrite H. apply removelast_last.
  - reflexivity.
Qed.

Lemma newest_message_is_last_witness :
  removelast
    (history_of "s1"
       (db (snd (commit_row
                   {| models.message_id := "m4"; models.session_id := "s1";
                      models.role := "user"; models.content := "2+2?";
                      models.audio_file_path := None;
                      models.created_at := 0%Z |} demo_world2))))
  = [{| role := "user"; content := "hi" |};
     {| role := "assistant"; content := "hello" |}].
Proof.
  apply (proj1 (proj2 (newest_message_is_last "s1"
           {| models.message_id := "m4"; models.session_id := "s1";
              models.role := "user"; models.content := "2+2?";
              models.audio_file_path := None; models.created_at := 0%Z |}
           demo_world2 eq_refl
           ltac:(repeat constructor; unfold created_le; simpl; lia)))).
Defined.

(** ** Text turns *)

Lemma add_commit_Message_eq (R : Runtime) (sid rl c : string)
    (a : option string) (w : World) :
  add_commit_Message R sid rl (Some c) a w
  = (Ok (next_Message R sid rl c a w),
     after_commit (next_Message R sid rl c a w) w).
Proof. reflexivity. Qed.

Lemma add_commit_Message_refused (R : Runtime) (sid rl : string)
    (a : option string) (w : World) :
  add_commit_Message R sid rl None a w
  = (Raise (IntegrityError "NOT NULL constraint failed: message.content"),
     after_refusal w).
Proof. reflexivity. Qed.

Lemma logs_only_chat_step (V : Vendors) (self : AIServiceFactory)
    (agent : option models.Agent) (h : list ChatEntry) (nm context : string) :
  logs_only
    (try_except
       (let! system_prompt := agent_prompt agent in
        generate_chat_response V self system_prompt h nm)
       (http_500 context)).
Proof.
  apply logs_only_try_except.
  - apply logs_only_bind.
    + destruct agent; [apply logs_only_ret|apply logs_only_raise].
    + intros sp. apply logs_only_generate_chat_response.
  - intros e. apply logs_only_raise.
Qed.

(** A text turn in a known session, as the commit of the inbound message
    followed by the rest of the handler. *)
Lemma send_text_message_eq (V : Vendors) (R : Runtime)
    (self : AIServiceFactory) (sid c : string) (w : World)
    (s : models.Session) :
  db_get_Session (db w) sid = Some s ->
  let m := next_Message R sid "user" c None w in
  send_text_message V R self sid c w
  = (let! reply :=
       try_except
         (let! system_prompt :=
            agent_prompt (db_get_Agent (db w) (models.agent_id_fk s)) in
          generate_chat_response V self system_prompt
            (removelast (history_of sid (db (after_commit m w)))) c)
         (http_500 "AI Error: ") in
     let! ai_msg := add_commit_Message R sid "assistant" reply None in
     ret ai_msg) (after_commit m w).
Proof.
  intros Hs m. unfold send_text_message.
  rewrite (bind_ok _ _ _ _ _ (get_session_and_agent_found sid w s Hs)).
  cbv beta zeta. simpl snd.
  rewrite (bind_ok _ _ _ _ _ (add_commit_Message_eq R sid "user" c None w)).
  fold m.
  rewrite (bind_ok _ _ _ _ _ (fetch_formatted_history_eq sid (after_commit m w))).
  reflexivity.
Qed.

Lemma history_after_commit' (sid : string) (m : models.Message) (w : World) :
  models.session_id m = sid ->
  Forall (fun x => created_le x m) (session_rows sid (db w)) ->
  history_of sid (db (after_commit m w))
  = history_of sid (db w) ++ [history_entry m].
Proof. intros Hs Hall. exact (history_after_commit sid m w Hs Hall). Qed.

(** X13: in a text turn whose clock reading is not earlier than the
    timestamps already in the session, the gateway is called with the
    agent's prompt, the history of the session as it was before the turn,
    and the new message on its own: the message just committed is not
    part of the history it receives. *)
Theorem text_turn_sees_prior_history (V : Vendors) (R : Runtime)
    (self : AIServiceFactory) (sid c : string) (w : World)
    (s : models.Session) :
  db_get_Session (db w) sid = Some s ->
  Forall (fun x => (models.created_at x <= now R (clock_reads w))%Z)
         (session_rows sid (db w)) ->
  let m := next_Message R sid "user" c None w in
  send_text_message V R self sid c w
  = (let! reply :=
       try_except
         (let! system_prompt :=
            agent_prompt (db_get_Agent (db w) (models.agent_id_fk s)) in
          generate_chat_response V self system_prompt
            (history_of sid (db w)) c)
         (http_500 "AI Error: ") in
     let! ai_msg := add_commit_Message R sid "assistant" reply None in
     ret ai_msg) (after_commit m w).
Proof.
  intros Hs Hall m.
  rewrite (send_text_message_eq V R self sid c w s Hs). fold m.
  rewrite (history_after_commit' sid m w eq_refl Hall).
  now rewrite removelast_last.
Qed.

Lemma text_turn_sees_prior_history_witness :
  run_log (send_text_message demo_vendors demo_runtime (with_provider "openai")
             "s1" "2+2?") demo_world2
  = [EvCommit (next_Message demo_runtime "s1" "user" "2+2?" None demo_world2);
     EvCall (openai_chat_completions_create "gpt-4o-mini"
               [{| role := "system"; content := "Be concise" |};
                {| role := "user"; content := "hi" |};
                {| role := "assistant"; content := "hello" |};
                {| role := "user"; content := "2+2?" |}]) true;
     EvCommit {| models.message_id := "id1"; models.session_id := "s1";
                 models.role := "assistant"; models.content := "4";
                 models.audio_file_path := None; models.created_at := 1%Z |}].
Proof.
  unfold run_log.
  rewrite (text_turn_sees_prior_history demo_vendors demo_runtime
             (with_provider "openai") "s1" "2+2?" demo_world2
             {| models.id := "s1"; models.agent_id_fk := "a1" |} eq_refl
             ltac:(repeat constructor; simpl; lia)).
  reflexivity.
Defined.

(** X14: a text turn that returns has extended the history of its
    session by exactly the user's message and then the assistant's reply,
    and the message it returns is that reply.  (Clock readings are taken
    not to run backwards.) *)
Theorem text_turn_roundtrip (V : Vendors) (R : Runtime)
    (self : AIServiceFactory) (sid c : string) (w w' : World)
    (s : models.Session) (ai_msg : models.Message) :
  db_get_Session (db w) sid = Some s ->
  Forall (fun x => (models.created_at x <= now R (clock_reads w))%Z)
         (session_rows sid (db w)) ->
  (now R (clock_reads w) <= now R (S (clock_reads w)))%Z ->
  send_text_message V R self sid c w = (Ok ai_msg, w') ->
  models.role ai_msg = "assistant"
  /\ models.session_id ai_msg = sid
  /\ history_of sid (db w')
     = history_of sid (db w)
       ++ [{| role := "user"; content := c |};
           {| role := "assistant"; content := models.content ai_msg |}]
  /\ messages (db w')
     = messages (db w) ++ [next_Message R sid "user" c None w; ai_msg].
Proof.
  intros Hs Hall Hclk.
  rewrite (send_text_message_eq V R self sid c w s Hs). cbv zeta.
  set (m := next_Message R sid "user" c None w).
  set (step := try_except _ _).
  unfold bind at 1.
  pose proof (logs_only_chat_step V self
                (db_get_Agent (db w) (models.agent_id_fk s))
                (removelast (history_of sid (db (after_commit m w)))) c
                "AI Error: " (after_commit m w)) as (F & D & U & C).
  fold step in F, D, U, C.
  destruct (step (after_commit m w)) as [[reply|e] w2]; [|discriminate].
  simpl in F, D, U, C.
  destruct reply as [r|].
  2:{ rewrite (bind_raise _ _ _ _ _
                 (add_commit_Message_refused R sid "assistant" None w2)).
      discriminate. }
  rewrite (bind_ok _ _ _ _ _ (add_commit_Message_eq R sid "assistant" r None w2)).
  unfold ret. intros H. injection H as <- <-.
  assert (Hm2 : history_of sid (db w2)
                = history_of sid (db w) ++ [history_entry m]).
  { rewrite D. apply history_after_commit'; [reflexivity|].
    eapply Forall_impl; [exact Hall|]. intros x Hx. exact Hx. }
  split; [reflexivity|]. split; [reflexivity|]. split.
  - rewrite history_after_commit'; [|reflexivity|].
    + rewrite Hm2, <- app_assoc. reflexivity.
    + rewrite D.
      rewrite (session_rows_app sid (db w) [m]). simpl.
      rewrite String.eqb_refl. apply Forall_app. split.
      * eapply Forall_impl; [exact Hall|]. intros x Hx.
        unfold created_le, next_Message. simpl. rewrite C.
        eapply Z.le_trans; [exact Hx|exact Hclk].
      * constructor; [|constructor].
        unfold created_le, next_Message. simpl. rewrite C. simpl. exact Hclk.
  - simpl. rewrite D. simpl. now rewrite <- app_assoc.
Qed.

Lemma text_turn_roundtrip_witness :
  history_of "s1"
    (db (snd (send_text_message demo_vendors demo_runtime
                (with_provider "openai") "s1" "2+2?" demo_world2)))
  = history_of "s1" (db demo_world2)
    ++ [{| role := "user"; content := "2+2?" |};
        {| role := "assistant"; content := "4" |}].
Proof.
  assert (E : send_text_message demo_vendors demo_runtime
                (with_provider "openai") "s1" "2+2?" demo_world2
              = (Ok {| models.message_id := "id1"; models.session_id := "s1";
                       models.role := "assistant"; models.content := "4";
                       models.audio_file_path := None;
                       models.created_at := 1%Z |},
                 snd (send_text_message demo_vendors demo_runtime
                        (with_provider "openai") "s1" "2+2?" demo_world2)))
    by (vm_compute; reflexivity).
  assert (Hall : Forall (fun x => (models.created_at x
                                   <= now demo_runtime (clock_reads demo_world2))%Z)
                   (session_rows "s1" (db demo_world2)))
    by (repeat constructor; simpl; lia).
  assert (Hclk : (now demo_runtime (clock_reads demo_world2)
                  <= now demo_runtime (S (clock_reads demo_world2)))%Z)
    by (simpl; lia).
  exact (proj1 (proj2 (proj2
    (text_turn_roundtrip demo_vendors demo_runtime (with_provider "openai")
       "s1" "2+2?" demo_world2 _
       {| models.id := "s1"; models.agent_id_fk := "a1" |} _
       eq_refl Hall Hclk E)))).
Defined.

(** X15: a turn addressed to a session that does not exist ends in a 404
    and does nothing at all: no message is committed, no upload is saved,
    no request is sent, on the text and on the voice endpoint alike. *)
Theorem unknown_session_is_404 (V : Vendors) (R : Runtime)
    (self : AIServiceFactory) (sid : string) (w : World) :
  db_get_Session (db w) sid = None ->
  (forall c,
     send_text_message V R self sid c w
     = (Raise (HTTPException 404 "Session not found"), w))
  /\ (forall filename upload,
     send_voice_message V R self sid filename upload w
     = (Raise (HTTPException 404 "Session not found"), w)).
Proof.
  intros Hs. split.
  - intros c. unfold send_text_message.
    now rewrite (bind_raise _ _ _ _ _ (get_session_and_agent_missing sid w Hs)).
  - intros filename upload. unfold send_voice_message.
    now rewrite (bind_raise _ _ _ _ _ (get_session_and_agent_missing sid w Hs)).
Qed.

Lemma unknown_session_is_404_witness :
  send_voice_message demo_vendors demo_runtime (with_provider "openai")
    "s9" "rec.webm" [x1a; x45] demo_world2
  = (Raise (HTTPException 404 "Session not found"), demo_world2).
Proof.
  apply (proj2 (unknown_session_is_404 demo_vendors demo_runtime
                  (with_provider "openai") "s9" demo_world2 eq_refl)).
Defined.

(** The three ways a text turn in a known session can end. *)
Lemma send_text_message_cases (V : Vendors) (R : Runtime)
    (self : AIServiceFactory) (sid c : string) (w : World)
    (s : models.Session) :
  db_get_Session (db w) sid = Some s ->
  let m := next_Message R sid "user" c None w in
  exists w2,
    fs w2 = fs w /\ db w2 = db (after_commit m w)
    /\ ((exists e, send_text_message V R self sid c w = (Raise e, w2))
        \/ (exists e,
              send_text_message V R self sid c w = (Raise e, after_refusal w2))
        \/ (exists r,
              send_text_message V R self sid c w
              = (Ok (next_Message R sid "assistant" r None w2),
                 after_commit (next_Message R sid "assistant" r None w2) w2))).
Proof.
  intros Hs m.
  rewrite (send_text_message_eq V R self sid c w s Hs). fold m.
  set (step := try_except _ _).
  pose proof (logs_only_chat_step V self
                (db_get_Agent (db w) (models.agent_id_fk s))
                (removelast (history_of sid (db (after_commit m w)))) c
                "AI Error: " (after_commit m w)) as (F & D & _).
  fold step in F, D.
  destruct (step (after_commit m w)) as [[reply|e] w2] eqn:E0; simpl in F, D;
    exists w2; (split; [exact F|]); (split; [exact D|]).
  - rewrite (bind_ok _ _ _ _ _ E0). destruct reply as [r|].
    + right; right. exists r.
      now rewrite (bind_ok _ _ _ _ _
                     (add_commit_Message_eq R sid "assistant" r None w2)).
    + right; left. eexists.
      now rewrite (bind_raise _ _ _ _ _
                     (add_commit_Message_refused R sid "assistant" None w2)).
  - left. eexists. now rewrite (bind_raise _ _ _ _ _ E0).
Qed.

(** X16: the footprint of a text turn.  Whatever the vendor does, a text
    turn touches no file and neither the agents nor the sessions table,
    and the only rows it adds to the message table are at most two
    messages, appended, of the session it was addressed to; every row
    that was there stays, in place. *)
Theorem text_turn_footprint (V : Vendors) (R : Runtime)
    (self : AIServiceFactory) (sid c : string) (w : World) :
  let w' := snd (send_text_message V R self sid c w) in
  fs w' = fs w
  /\ agents (db w') = agents (db w)
  /\ sessions (db w') = sessions (db w)
  /\ exists added,
       messages (db w') = messages (db w) ++ added
       /\ Forall (fun m => models.session_id m = sid) added
       /\ (List.length added <= 2)%nat.
Proof.
  intros w'. subst w'.
  destruct (db_get_Session (db w) sid) as [s|] eqn:Hs.
  2:{ unfold send_text_message.
      rewrite (bind_raise _ _ _ _ _ (get_session_and_agent_missing sid w Hs)).
      simpl. repeat split. exists []. rewrite app_nil_r.
      repeat split; [constructor|simpl; lia]. }
  destruct (send_text_message_cases V R self sid c w s Hs)
    as (w2 & F & D & [[e E]|[[e E]|[r E]]]); rewrite E; simpl;
    rewrite ?F, ?D; simpl; repeat split.
  - eexists [_]. repeat split; [repeat constructor|simpl; lia].
  - eexists [_]. repeat split; [repeat constructor|simpl; lia].
  - eexists [_; _]. rewrite <- app_assoc.
    repeat split; [repeat constructor|simpl; lia].
Qed.

Lemma text_turn_footprint_witness :
  exists added,
    messages (db (snd (send_text_message failing_vendors demo_runtime
                         (with_provider "groq") "s1" "2+2?" demo_world2)))
    = messages (db demo_world2) ++ added
    /\ Forall (fun m => models.session_id m = "s1") added
    /\ (List.length added <= 2)%nat.
Proof.
  apply (proj2 (proj2 (proj2
    (text_turn_footprint failing_vendors demo_runtime (with_provider "groq")
       "s1" "2+2?" demo_world2)))).
Defined.

(** X17: a text turn under an unsupported provider still commits the
    user's message, sends no request, and ends in a 500 whose detail is
    ["AI Error: Unsupported AI Provider: "] followed by the provider; and
    whatever exception the gateway raises in a text turn reaches the
    client as a 500 with ["AI Error: "] before the exception's own
    text. *)
Theorem text_turn_gateway_error (V : Vendors) (R : Runtime)
    (self : AIServiceFactory) (sid c : string) (w : World)
    (s : models.Session) (a : models.Agent) :
  db_get_Session (db w) sid = Some s ->
  db_get_Agent (db w) (models.agent_id_fk s) = Some a ->
  let m := next_Message R sid "user" c None w in
  (recognized (provider self) = false ->
     send_text_message V R self sid c w
     = (Raise (HTTPException 500
                 ("AI Error: Unsupported AI Provider: " +:+ provider self)),
        after_commit m w))
  /\ (forall e w2,
        generate_chat_response V self (models.prompt a)
          (removelast (history_of sid (db (after_commit m w)))) c
          (after_commit m w) = (Raise e, w2) ->
        send_text_message V R self sid c w
        = (Raise (HTTPException 500 ("AI Error: " +:+ exn_str e)), w2)).
Proof.
  intros Hs Ha m.
  assert (Hgen : forall e w2,
            generate_chat_response V self (models.prompt a)
              (removelast (history_of sid (db (after_commit m w)))) c
              (after_commit m w) = (Raise e, w2) ->
            send_text_message V R self sid c w
            = (Raise (HTTPException 500 ("AI Error: " +:+ exn_str e)), w2)).
  { intros e w2 Hg.
    rewrite (send_text_message_eq V R self sid c w s Hs). fold m.
    rewrite Ha. unfold bind at 1. unfold try_except, agent_prompt.
    unfold bind at 1. unfold ret at 1. cbv beta iota. rewrite Hg.
    reflexivity. }
  split; [|exact Hgen].
  intros Hrec. apply recognized_false in Hrec as (Hg & Hq & Ho).
  apply (Hgen (ValueError ("Unsupported AI Provider: " +:+ provider self))).
  unfold generate_chat_response. now rewrite Hg, Ho, Hq.
Qed.

Lemma text_turn_gateway_error_witness :
  send_text_message demo_vendors demo_runtime (with_provider "claude")
    "s1" "2+2?" demo_world2
  = (Raise (HTTPException 500 "AI Error: Unsupported AI Provider: claude"),
     after_commit (next_Message demo_runtime "s1" "user" "2+2?" None demo_world2)
       demo_world2).
Proof.
  apply (proj1 (text_turn_gateway_error demo_vendors demo_runtime
                  (with_provider "claude") "s1" "2+2?" demo_world2
                  {| models.id := "s1"; models.agent_id_fk := "a1" |}
                  {| models.agent_id := "a1"; models.name := "Tutor";
                     models.prompt := "Be concise" |} eq_refl eq_refl)
           eq_refl).
Defined.

(** X18: a text turn in a session whose agent row is missing commits the
    user's message, sends no request, and ends in a 500 carrying the
    attribute error raised on [agent.prompt]. *)
Theorem text_turn_without_agent (V : Vendors) (R : Runtime)
    (self : AIServiceFactory) (sid c : string) (w : World)
    (s : models.Session) :
  db_get_Session (db w) sid = Some s ->
  db_get_Agent (db w) (models.agent_id_fk s) = None ->
  send_text_message V R self sid c w
  = (Raise (HTTPException 500
              "AI Error: 'NoneType' object has no attribute 'prompt'"),
     after_commit (next_Message R sid "user" c None w) w).
Proof.
  intros Hs Ha.
  rewrite (send_text_message_eq V R self sid c w s Hs). cbv zeta.
  rewrite Ha. reflexivity.
Qed.

Lemma text_turn_without_agent_witness :
  let w := {| fs := ∅;
              db := {| agents := [];
                       sessions := [{| models.id := "s1";
                                       models.agent_id_fk := "gone" |}];
                       messages := [] |};
              log := []; uuids_drawn := 0; clock_reads := 0 |} in
  send_text_message demo_vendors demo_runtime (with_provider "openai")
    "s1" "hi" w
  = (Raise (HTTPException 500
              "AI Error: 'NoneType' object has no attribute 'prompt'"),
     after_commit (next_Message demo_runtime "s1" "user" "hi" None w) w).
Proof.
  intros w.
  apply (text_turn_without_agent demo_vendors demo_runtime
           (with_provider "openai") "s1" "hi" w
           {| models.id := "s1"; models.agent_id_fk := "gone" |}
           eq_refl eq_refl).
Defined.

(** ** Voice turns *)

(** A voice turn in a known session whose upload cannot be saved. *)
Lemma send_voice_message_unsaved (V : Vendors) (R : Runtime)
    (self : AIServiceFactory) (sid filename : string) (upload : bytes)
    (w : World) (s : models.Session) (e : exn) :
  db_get_Session (db w) sid = Some s ->
  create_error R ("uploads/" +:+ uuid4 R (uuids_drawn w) +:+ "_" +:+ filename)
  = Some e ->
  send_voice_message V R self sid filename upload w
  = (Raise e, snd (fresh_uuid R w)).
Proof.
  intros Hs Hc. unfold send_voice_message.
  rewrite (bind_ok _ _ _ _ _ (get_session_and_agent_found sid w s Hs)).
  cbv beta zeta. unfold bind at 1. unfold fresh_uuid at 1. cbv beta iota.
  unfold bind at 1. unfold save_upload at 1. rewrite Hc. reflexivity.
Qed.

(** A voice turn in a known session, from the saved upload on. *)
Lemma send_voice_message_eq (V : Vendors) (R : Runtime)
    (self : AIServiceFactory) (sid filename : string) (upload : bytes)
    (w : World) (s : models.Session) :
  db_get_Session (db w) sid = Some s ->
  let user_audio_path :=
    "uploads/" +:+ uuid4 R (uuids_drawn w) +:+ "_" +:+ filename in
  create_error R user_audio_path = None ->
  send_voice_message V R self sid filename upload w
  = (let! user_text :=
       try_except (transcribe_audio V self user_audio_path)
                  (http_500 "Transcription Error: ") in
     let! user_msg :=
       add_commit_Message R sid "user" user_text (Some user_audio_path) in
     let! chat_history := fetch_formatted_history sid in
     let! ai_text_response :=
       try_except
         (let! system_prompt :=
            agent_prompt (db_get_Agent (db w) (models.agent_id_fk s)) in
          generate_chat_response V self system_prompt
            (removelast chat_history) (models.content user_msg))
         (http_500 "AI LLM Error: ") in
     let! u' := fresh_uuid R in
     run!
       try_except
         (text_to_speech V self ai_text_response
            ("uploads/" +:+ u' +:+ "_ai_response.mp3"))
         (http_500 "TTS Error: ") in
     let! ai_msg :=
       add_commit_Message R sid "assistant" ai_text_response
         (Some ("uploads/" +:+ u' +:+ "_ai_response.mp3")) in
     ret ai_msg)
      (wrote user_audio_path upload (snd (fresh_uuid R w))).
Proof.
  intros Hs p Hc. unfold send_voice_message.
  rewrite (bind_ok _ _ _ _ _ (get_session_and_agent_found sid w s Hs)).
  cbv beta zeta. unfold bind at 1. unfold fresh_uuid at 1. cbv beta iota.
  unfold bind at 1. unfold save_upload at 1. fold p. rewrite Hc.
  reflexivity.
Qed.

(** X19: the early failures of a voice turn in a known session.  When
    the upload cannot be saved, the error of the save goes to the client
    as it is, not as one of the handler's 500s: nothing is written,
    transcribed or committed.  When the upload has been saved and
    transcription fails, the client gets a 500 whose detail is
    ["Transcription Error: "] followed by the text of the exception; the
    upload stays on disk and no message is committed. *)
Theorem voice_turn_transcription_error (V : Vendors) (R : Runtime)
    (self : AIServiceFactory) (sid filename : string) (upload : bytes)
    (w : World) (s : models.Session) :
  db_get_Session (db w) sid = Some s ->
  let user_audio_path :=
    "uploads/" +:+ uuid4 R (uuids_drawn w) +:+ "_" +:+ filename in
  (forall e,
     create_error R user_audio_path = Some e ->
     let w' := snd (send_voice_message V R self sid filename upload w) in
     run_result (send_voice_message V R self sid filename upload) w = Raise e
     /\ fs w' = fs w /\ db w' = db w /\ log w' = log w)
  /\ (forall e w2,
     create_error R user_audio_path = None ->
     transcribe_audio V self user_audio_path
       (wrote user_audio_path upload (snd (fresh_uuid R w))) = (Raise e, w2) ->
     send_voice_message V R self sid filename upload w
     = (Raise (HTTPException 500 ("Transcription Error: " +:+ exn_str e)), w2)
     /\ fs w2 !! user_audio_path = Some upload
     /\ db w2 = db w).
Proof.
  intros Hs p. split.
  - intros e Hc w'. subst w'. unfold run_result.
    rewrite (send_voice_message_unsaved V R self sid filename upload w s e Hs Hc).
    repeat split.
  - intros e w2 Hc Ht.
    pose proof (logs_only_transcribe_audio V self p
                  (wrote p upload (snd (fresh_uuid R w)))) as (F & D & _).
    rewrite Ht in F, D. simpl in F, D.
    split; [|split].
    + rewrite (send_voice_message_eq V R self sid filename upload w s Hs Hc).
      fold p. unfold bind at 1. unfold try_except at 1. rewrite Ht.
      reflexivity.
    + rewrite F. apply lookup_insert_eq.
    + exact D.
Qed.

Lemma voice_turn_transcription_error_witness :
  run_result (send_voice_message failing_vendors demo_runtime
                (with_provider "groq") "s1" "rec.webm" [x1a; x45]) demo_world2
  = Raise (HTTPException 500 "Transcription Error: 503")
  /\ run_result (send_voice_message failing_vendors demo_runtime
                   (with_provider "groq") "s1" "a/b.webm" [x1a; x45])
        demo_world2
     = Raise (FileNotFoundError "uploads/id0_a/b.webm").
Proof.
  split.
  - unfold run_result.
    rewrite (proj1 (proj2 (voice_turn_transcription_error failing_vendors
               demo_runtime (with_provider "groq") "s1" "rec.webm" [x1a; x45]
               demo_world2
               {| models.id := "s1"; models.agent_id_fk := "a1" |} eq_refl)
               (ProviderError "503")
               (snd (transcribe_audio failing_vendors (with_provider "groq")
                       "uploads/id0_rec.webm"
                       (wrote "uploads/id0_rec.webm" [x1a; x45]
                          (snd (fresh_uuid demo_runtime demo_world2)))))
               eq_refl eq_refl)).
    reflexivity.
  - apply (proj1 (voice_turn_transcription_error failing_vendors
               demo_runtime (with_provider "groq") "s1" "a/b.webm" [x1a; x45]
               demo_world2
               {| models.id := "s1"; models.agent_id_fk := "a1" |} eq_refl)
             (FileNotFoundError "uploads/id0_a/b.webm") eq_refl).
Defined.

(** X20: under an unrecognized provider a voice turn whose upload can
    be saved saves it, gets no transcript, and fails at the commit of the
    user's message, whose content would be empty: an [IntegrityError],
    not one of the handler's 500s.  No request is sent and no message is
    committed. *)
Theorem voice_turn_unrecognized_provider (V : Vendors) (R : Runtime)
    (self : AIServiceFactory) (sid filename : string) (upload : bytes)
    (w : World) (s : models.Session) :
  db_get_Session (db w) sid = Some s ->
  recognized (provider self) = false ->
  let user_audio_path :=
    "uploads/" +:+ uuid4 R (uuids_drawn w) +:+ "_" +:+ filename in
  create_error R user_audio_path = None ->
  let w' := snd (send_voice_message V R self sid filename upload w) in
  run_result (send_voice_message V R self sid filename upload) w
  = Raise (IntegrityError "NOT NULL constraint failed: message.content")
  /\ log w' = log w ++ [EvWrite user_audio_path upload]
  /\ fs w' = <[user_audio_path := upload]> (fs w)
  /\ db w' = db w.
Proof.
  intros Hs Hrec p Hc w'. subst w'. unfold run_result.
  rewrite (send_voice_message_eq V R self sid filename upload w s Hs Hc).
  fold p.
  apply recognized_false in Hrec as (Hg & Hq & Ho).
  assert (Ht : forall w1, transcribe_audio V self p w1 = (Ok None, w1)).
  { intros w1. unfold transcribe_audio. now rewrite Hg, Hq, Ho. }
  assert (E : try_except (transcribe_audio V self p)
                (http_500 "Transcription Error: ")
                (wrote p upload (snd (fresh_uuid R w)))
              = (Ok None, wrote p upload (snd (fresh_uuid R w)))).
  { unfold try_except. now rewrite Ht. }
  rewrite (bind_ok _ _ _ _ _ E).
  rewrite (bind_raise _ _ _ _ _
             (add_commit_Message_refused R sid "user" (Some p) _)).
  repeat split.
Qed.

Lemma voice_turn_unrecognized_provider_witness :
  run_result (send_voice_message demo_vendors demo_runtime
                (with_provider "claude") "s1" "rec.webm" [x1a; x45]) demo_world2
  = Raise (IntegrityError "NOT NULL constraint failed: message.content").
Proof.
  apply (proj1 (voice_turn_unrecognized_provider demo_vendors demo_runtime
                  (with_provider "claude") "s1" "rec.webm" [x1a; x45]
                  demo_world2
                  {| models.id := "s1"; models.agent_id_fk := "a1" |}
                  eq_refl eq_refl eq_refl)).
Defined.

Lemma chat_step_ok_recognized (V : Vendors) (self : AIServiceFactory)
    (agent : option models.Agent) (h : list ChatEntry) (nm context : string)
    (w w' : World) (reply : option string) :
  try_except
    (let! system_prompt := agent_prompt agent in
     generate_chat_response V self system_prompt h nm)
    (http_500 context) w = (Ok reply, w') ->
  recognized (provider self) = true.
Proof.
  destruct (recognized (provider self)) eqn:Hrec; [reflexivity|].
  apply recognized_false in Hrec as (Hg & Hq & Ho).
  unfold try_except, bind, agent_prompt.
  destruct agent as [a|]; simpl.
  - unfold generate_chat_response. rewrite Hg, Ho, Hq. discriminate.
  - discriminate.
Qed.

(** X21: a voice turn that returns has recorded two messages, the
    user's with the path of the saved upload and the assistant's with the
    path of the synthesized reply, in this order; the message returned is
    the assistant's, and a file exists at the path it names.  The upload
    is still where it was saved, unless the two paths coincide. *)
Theorem voice_turn_success (V : Vendors) (R : Runtime)
    (self : AIServiceFactory) (sid filename : string) (upload : bytes)
    (w w' : World) (s : models.Session) (ai_msg : models.Message) :
  db_get_Session (db w) sid = Some s ->
  send_voice_message V R self sid filename upload w = (Ok ai_msg, w') ->
  let user_audio_path :=
    "uploads/" +:+ uuid4 R (uuids_drawn w) +:+ "_" +:+ filename in
  exists ai_audio_path data m_in,
    models.role ai_msg = "assistant"
    /\ models.audio_file_path ai_msg = Some ai_audio_path
    /\ fs w' !! ai_audio_path = Some data
    /\ messages (db w') = messages (db w) ++ [m_in; ai_msg]
    /\ models.role m_in = "user"
    /\ models.audio_file_path m_in = Some user_audio_path
    /\ models.session_id m_in = sid /\ models.session_id ai_msg = sid
    /\ (ai_audio_path <> user_audio_path ->
        fs w' !! user_audio_path = Some upload).
Proof.
  intros Hs Hrun p.
  destruct (create_error R p) as [e0|] eqn:Hc.
  { rewrite (send_voice_message_unsaved V R self sid filename upload w s e0
               Hs Hc) in Hrun. discriminate. }
  rewrite (send_voice_message_eq V R self sid filename upload w s Hs Hc)
    in Hrun.
  fold p in Hrun.
  set (w1 := wrote p upload (snd (fresh_uuid R w))) in *.
  (* transcription *)
  pose proof (logs_only_transcribe_audio V self p w1) as (F1 & D1 & _).
  destruct (try_except (transcribe_audio V self p)
              (http_500 "Transcription Error: ") w1)
    as [[user_text|e] w2] eqn:E1;
    [rewrite (bind_ok _ _ _ _ _ E1) in Hrun
    |rewrite (bind_raise _ _ _ _ _ E1) in Hrun; discriminate].
  assert (Hw2 : fs w2 = fs w1 /\ db w2 = db w1).
  { unfold try_except in E1.
    destruct (transcribe_audio V self p w1) as [[t|e] wt]; simpl in F1, D1.
    - injection E1 as _ <-. now split.
    - discriminate. }
  destruct Hw2 as (F2 & D2).
  (* inbound commit *)
  destruct user_text as [t|];
    [rewrite (bind_ok _ _ _ _ _ (add_commit_Message_eq R sid "user" t (Some p) w2))
       in Hrun
    |rewrite (bind_raise _ _ _ _ _
                (add_commit_Message_refused R sid "user" (Some p) w2)) in Hrun;
     discriminate].
  set (m_in := next_Message R sid "user" t (Some p) w2) in *.
  rewrite (bind_ok _ _ _ _ _
             (fetch_formatted_history_eq sid (after_commit m_in w2))) in Hrun.
  (* chat *)
  match type of Hrun with
  | bind ?step _ _ = _ => set (chat := step) in *
  end.
  pose proof (logs_only_chat_step V self
                (db_get_Agent (db w) (models.agent_id_fk s))
                (removelast (history_of sid (db (after_commit m_in w2))))
                (models.content m_in) "AI LLM Error: " (after_commit m_in w2))
    as (F3 & D3 & _).
  fold chat in F3, D3.
  destruct (chat (after_commit m_in w2)) as [[reply|e] w4] eqn:E3;
    [rewrite (bind_ok _ _ _ _ _ E3) in Hrun
    |rewrite (bind_raise _ _ _ _ _ E3) in Hrun; discriminate].
  simpl in F3, D3.
  pose proof (chat_step_ok_recognized _ _ _ _ _ _ _ _ _ E3) as Hrec.
  (* synthesis *)
  unfold bind at 1 in Hrun. unfold fresh_uuid at 1 in Hrun.
  cbv beta iota in Hrun.
  set (q := "uploads/" +:+ uuid4 R (uuids_drawn w4) +:+ "_ai_response.mp3") in *.
  set (w5 := {| fs := fs w4; db := db w4; log := log w4;
                uuids_drawn := S (uuids_drawn w4);
                clock_reads := clock_reads w4 |}) in *.
  pose proof (writes_only_text_to_speech V self reply q w5) as (F6 & D6 & _).
  destruct (text_to_speech V self reply q w5) as [[o|e] w6] eqn:E6.
  2:{ unfold bind at 1, try_except at 1 in Hrun. rewrite E6 in Hrun.
      discriminate. }
  destruct (text_to_speech_returns_path V self reply q w5 o w6 Hrec E6)
    as (_ & data & Hdata).
  unfold bind at 1, try_except at 1 in Hrun. rewrite E6 in Hrun.
  simpl in F6, D6.
  (* outbound commit *)
  destruct reply as [r|];
    [rewrite (bind_ok _ _ _ _ _
                (add_commit_Message_eq R sid "assistant" r (Some q) w6)) in Hrun
    |rewrite (bind_raise _ _ _ _ _
                (add_commit_Message_refused R sid "assistant" (Some q) w6))
       in Hrun; discriminate].
  unfold ret in Hrun. injection Hrun as <- <-.
  exists q, data, m_in. simpl.
  repeat split; auto.
  - rewrite D6. simpl. rewrite D3. simpl. rewrite D2. subst w1. simpl.
    now rewrite <- app_assoc.
  - intros Hne. rewrite (F6 p (not_eq_sym Hne)). simpl.
    rewrite F3. simpl. rewrite F2. subst w1. unfold wrote. simpl.
    apply lookup_insert_eq.
Qed.

Lemma voice_turn_success_witness :
  exists ai_audio_path data m_in,
    models.role (next_Message demo_runtime "s1" "assistant" "4"
                   (Some "uploads/id2_ai_response.mp3")
                   {| fs := ∅; db := demo_db2; log := [];
                      uuids_drawn := 3; clock_reads := 1 |}) = "assistant"
    /\ models.audio_file_path
         (next_Message demo_runtime "s1" "assistant" "4"
            (Some "uploads/id2_ai_response.mp3")
            {| fs := ∅; db := demo_db2; log := [];
               uuids_drawn := 3; clock_reads := 1 |}) = Some ai_audio_path
    /\ fs (snd (send_voice_message demo_vendors demo_runtime
                  (with_provider "openai") "s1" "rec.webm" [x1a; x45]
                  demo_world2)) !! ai_audio_path = Some data
    /\ models.audio_file_path m_in = Some "uploads/id0_rec.webm".
Proof.
  assert (E : send_voice_message demo_vendors demo_runtime
                (with_provider "openai") "s1" "rec.webm" [x1a; x45] demo_world2
              = (Ok (next_Message demo_runtime "s1" "assistant" "4"
                       (Some "uploads/id2_ai_response.mp3")
                       {| fs := ∅; db := demo_db2; log := [];
                          uuids_drawn := 3; clock_reads := 1 |}),
                 snd (send_voice_message demo_vendors demo_runtime
                        (with_provider "openai") "s1" "rec.webm" [x1a; x45]
                        demo_world2)))
    by (vm_compute; reflexivity).
  destruct (voice_turn_success demo_vendors demo_runtime
              (with_provider "openai") "s1" "rec.webm" [x1a; x45] demo_world2 _
              {| models.id := "s1"; models.agent_id_fk := "a1" |} _ eq_refl E)
    as (q & data & m_in & H1 & H2 & H3 & _ & _ & H6 & _).
  exists q, data, m_in. repeat split; assumption.
Defined.

(** ** Agents and sessions *)

Lemma find_app_last {A} (f : A -> bool) (l : list A) (a : A) :
  find f (l ++ [a])
  = match find f l with
    | Some x => Some x
    | None => if f a then Some a else None
    end.
Proof.
  induction l as [|x l IH]; simpl; [reflexivity|].
  destruct (f x); [reflexivity|exact IH].
Qed.

Lemma find_none_not_in_keys {A} (key : A -> string) (k : string) (l : list A) :
  find (fun x => String.eqb (key x) k) l = None <-> ~ In k (map key l).
Proof.
  induction l as [|x l IH]; simpl; [tauto|].
  destruct (String.eqb_spec (key x) k) as [E|E].
  - split; [discriminate|]. intros H. exfalso. apply H. now left.
  - rewrite IH. split.
    + intros H [H1|H1]; [contradiction|auto].
    + intros H H1. apply H. now right.
Qed.

Lemma find_some_key {A} (key : A -> string) (k : string) (l : list A) (x : A) :
  find (fun x => String.eqb (key x) k) l = Some x -> key x = k /\ In x l.
Proof.
  intros H. apply find_some in H as [H1 H2]. split; [|exact H1].
  now apply String.eqb_eq.
Qed.

Lemma NoDup_map_filter {A} (key : A -> string) (p : A -> bool) (l : list A) :
  NoDup (map key l) -> NoDup (map key (List.filter p l)).
Proof.
  induction l as [|x l IH]; simpl; intros H; [constructor|].
  apply NoDup_cons in H as [Hx Hl].
  destruct (p x); simpl; [|now apply IH].
  apply NoDup_cons. split; [|now apply IH].
  intros Hin. apply Hx. apply list_elem_of_In in Hin. apply list_elem_of_In.
  apply in_map_iff in Hin as (y & Hy & Hin).
  apply in_map_iff. exists y. split; [exact Hy|].
  apply filter_In in Hin. tauto.
Qed.

Lemma create_agent_eq (R : Runtime) (n p : string) (w : World) :
  let new_agent := {| models.agent_id := uuid4 R (uuids_drawn w);
                      models.name := n; models.prompt := p |} in
  let w3 := {| fs := fs w; db := db w; log := log w;
               uuids_drawn := S (uuids_drawn w);
               clock_reads := S (S (clock_reads w)) |} in
  create_agent R n p w
  = match db_get_Agent (db w) (uuid4 R (uuids_drawn w)) with
    | Some _ =>
        (Raise (IntegrityError "UNIQUE constraint failed: agent.id"), w3)
    | None =>
        (Ok new_agent,
         set_db {| agents := agents (db w) ++ [new_agent];
                   sessions := sessions (db w);
                   messages := messages (db w) |} w3)
    end.
Proof. reflexivity. Qed.

(** X22: an agent that [create_agent] returns carries the name and the
    prompt of the request, is found by [get_agent] under its id from then
    on, and comes last in [list_agents]; the agents that existed are
    found as before, and sessions and messages are untouched.  Creation
    fails only when the drawn id is already a key of the table, and then
    changes no table. *)
Theorem create_agent_then_get (R : Runtime) (n p : string) (w : World) :
  let w' := snd (create_agent R n p w) in
  (forall a, run_result (create_agent R n p) w = Ok a ->
     models.name a = n /\ models.prompt a = p
     /\ get_agent (models.agent_id a) w' = (Ok a, w')
     /\ run_result list_agents w' = Ok (agents (db w) ++ [a])
     /\ (forall k, k <> models.agent_id a ->
           db_get_Agent (db w') k = db_get_Agent (db w) k)
     /\ sessions (db w') = sessions (db w)
     /\ messages (db w') = messages (db w))
  /\ (forall e, run_result (create_agent R n p) w = Raise e ->
     In (uuid4 R (uuids_drawn w)) (map models.agent_id (agents (db w)))
     /\ db w' = db w).
Proof.
  intros w'. subst w'. unfold run_result.
  rewrite (create_agent_eq R n p w). cbv zeta.
  destruct (db_get_Agent (db w) (uuid4 R (uuids_drawn w))) as [old|] eqn:Hg;
    simpl; split; try discriminate.
  - intros e _. split; [|reflexivity].
    apply find_some_key in Hg as [Hk Hin].
    apply in_map_iff. exists old. now split.
  - intros a Ha. injection Ha as <-. simpl.
    repeat split.
    + unfold get_agent, db_get_Agent. simpl.
      rewrite find_app_last. unfold db_get_Agent in Hg. rewrite Hg. simpl.
      now rewrite String.eqb_refl.
    + intros k Hk. unfold db_get_Agent. simpl. rewrite find_app_last.
      destruct (find _ (agents (db w))); [reflexivity|]. simpl.
      destruct (String.eqb_spec (uuid4 R (uuids_drawn w)) k);
        [congruence|reflexivity].
Qed.

Lemma create_agent_then_get_witness :
  get_agent "id0"
    (snd (create_agent demo_runtime "Chef" "Cook" demo_world2))
  = (Ok {| models.agent_id := "id0"; models.name := "Chef";
           models.prompt := "Cook" |},
     snd (create_agent demo_runtime "Chef" "Cook" demo_world2)).
Proof.
  apply (proj1 (proj2 (proj2
    (proj1 (create_agent_then_get demo_runtime "Chef" "Cook" demo_world2)
       {| models.agent_id := "id0"; models.name := "Chef";
          models.prompt := "Cook" |} eq_refl)))).
Defined.

Lemma find_replace_agent_same (k : string) (a' : models.Agent)
    (l : list models.Agent) (a : models.Agent) :
  models.agent_id a' = k ->
  find (fun x => String.eqb (models.agent_id x) k) l = Some a ->
  find (fun x => String.eqb (models.agent_id x) k) (replace_agent k a' l)
  = Some a'.
Proof.
  intros Hk. induction l as [|x l IH]; simpl; [discriminate|].
  destruct (String.eqb (models.agent_id x) k) eqn:E.
  - intros _. now rewrite Hk, String.eqb_refl.
  - intros H. rewrite E. now apply IH.
Qed.

Lemma find_replace_agent_other (k k' : string) (a' : models.Agent)
    (l : list models.Agent) :
  models.agent_id a' = k -> k' <> k ->
  find (fun x => String.eqb (models.agent_id x) k') (replace_agent k a' l)
  = find (fun x => String.eqb (models.agent_id x) k') l.
Proof.
  intros Hk Hne. induction l as [|x l IH]; simpl; [reflexivity|].
  destruct (String.eqb_spec (models.agent_id x) k) as [E|E].
  - rewrite Hk, E.
    destruct (String.eqb_spec k k'); [congruence|exact IH].
  - destruct (String.eqb (models.agent_id x) k'); [reflexivity|exact IH].
Qed.

Lemma replace_agent_keys (k : string) (a' : models.Agent)
    (l : list models.Agent) :
  models.agent_id a' = k ->
  map models.agent_id (replace_agent k a' l) = map models.agent_id l.
Proof.
  intros Hk. induction l as [|x l IH]; simpl; [reflexivity|].
  rewrite IH.
  destruct (String.eqb_spec (models.agent_id x) k) as [E|E]; congruence.
Qed.

(** X23: [update_agent] answers 404 for an unknown id and then changes
    nothing.  For a known agent it keeps the id, replaces the name and
    the prompt only where the request provides them, and [get_agent]
    returns the updated agent from then on; a request with neither field
    returns the agent as it was.  Other agents, the number of agents, the
    sessions and the messages are untouched. *)
Theorem update_agent_semantics (k : string) (n p : option string) (w : World) :
  let w' := snd (update_agent k n p w) in
  (db_get_Agent (db w) k = None ->
     update_agent k n p w = (Raise (HTTPException 404 "Agent not found"), w))
  /\ (forall a, db_get_Agent (db w) k = Some a ->
     let a' := apply_update n p a in
     run_result (update_agent k n p) w = Ok a'
     /\ models.agent_id a' = k
     /\ models.name a' = default (models.name a) n
     /\ models.prompt a' = default (models.prompt a) p
     /\ (n = None -> p = None -> a' = a)
     /\ get_agent k w' = (Ok a', w')
     /\ (forall k', k' <> k ->
           db_get_Agent (db w') k' = db_get_Agent (db w) k')
     /\ map models.agent_id (agents (db w')) = map models.agent_id (agents (db w))
     /\ sessions (db w') = sessions (db w)
     /\ messages (db w') = messages (db w)
     /\ fs w' = fs w).
Proof.
  intros w'. subst w'. split.
  - intros H. unfold update_agent. now rewrite H.
  - intros a Ha a'. unfold run_result, update_agent. rewrite Ha.
    cbv zeta. fold a'. simpl.
    pose proof (find_some_key models.agent_id k _ _ Ha) as [Hk _].
    assert (Hk' : models.agent_id a' = k) by exact Hk.
    split; [reflexivity|]. split; [exact Hk'|].
    split; [destruct n; reflexivity|]. split; [destruct p; reflexivity|].
    split; [intros -> ->; subst a'; now destruct a|].
    split.
    { unfold get_agent, db_get_Agent. simpl.
      now rewrite (find_replace_agent_same k a' _ a Hk' Ha). }
    split.
    { intros k' Hne. unfold db_get_Agent. simpl.
      now apply find_replace_agent_other. }
    split; [now apply replace_agent_keys|].
    repeat split.
Qed.

Lemma update_agent_semantics_witness :
  run_result (update_agent "a2" None (Some "Haiku only")) demo_world2
  = Ok {| models.agent_id := "a2"; models.name := "Poet";
          models.prompt := "Haiku only" |}.
Proof.
  apply (proj1 (proj2 (update_agent_semantics "a2" None (Some "Haiku only")
                         demo_world2)
                  {| models.agent_id := "a2"; models.name := "Poet";
                     models.prompt := "Rhyme" |} eq_refl)).
Defined.

Lemma find_filter_out {A} (key : A -> string) (k : string) (l : list A) :
  find (fun x => String.eqb (key x) k)
       (List.filter (fun x => negb (String.eqb (key x) k)) l) = None.
Proof.
  induction l as [|x l IH]; simpl; [reflexivity|].
  destruct (String.eqb (key x) k) eqn:E; simpl; [exact IH|].
  now rewrite E.
Qed.

Lemma find_filter_keep {A} (key : A -> string) (k : string) (p : A -> bool)
    (l : list A) :
  (forall x, In x l -> key x = k -> p x = true) ->
  find (fun x => String.eqb (key x) k) (List.filter p l)
  = find (fun x => String.eqb (key x) k) l.
Proof.
  induction l as [|x l IH]; intros Hp; simpl; [reflexivity|].
  assert (IH' := IH (fun y Hy => Hp y (or_intror Hy))).
  destruct (String.eqb_spec (key x) k) as [E|E].
  - rewrite (Hp x (or_introl eq_refl) E). simpl.
    now rewrite E, String.eqb_refl.
  - destruct (p x); simpl; [|exact IH'].
    destruct (String.eqb_spec (key x) k); [contradiction|exact IH'].
Qed.

(** X24: [delete_agent] answers 404 for an unknown id and then changes
    nothing.  For a known agent it removes the agent, so that [get_agent]
    answers 404 afterwards; with it go all sessions of that agent, and
    every message of such a session.  Other agents are found as before,
    every session of another agent stays, and so does every message whose
    session is not one of the removed ones. *)
Theorem delete_agent_cascades (k : string) (w : World) :
  let w' := snd (delete_agent k w) in
  (db_get_Agent (db w) k = None ->
     delete_agent k w = (Raise (HTTPException 404 "Agent not found"), w))
  /\ (forall a, db_get_Agent (db w) k = Some a ->
     run_result (delete_agent k) w = Ok "Agent deleted successfully"
     /\ get_agent k w' = (Raise (HTTPException 404 "Agent not found"), w')
     /\ (forall k', k' <> k ->
           db_get_Agent (db w') k' = db_get_Agent (db w) k')
     /\ (forall s, In s (sessions (db w')) <->
           In s (sessions (db w)) /\ models.agent_id_fk s <> k)
     /\ (forall m, In m (messages (db w')) <->
           In m (messages (db w))
           /\ forall s, In s (sessions (db w)) ->
                models.agent_id_fk s = k ->
                models.id s <> models.session_id m)
     /\ fs w' = fs w).
Proof.
  intros w'. subst w'. unfold run_result, delete_agent. split.
  - intros H. now rewrite H.
  - intros a Ha. rewrite Ha. simpl.
    split; [reflexivity|]. split.
    { unfold get_agent, db_get_Agent. simpl.
      now rewrite (find_filter_out models.agent_id k). }
    split.
    { intros k' Hne. unfold db_get_Agent. simpl.
      apply find_filter_keep. intros x _ Hx.
      destruct (String.eqb_spec (models.agent_id x) k); [congruence|reflexivity]. }
    split.
    { intros s. rewrite filter_In. split; intros [H1 H2]; split; auto.
      - destruct (String.eqb_spec (models.agent_id_fk s) k); [discriminate|auto].
      - destruct (String.eqb_spec (models.agent_id_fk s) k);
          [contradiction|reflexivity]. }
    split; [|reflexivity].
    intros m. rewrite filter_In. split.
    + intros [H1 H2]. split; [exact H1|]. intros s Hs Hk Hid.
      apply negb_true_iff in H2. apply not_true_iff_false in H2. apply H2.
      apply existsb_exists. exists s. split.
      * apply filter_In. split; [exact Hs|]. now apply String.eqb_eq.
      * now apply String.eqb_eq.
    + intros [H1 H2]. split; [exact H1|].
      apply negb_true_iff. apply not_true_iff_false. intros Hex.
      apply existsb_exists in Hex as (s & Hs & Hid).
      apply filter_In in Hs as [Hs Hk].
      apply String.eqb_eq in Hk. apply String.eqb_eq in Hid.
      exact (H2 s Hs Hk Hid).
Qed.

Lemma delete_agent_cascades_witness :
  get_agent "a1" (snd (delete_agent "a1" demo_world2))
  = (Raise (HTTPException 404 "Agent not found"),
     snd (delete_agent "a1" demo_world2)).
Proof.
  apply (proj1 (proj2 (proj2 (delete_agent_cascades "a1" demo_world2)
                  {| models.agent_id := "a1"; models.name := "Tutor";
                     models.prompt := "Be concise" |} eq_refl))).
Defined.

Lemma NoDup_key_inj {A} (key : A -> string) (l : list A) (x y : A) :
  NoDup (map key l) -> In x l -> In y l -> key x = key y -> x = y.
Proof.
  induction l as [|z l IH]; simpl; intros Hnd Hx Hy Hk; [contradiction|].
  apply NoDup_cons in Hnd as [Hz Hl].
  destruct Hx as [->|Hx], Hy as [->|Hy]; auto.
  - exfalso. apply Hz. apply list_elem_of_In. rewrite Hk. now apply in_map.
  - exfalso. apply Hz. apply list_elem_of_In. rewrite <- Hk. now apply in_map.
Qed.

(** X25: once an agent has been deleted, its sessions cannot be addressed
    any more: a text turn, a voice turn and a history request for a
    session that belonged to it all answer 404 and change nothing.
    (Session ids are unique.) *)
Theorem deleted_agent_sessions_are_gone (V : Vendors) (R : Runtime)
    (self : AIServiceFactory) (k sid : string) (w : World)
    (a : models.Agent) (s : models.Session) :
  keys_unique (db w) ->
  db_get_Agent (db w) k = Some a ->
  db_get_Session (db w) sid = Some s ->
  models.agent_id_fk s = k ->
  let w' := snd (delete_agent k w) in
  (forall c,
     send_text_message V R self sid c w'
     = (Raise (HTTPException 404 "Session not found"), w'))
  /\ (forall filename upload,
     send_voice_message V R self sid filename upload w'
     = (Raise (HTTPException 404 "Session not found"), w'))
  /\ get_session_history sid w'
     = (Raise (HTTPException 404 "Session not found"), w').
Proof.
  intros [_ Hnd] Ha Hs Hk w'.
  assert (Hgone : db_get_Session (db w') sid = None).
  { subst w'. unfold delete_agent. rewrite Ha. simpl.
    unfold db_get_Session. simpl.
    destruct (find _ (List.filter _ (sessions (db w)))) as [s'|] eqn:E;
      [|reflexivity].
    exfalso. apply find_some_key in E as [Hid' Hin'].
    apply filter_In in Hin' as [Hin' Hfk].
    apply find_some_key in Hs as [Hid Hin].
    assert (s' = s)
      by (apply (NoDup_key_inj models.id (sessions (db w))); congruence).
    subst s'. rewrite Hk, String.eqb_refl in Hfk. discriminate. }
  split; [|split].
  - intros c. unfold send_text_message.
    now rewrite (bind_raise _ _ _ _ _
                   (get_session_and_agent_missing sid w' Hgone)).
  - intros filename upload. unfold send_voice_message.
    now rewrite (bind_raise _ _ _ _ _
                   (get_session_and_agent_missing sid w' Hgone)).
  - unfold get_session_history. now rewrite Hgone.
Qed.

Lemma deleted_agent_sessions_are_gone_witness :
  send_text_message demo_vendors demo_runtime (with_provider "openai")
    "s1" "2+2?" (snd (delete_agent "a1" demo_world2))
  = (Raise (HTTPException 404 "Session not found"),
     snd (delete_agent "a1" demo_world2)).
Proof.
  apply (proj1 (deleted_agent_sessions_are_gone demo_vendors demo_runtime
                  (with_provider "openai") "a1" "s1" demo_world2
                  {| models.agent_id := "a1"; models.name := "Tutor";
                     models.prompt := "Be concise" |}
                  {| models.id := "s1"; models.agent_id_fk := "a1" |}
                  ltac:(split; simpl; repeat (apply NoDup_cons; split;
                          [rewrite list_elem_of_In; simpl; intuition discriminate|]);
                        apply NoDup_nil; exact I)
                  eq_refl eq_refl eq_refl)).
Defined.

Lemma create_session_eq (R : Runtime) (k : string) (n : option string)
    (w : World) (a : models.Agent) :
  db_get_Agent (db w) k = Some a ->
  let new_session := {| models.id := uuid4 R (uuids_drawn w);
                        models.agent_id_fk := k |} in
  let w2 := {| fs := fs w; db := db w; log := log w;
               uuids_drawn := S (uuids_drawn w);
               clock_reads := S (clock_reads w) |} in
  create_session R k n w
  = match db_get_Session (db w) (uuid4 R (uuids_drawn w)) with
    | Some _ =>
        (Raise (IntegrityError "UNIQUE constraint failed: session.id"), w2)
    | None =>
        (Ok new_session,
         set_db {| agents := agents (db w);
                   sessions := sessions (db w) ++ [new_session];
                   messages := messages (db w) |} w2)
    end.
Proof. intros Ha. unfold create_session. rewrite Ha. reflexivity. Qed.

(** X26: [create_session] answers 404 for an unknown agent and then
    changes nothing.  A session it returns is bound to the agent asked
    for, and the chat endpoints find it together with that agent from
    then on; sessions that existed are found as before, and agents and
    messages are untouched. *)
Theorem create_session_then_chat (R : Runtime) (k : string) (n : option string)
    (w : World) :
  let w' := snd (create_session R k n w) in
  (db_get_Agent (db w) k = None ->
     create_session R k n w = (Raise (HTTPException 404 "Agent not found"), w))
  /\ (forall a s,
     db_get_Agent (db w) k = Some a ->
     run_result (create_session R k n) w = Ok s ->
     models.agent_id_fk s = k
     /\ get_session_and_agent (models.id s) w' = (Ok (s, Some a), w')
     /\ (forall sid, sid <> models.id s ->
           db_get_Session (db w') sid = db_get_Session (db w) sid)
     /\ sessions (db w') = sessions (db w) ++ [s]
     /\ agents (db w') = agents (db w)
     /\ messages (db w') = messages (db w)).
Proof.
  intros w'. subst w'. split.
  - intros H. unfold create_session. now rewrite H.
  - intros a s Ha. unfold run_result.
    rewrite (create_session_eq R k n w a Ha). cbv zeta.
    destruct (db_get_Session (db w) (uuid4 R (uuids_drawn w))) as [old|] eqn:Hg;
      simpl; [discriminate|].
    intros H. injection H as <-. simpl.
    split; [reflexivity|]. split.
    { unfold get_session_and_agent, db_get_Session. simpl.
      rewrite find_app_last. unfold db_get_Session in Hg. rewrite Hg. simpl.
      rewrite String.eqb_refl. unfold db_get_Agent in *. simpl.
      now rewrite Ha. }
    split; [|repeat split].
    intros sid Hne. unfold db_get_Session. simpl. rewrite find_app_last.
    destruct (find _ (sessions (db w))); [reflexivity|]. simpl.
    destruct (String.eqb_spec (uuid4 R (uuids_drawn w)) sid);
      [congruence|reflexivity].
Qed.

Lemma create_session_then_chat_witness :
  get_session_and_agent "id0"
    (snd (create_session demo_runtime "a2" (Some "New Chat") demo_world2))
  = (Ok ({| models.id := "id0"; models.agent_id_fk := "a2" |},
         Some {| models.agent_id := "a2"; models.name := "Poet";
                 models.prompt := "Rhyme" |}),
     snd (create_session demo_runtime "a2" (Some "New Chat") demo_world2)).
Proof.
  apply (proj1 (proj2
    (proj2 (create_session_then_chat demo_runtime "a2" (Some "New Chat")
              demo_world2)
       {| models.agent_id := "a2"; models.name := "Poet";
          models.prompt := "Rhyme" |}
       {| models.id := "id0"; models.agent_id_fk := "a2" |}
       eq_refl eq_refl))).
Defined.

(** X27: [get_session_history] answers 404 for an unknown session; for a
    known one it returns, without changing anything, the rows that
    [fetch_formatted_history] formats for the gateway: the same rows in
    the same order, those of this session by ascending [created_at]. *)
Theorem get_session_history_matches_fetch (sid : string) (w : World) :
  (db_get_Session (db w) sid = None ->
     get_session_history sid w
     = (Raise (HTTPException 404 "Session not found"), w))
  /\ (forall s, db_get_Session (db w) sid = Some s ->
     exists rows,
       get_session_history sid w = (Ok rows, w)
       /\ fetch_formatted_history sid w = (Ok (map history_entry rows), w)
       /\ StronglySorted created_le rows
       /\ Permutation rows (session_rows sid (db w))).
Proof.
  unfold get_session_history. split.
  - intros H. now rewrite H.
  - intros s H. rewrite H.
    exists (order_by_created_at (session_rows sid (db w))).
    split; [reflexivity|]. split; [reflexivity|].
    split; [apply order_by_created_at_sorted|apply order_by_created_at_perm].
Qed.

Lemma get_session_history_matches_fetch_witness :
  exists rows,
    get_session_history "s1" demo_world2 = (Ok rows, demo_world2)
    /\ fetch_formatted_history "s1" demo_world2
       = (Ok (map history_entry rows), demo_world2)
    /\ StronglySorted created_le rows
    /\ Permutation rows (session_rows "s1" (db demo_world2)).
Proof.
  apply (proj2 (get_session_history_matches_fetch "s1" demo_world2)
           {| models.id := "s1"; models.agent_id_fk := "a1" |} eq_refl).
Defined.

Lemma NoDup_keys_app_fresh {A} (key : A -> string) (l : list A) (x : A) :
  NoDup (map key l) ->
  find (fun y => String.eqb (key y) (key x)) l = None ->
  NoDup (map key (l ++ [x])).
Proof.
  intros Hnd Hf. rewrite map_app. simpl.
  apply NoDup_app. split; [exact Hnd|]. split.
  - intros k Hk Hk'. apply list_elem_of_In in Hk.
    apply list_elem_of_In in Hk'. simpl in Hk'. destruct Hk' as [<-|[]].
    now apply (find_none_not_in_keys key (key x) l) in Hf.
  - apply NoDup_singleton.
Qed.

Lemma send_text_message_keeps_tables (V : Vendors) (R : Runtime)
    (self : AIServiceFactory) (sid c : string) (w : World) :
  agents (db (snd (send_text_message V R self sid c w))) = agents (db w)
  /\ sessions (db (snd (send_text_message V R self sid c w)))
     = sessions (db w).
Proof.
  destruct (db_get_Session (db w) sid) as [s|] eqn:Hs.
  2:{ unfold send_text_message.
      rewrite (bind_raise _ _ _ _ _ (get_session_and_agent_missing sid w Hs)).
      now split. }
  destruct (send_text_message_cases V R self sid c w s Hs)
    as (w2 & F & D & [[e E]|[[e E]|[r E]]]); rewrite E; simpl;
    rewrite ?D; simpl; now split.
Qed.

(** X28: the routers keep primary keys unique.  If no two agents and no
    two sessions share an id, the same holds after [create_agent],
    [update_agent], [delete_agent] and [create_session], whether they
    succeed or fail, and after a text turn. *)
Theorem routers_keep_keys_unique (V : Vendors) (R : Runtime)
    (self : AIServiceFactory) (w : World) :
  keys_unique (db w) ->
  (forall n p, keys_unique (db (snd (create_agent R n p w))))
  /\ (forall k n p, keys_unique (db (snd (update_agent k n p w))))
  /\ (forall k, keys_unique (db (snd (delete_agent k w))))
  /\ (forall k n, keys_unique (db (snd (create_session R k n w))))
  /\ (forall sid c, keys_unique (db (snd (send_text_message V R self sid c w)))).
Proof.
  intros [Ha Hs].
  split; [|split; [|split; [|split]]].
  - intros n p. rewrite (create_agent_eq R n p w). cbv zeta.
    destruct (db_get_Agent (db w) (uuid4 R (uuids_drawn w))) eqn:E;
      simpl; split; auto.
    now apply NoDup_keys_app_fresh.
  - intros k n p. unfold update_agent.
    destruct (db_get_Agent (db w) k) as [a|] eqn:E; [|now split].
    split; [|exact Hs].
    change (NoDup (map models.agent_id
                     (replace_agent k (apply_update n p a) (agents (db w))))).
    rewrite replace_agent_keys; [exact Ha|].
    now apply (find_some_key models.agent_id k) in E as [E _].
  - intros k. unfold delete_agent.
    destruct (db_get_Agent (db w) k); simpl; split; auto;
      now apply NoDup_map_filter.
  - intros k n.
    destruct (db_get_Agent (db w) k) as [a|] eqn:E.
    + rewrite (create_session_eq R k n w a E). cbv zeta.
      destruct (db_get_Session (db w) (uuid4 R (uuids_drawn w))) eqn:E2;
        simpl; split; auto.
      now apply NoDup_keys_app_fresh.
    + unfold create_session. rewrite E. now split.
  - intros sid c.
    destruct (send_text_message_keeps_tables V R self sid c w) as (HA & HS).
    split; [now rewrite HA|now rewrite HS].
Qed.

Lemma routers_keep_keys_unique_witness :
  keys_unique (db (snd (create_session demo_runtime "a1" None demo_world2))).
Proof.
  apply (proj1 (proj2 (proj2 (proj2
    (routers_keep_keys_unique demo_vendors demo_runtime
       (with_provider "openai") demo_world2
       ltac:(split; simpl; repeat (apply NoDup_cons; split;
               [rewrite list_elem_of_In; simpl; intuition discriminate|]);
             apply NoDup_nil; exact I)))))).
Defined.

Lemma fetch_formatted_history_sorted_witness :
  exists rows,
    fetch_formatted_history "s1" demo_world2
    = (Ok (map history_entry rows), demo_world2)
    /\ Permutation rows (session_rows "s1" (db demo_world2))
    /\ StronglySorted created_le rows.
Proof.
  destruct (fetch_formatted_history_sorted "s1" demo_world2)
    as (rows & H1 & H2 & H3 & _).
  exists rows. repeat split; assumption.
Defined.
